(** * Carving pre-processing pipeline (ilastik/workflows/carving/opPreprocessing.py)

    A shallow embedding of the five lazyflow operators of the file
    ([OpFilter], [OpNormalize255], [OpSimpleBlockwiseWatershed],
    [OpMstSegmentorProvider], [OpPreprocessing]), of the dataset check
    [OpPreprocessing._checkConstraints], and the properties of the
    specification and of the code that concern them.

    Conventions.
    - A Python call that may raise returns an [outcome]; code that also
      mutates attributes or emits signals runs in the state-and-exception
      monad [M], whose final state is kept when an exception propagates.
    - A numpy array is its shape and its elements in row-major order.
      Integer elements are [Z]; what is assigned to a [uint32] array is
      reduced modulo [2^32].
    - float32 elements are [spec_float] values with the binary32 parameters
      (24-bit significand, infinities at exponent 128); the arithmetic is the
      round-to-nearest-even arithmetic of [SpecFloat].
    - Routines that live outside the file (the block-parallel filter, the
      watershed back ends, the graph constructor, upstream slots) are
      parameters; every call made to them is recorded with its arguments. *)

From Stdlib Require Import ZArith List Ascii String Bool Lia.
From Stdlib Require Import Floats.SpecFloat.
From stdpp Require Import base option list gmap strings pretty.
Import ListNotations.
Local Open Scope Z_scope.

(* ===================================================================== *)
(** * Python outcomes and the state-and-exception monad                  *)
(* ===================================================================== *)

Inductive pykey : Type := KInt (k : Z) | KStr (k : string).

Inductive exn : Type :=
| AssertionError (msg : string)
| ValueError (msg : string)
| KeyError (key : pykey)
| IndexError
| UpstreamError (msg : string).   (* raised by an upstream slot or a back end *)

Inductive outcome (A : Type) : Type :=
| Ok (a : A)
| Raise (e : exn).
Arguments Ok {A} a.
Arguments Raise {A} e.

Definition obind {A B} (o : outcome A) (k : A -> outcome B) : outcome B :=
  match o with Ok a => k a | Raise e => Raise e end.

Definition py_assert (b : bool) (msg : string) : outcome unit :=
  if b then Ok tt else Raise (AssertionError msg).

#[export] Instance outcome_ret : MRet outcome := @Ok.
#[export] Instance outcome_bind : MBind outcome := fun A B k o => obind o k.

(** [M S A]: a computation over a mutable state [S]; an exception keeps the
    state reached when it was raised. *)
Definition M (S A : Type) : Type := S -> outcome A * S.

Definition m_ret {S A} (a : A) : M S A := fun s => (Ok a, s).
Definition m_raise {S A} (e : exn) : M S A := fun s => (Raise e, s).
Definition m_bind {S A B} (m : M S A) (k : A -> M S B) : M S B :=
  fun s => match m s with
           | (Ok a, s') => k a s'
           | (Raise e, s') => (Raise e, s')
           end.
Definition m_gets {S A} (f : S -> A) : M S A := fun s => (Ok (f s), s).
Definition m_modify {S} (f : S -> S) : M S unit := fun s => (Ok tt, f s).
Definition m_lift {S A} (o : outcome A) : M S A := fun s => (o, s).

(** Run a computation over a component [T] of the state [S]. *)
Definition m_zoom {S T A} (get : S -> T) (set : T -> S -> S) (m : M T A) : M S A :=
  fun s => let (r, t') := m (get s) in (r, set t' s).

(** [try: body finally: cleanup].  The cleanup runs on every exit of the
    body; the body's outcome (value or exception) is what leaves the
    statement unless the cleanup itself raises. *)
Definition try_finally {S A} (body : M S A) (cleanup : M S unit) : M S A :=
  fun s => let (r, s1) := body s in
           match cleanup s1 with
           | (Ok _, s2) => (r, s2)
           | (Raise e, s2) => (Raise e, s2)
           end.

#[export] Instance M_ret S : MRet (M S) := @m_ret S.
#[export] Instance M_bind S : MBind (M S) := fun A B k m => m_bind m k.

(* ===================================================================== *)
(** * Python text: what an f-string shows                                *)
(* ===================================================================== *)

(** [str(n)] of an int, and of a tuple of ints. *)
Definition py_str (n : Z) : string := pretty n.

Definition py_str_tuple (sh : list Z) : string :=
  match sh with
  | [] => "()"
  | [d] => "(" ++ py_str d ++ ",)"
  | _ => "(" ++ String.concat ", " (map py_str sh) ++ ")"
  end.

(** [repr(s)] of a [str].  A character is its code point, below 256 here:
    the printable ones are the ASCII characters from the space to the
    tilde and the Latin-1 characters from 161 on, the soft hyphen 173
    excepted. *)
Definition quote1 : ascii := ascii_of_nat 39.
Definition quote2 : ascii := ascii_of_nat 34.
Definition backslash : ascii := ascii_of_nat 92.

Definition isprintable (c : ascii) : bool :=
  let n := nat_of_ascii c in
  ((32 <=? n) && (n <=? 126) || (161 <=? n) && negb (n =? 173))%nat.

Definition hex_digit (n : nat) : ascii :=
  nth n (list_ascii_of_string "0123456789abcdef") "0"%char.

Definition string_of_char (c : ascii) : string := String c EmptyString.

(** One character between the quotes [q]. *)
Definition py_repr_char (q c : ascii) : string :=
  let n := nat_of_ascii c in
  if bool_decide (c = backslash) || bool_decide (c = q)
  then String backslash (string_of_char c)
  else if (n =? 9)%nat then "\t"
  else if (n =? 10)%nat then "\n"
  else if (n =? 13)%nat then "\r"
  else if isprintable c then string_of_char c
  else String backslash
         (String "x" (String (hex_digit (n / 16)) (string_of_char (hex_digit (n mod 16))))).

Definition contains_char (c : ascii) (s : string) : bool :=
  existsb (fun d => bool_decide (d = c)) (list_ascii_of_string s).

(** Single quotes, unless the text holds a single quote and no double one. *)
Definition py_repr (s : string) : string :=
  let q := if contains_char quote1 s && negb (contains_char quote2 s)
           then quote2 else quote1 in
  String q (String.concat EmptyString (map (py_repr_char q) (list_ascii_of_string s))
            ++ string_of_char q).

(** [str(l)] of a list of [str]: the [repr] of its items. *)
Definition py_str_list (l : list string) : string :=
  "[" ++ String.concat ", " (map py_repr l) ++ "]".

(* ===================================================================== *)
(** * numpy arrays                                                       *)
(* ===================================================================== *)

Record ndarray (A : Type) : Type := mk_ndarray {
  shape : list Z;
  data : list A               (* row-major (C order) *)
}.
Arguments mk_ndarray {A} shape data.
Arguments shape {A} _.
Arguments data {A} _.

Definition ndim {A} (a : ndarray A) : Z := Z.of_nat (length (shape a)).

Definition size_of (sh : list Z) : Z := fold_right Z.mul 1 sh.

(** [a.squeeze()]: all axes of length one are removed. *)
Definition squeeze {A} (a : ndarray A) : ndarray A :=
  mk_ndarray (List.filter (fun n => negb (n =? 1)) (shape a)) (data a).

(** lazyflow regions of interest. *)
Record roi_t : Type := mk_roi { start : list Z; stop : list Z }.

(** [roi.stop - roi.start] (element-wise on equally long vectors). *)
Definition roi_extent (r : roi_t) : list Z :=
  map (fun p => snd p - fst p) (combine (start r) (stop r)).

Definition roiFromShape (sh : list Z) : roi_t :=
  mk_roi (map (fun _ => 0) sh) sh.

Definition list_Z_eqb (a b : list Z) : bool := bool_decide (a = b).

(** Row-major selection of the block [start:stop] of an array of shape
    [sh]: the outermost axis is cut into [d] rows of [size_of sh'] elements,
    the rows [a .. b-1] are kept and cut recursively. *)
Fixpoint chunks {A} (k sz : nat) (l : list A) : list (list A) :=
  match k with
  | O => []
  | S k' => firstn sz l :: chunks k' sz (skipn sz l)
  end.

Fixpoint slice_nd {A} (sh st sp : list Z) (l : list A) : list A :=
  match sh, st, sp with
  | d :: sh', a :: st', b :: sp' =>
      let rows := chunks (Z.to_nat d) (Z.to_nat (size_of sh')) l in
      let kept := firstn (Z.to_nat (b - a)) (skipn (Z.to_nat a) rows) in
      concat (map (slice_nd sh' st' sp') kept)
  | _, _, _ => l
  end.

(** An output slot that serves regions of an array held in memory. *)
Definition slot_of_volume {A} (v : ndarray A) (r : roi_t) : outcome (ndarray A) :=
  Ok (mk_ndarray (roi_extent r) (slice_nd (shape v) (start r) (stop r) (data v))).

(** An array is well formed when it has as many elements as its shape says. *)
Definition wf_ndarray {A} (a : ndarray A) : Prop :=
  Forall (fun d => 0 <= d) (shape a) /\
  length (data a) = Z.to_nat (size_of (shape a)).

(* ===================================================================== *)
(** * float32 arithmetic                                                 *)
(* ===================================================================== *)

Module F32.
Definition prec : Z := 24.
Definition emax : Z := 128.
Definition t : Type := spec_float.

Definition sub : t -> t -> t := SFsub prec emax.
Definition mul : t -> t -> t := SFmul prec emax.
Definition div : t -> t -> t := SFdiv prec emax.
Definition neg : t -> t := SFopp.
Definition valid (x : t) : bool := valid_binary prec emax x.

Definition of_Z (z : Z) : t := binary_normalize prec emax z 0 false.

(** The literal [255.0]. *)
Definition c255 : t := S754_finite false 16711680 (-16).
Definition pzero : t := S754_zero false.
Definition nan : t := S754_nan.
Definition pinf : t := S754_infinity false.

Definition is_nan (x : t) : bool :=
  match x with S754_nan => true | _ => false end.

(** Neither NaN nor an infinity. *)
Definition is_finite (x : t) : bool :=
  match x with S754_zero _ | S754_finite _ _ _ => true | _ => false end.

Definition geb (a b : t) : bool :=
  match SFcompare a b with Some Gt | Some Eq => true | _ => false end.
Definition leb (a b : t) : bool := SFleb a b.
Definition ltb (a b : t) : bool := SFltb a b.

(** numpy's scalar kernels for [maximum] and [minimum]: NaN wins,
    otherwise the comparison decides. *)
Definition maximum (a b : t) : t := if geb a b || is_nan a then a else b.
Definition minimum (a b : t) : t := if leb a b || is_nan a then a else b.
End F32.

(** [numpy.max(a)] and [numpy.min(a)] over all elements; an empty array has
    no maximum and numpy raises [ValueError]. *)
Definition np_max (a : ndarray F32.t) : outcome F32.t :=
  match data a with
  | [] => Raise (ValueError "zero-size array to reduction operation maximum which has no identity")
  | x :: l => Ok (fold_left F32.maximum l x)
  end.

Definition np_min (a : ndarray F32.t) : outcome F32.t :=
  match data a with
  | [] => Raise (ValueError "zero-size array to reduction operation minimum which has no identity")
  | x :: l => Ok (fold_left F32.minimum l x)
  end.

(** In-place element-wise update [a[:] op= c]. *)
Definition inplace {A} (f : A -> A) (a : ndarray A) : ndarray A :=
  mk_ndarray (shape a) (map f (data a)).

(** The value an integer has once it is stored in an array of dtype
    [numpy.uint32]: assignment casts as C does, modulo [2^32]. *)
Definition uint32 (n : Z) : Z := n mod 2 ^ 32.

(** What an integer array leaves in a [uint32] array it is assigned to. *)
Definition astype_uint32 (a : ndarray Z) : ndarray Z := inplace uint32 a.

(* ===================================================================== *)
(** * Views, slice assignment, slot metadata, the world outside           *)
(* ===================================================================== *)

(** [nth_error] with Python's error: [l[i]]. *)
Definition getitem {A} (l : list A) (i : nat) : outcome A :=
  match nth_error l i with
  | Some x => Ok x
  | None => Raise IndexError
  end.

(** [l[i] = x] on a Python list or a one-dimensional object array. *)
Definition setitem {A} (l : list A) (i : nat) (x : A) : outcome (list A) :=
  if bool_decide (i < length l)%nat then Ok (<[i := x]> l) else Raise IndexError.

(** Writing the rows of [src] (row-major, of the block's own shape) over the
    block [st:sp] of an array of shape [sh]; the inverse of [slice_nd]. *)
Fixpoint assign_nd {A} (sh st sp : list Z) (l src : list A) : list A :=
  match sh, st, sp with
  | d :: sh', a :: st', b :: sp' =>
      let rows := chunks (Z.to_nat d) (Z.to_nat (size_of sh')) l in
      let bsz := Z.to_nat (size_of (map (fun p => snd p - fst p) (combine st' sp'))) in
      let src_rows := chunks (Z.to_nat (b - a)) bsz src in
      let na := Z.to_nat a in
      let nb := Z.to_nat (b - a) in
      concat (firstn na rows
                ++ zip_with (assign_nd sh' st' sp') (firstn nb (skipn na rows)) src_rows
                ++ skipn (na + nb) rows)
  | _, _, _ => src
  end.

(** numpy broadcasting of a source of shape [ssh] to the shape [dsh] of
    equal length: an axis of the source either has the destination's
    extent or has extent one and is repeated. *)
Fixpoint broadcast_eq {A} (ssh dsh : list Z) (l : list A) : option (list A) :=
  match ssh, dsh with
  | [], [] => Some l
  | s :: ssh', d :: dsh' =>
      let rows := chunks (Z.to_nat s) (Z.to_nat (size_of ssh')) l in
      rows' ← mapM (broadcast_eq ssh' dsh') rows;
      if s =? d then Some (concat rows')
      else if s =? 1 then Some (concat (concat (replicate (Z.to_nat d) rows')))
      else None
  | _, _ => None
  end.

(** Shapes are aligned on the right: a shorter source gets leading axes of
    extent one, a longer one may only have extra leading axes of extent one. *)
Definition broadcast_to {A} (ssh dsh : list Z) (l : list A) : option (list A) :=
  let ns := length ssh in
  let nd := length dsh in
  if bool_decide (ns <= nd)%nat
  then broadcast_eq (replicate (nd - ns) 1 ++ ssh) dsh l
  else if forallb (fun s => s =? 1) (firstn (ns - nd) ssh)
       then broadcast_eq (skipn (ns - nd) ssh) dsh l
       else None.

(** A basic-indexing view: the block of the base array it selects and the
    shape it presents (integer indices drop their axis). *)
Record view : Type := mk_view {
  v_start : list Z;
  v_stop : list Z;
  v_shape : list Z
}.

Definition zeros_like (sh : list Z) : list Z := map (fun _ => 0) sh.

(** [a[0, ..., 0]]: first index on the first axis, first on the last. *)
Definition view_0_ellipsis_0 (sh : list Z) : outcome view :=
  match sh with
  | t :: rest =>
      match rev rest with
      | c :: rmid =>
          let mid := rev rmid in
          if (0 <? t) && (0 <? c)
          then Ok (mk_view (zeros_like sh) (1 :: mid ++ [1]) mid)
          else Raise IndexError
      | [] => Raise IndexError
      end
  | [] => Raise IndexError
  end.

(** [a[0, ..., 0, 0]]: first index on the first axis and on the last two. *)
Definition view_0_ellipsis_0_0 (sh : list Z) : outcome view :=
  match sh with
  | t :: rest =>
      match rev rest with
      | c :: z :: rmid =>
          let mid := rev rmid in
          if (0 <? t) && (0 <? z) && (0 <? c)
          then Ok (mk_view (zeros_like sh) (1 :: mid ++ [1; 1]) mid)
          else Raise IndexError
      | _ => Raise IndexError
      end
  | [] => Raise IndexError
  end.

(** [a[0, :, :, :, 0]] on a five-dimensional array. *)
Definition view_0_xyz_0 (sh : list Z) : outcome view :=
  match sh with
  | [t; x; y; z; c] =>
      if (0 <? t) && (0 <? c)
      then Ok (mk_view [0; 0; 0; 0; 0] [1; x; y; z; 1] [x; y; z])
      else Raise IndexError
  | _ => Raise IndexError
  end.

(** [a[0, :, :, :, 0][:, :, 0]] on a five-dimensional array. *)
Definition view_0_xy00 (sh : list Z) : outcome view :=
  match sh with
  | [t; x; y; z; c] =>
      if (0 <? t) && (0 <? z) && (0 <? c)
      then Ok (mk_view [0; 0; 0; 0; 0] [1; x; y; 1; 1] [x; y])
      else Raise IndexError
  | _ => Raise IndexError
  end.

(** Reading [a[view]]. *)
Definition read_view {A} (a : ndarray A) (v : view) : ndarray A :=
  mk_ndarray (v_shape v) (slice_nd (shape a) (v_start v) (v_stop v) (data a)).

(** [a[view] = src]: the source is broadcast to the view's shape, and
    numpy raises [ValueError] when it cannot be. *)
Definition write_view {A} (a : ndarray A) (v : view) (src : ndarray A)
  : outcome (ndarray A) :=
  match broadcast_to (shape src) (v_shape v) (data src) with
  | Some d => Ok (mk_ndarray (shape a)
                    (assign_nd (shape a) (v_start v) (v_stop v) (data a) d))
  | None => Raise (ValueError "could not broadcast input array")
  end.

(** vigra axis tags and lazyflow slot metadata. *)
Record AxisInfo : Type := mk_axis { key : string; isSpatial : bool }.

Record slot_meta : Type := mk_meta {
  axistags : list AxisInfo;
  meta_shape : list Z
}.

Definition getAxisKeys (m : slot_meta) : list string := map key (axistags m).

(** [meta.getTaggedShape()[k]]: the extent filed under the axis key. *)
Definition getTaggedShape_at (m : slot_meta) (k : string) : outcome Z :=
  match list_find (fun p => fst p = k) (combine (getAxisKeys m) (meta_shape m)) with
  | Some (_, (_, d)) => Ok d
  | None => Raise (KeyError (KStr k))
  end.

(** An input slot of array type: its metadata and what a request for a
    region returns. *)
Record array_slot (A : Type) : Type := mk_slot {
  meta : slot_meta;
  get : roi_t -> outcome (ndarray A)
}.
Arguments mk_slot {A} meta get.
Arguments meta {A} _.
Arguments get {A} _ _.

(** [slot.value]: the request for the whole region. *)
Definition value {A} (s : array_slot A) : outcome (ndarray A) :=
  get s (roiFromShape (meta_shape (meta s))).

(** Python floats (binary64), used for parameters only. *)
Definition pyfloat : Type := spec_float.

(** The graph object built by [WatershedSegmentor]: what the constructor
    built is opaque and named by [graph]; [raw] is the attribute the
    operator clears. *)
Record segmentor : Type := mk_segmentor {
  graph : Z;
  raw : option (ndarray F32.t)
}.

(** Everything the operators call but do not define. *)
Record backend : Type := mk_backend {
  (* Request.global_thread_pool.num_workers *)
  num_workers : Z;
  (* carvingTools.parallel_filter(name, fvol, sigma, max_workers, return_channel) *)
  parallel_filter :
    string -> ndarray F32.t -> pyfloat -> Z -> option Z -> outcome (ndarray F32.t);
  (* carvingTools.watershed_and_agglomerate(input, max_workers, size_regularizer, reduce_to) *)
  watershed_and_agglomerate :
    ndarray F32.t -> Z -> pyfloat -> pyfloat -> outcome (ndarray Z * Z);
  (* vigra.analysis.watershedsNew(input) *)
  watershedsNew : ndarray F32.t -> outcome (ndarray Z * Z);
  (* WatershedSegmentor(labels, features, edgeWeightFunctor="minimum",
     progressCallback): the progress values it reports while it runs, then
     the object it returns or the exception it raises *)
  WatershedSegmentor :
    ndarray Z -> ndarray F32.t -> list Z * outcome segmentor
}.

(** What is observable from outside: calls to the back ends with their
    arguments, progress signals, dirty notifications. *)
Inductive event : Type :=
| Call_parallel_filter (filter_name : string) (fvol : ndarray F32.t)
    (sigma : pyfloat) (max_workers : Z) (return_channel : option Z)
| Call_watershed_and_agglomerate (input_ : ndarray F32.t) (max_workers : Z)
    (size_regularizer reduce_to : pyfloat)
| Call_watershedsNew (input_ : ndarray F32.t)
| Call_WatershedSegmentor (labels : ndarray Z) (features : ndarray F32.t)
| ProgressSignal (x : Z)
| MST_requested
| SetDirty_PreprocessedData.

(** The applet object shared by the operators: its [progress] attribute,
    and the log of events in the order they happened. *)
Record applet_t : Type := mk_applet {
  progress : Z;
  log : list event
}.

Definition emit (e : event) : M applet_t unit :=
  m_modify (fun a => mk_applet (progress a) (log a ++ [e])).

Definition set_progress (x : Z) : M applet_t unit :=
  m_modify (fun a => mk_applet x (log a)).

(** [self.applet.progressSignal(x)]. *)
Definition progressSignal (x : Z) : M applet_t unit := emit (ProgressSignal x).

(* ===================================================================== *)
(** * OpNormalize255                                                     *)
(* ===================================================================== *)

Module OpNormalize255.

(** The operator's only state is its connection to the upstream slot. *)
Record t : Type := mk { Input : array_slot F32.t }.

(** [execute(self, slot, subindex, roi, result)].
    [self.Input(roi.start, roi.stop).writeInto(result).wait()] fills the
    destination with the requested region; what the buffer held before is
    lost. *)
Definition execute (self : t) (roi : roi_t) (result : ndarray F32.t)
  : outcome (ndarray F32.t) :=
  result ← get (Input self) roi;
  volume_max ← np_max result;
  volume_min ← np_min result;
  let result := inplace (fun x => F32.sub x volume_min) result in
  let result := inplace (fun x => F32.mul x F32.c255) result in
  let result := inplace (fun x => F32.div x (F32.sub volume_max volume_min)) result in
  Ok result.

(** What one element becomes. *)
Definition rescale (volume_min volume_max x : F32.t) : F32.t :=
  F32.div (F32.mul (F32.sub x volume_min) F32.c255)
          (F32.sub volume_max volume_min).

End OpNormalize255.

(* ===================================================================== *)
(** * OpFilter                                                           *)
(* ===================================================================== *)

Module OpFilter.

Definition HESSIAN_BRIGHT : Z := 0.
Definition HESSIAN_DARK : Z := 1.
Definition STEP_EDGES : Z := 2.
Definition RAW : Z := 3.
Definition RAW_INVERTED : Z := 4.

Definition FILTER_NAMES : gmap Z string :=
  list_to_map
    [ (0, "hessianOfGaussianEigenvalues"%string);
      (1, "hessianOfGaussianEigenvalues"%string);
      (2, "gaussianGradientMagnitude"%string);
      (3, "gaussianSmoothing"%string);
      (4, "gaussianSmoothing"%string) ].

(** Input slots.  Raw data of another dtype is taken after
    [numpy.asarray(volume, numpy.float32)]. *)
Record t : Type := mk {
  Input : array_slot F32.t;
  Filter : Z;
  Sigma : pyfloat
}.

(** [ax[i].key == k and sh[i] == 1]; [and] does not evaluate its right
    operand when the left one is false. *)
Definition key_and_extent_one (ax : list AxisInfo) (sh : list Z)
           (i : nat) (k : string) : outcome bool :=
  a ← getitem ax i;
  if bool_decide (key a = k)
  then (d ← getitem sh i; Ok (d =? 1))
  else Ok false.

(** [for i in range(1, 4): assert ax[i].isSpatial()]. *)
Fixpoint assert_spatial (ax : list AxisInfo) (range : list nat) : outcome unit :=
  match range with
  | [] => Ok tt
  | i :: range' =>
      a ← getitem ax i;
      py_assert (isSpatial a) "";;
      assert_spatial ax range'
  end.

(** The channel of the eigenvalue response that is kept. *)
Definition select_channel (volume_filter : Z) (fvol : ndarray F32.t) : option Z :=
  if volume_filter =? HESSIAN_BRIGHT then Some (ndim fvol - 1)
  else if volume_filter =? HESSIAN_DARK then Some 0
  else None.

Definition execute (env : backend) (self : t) (roi : roi_t)
           (result : ndarray F32.t) : M applet_t (ndarray F32.t) :=
  (* make sure raw data is 5D: t,{x,y,z},c *)
  let ax := axistags (meta (Input self)) in
  let sh := meta_shape (meta (Input self)) in
  m_lift (py_assert (bool_decide (length ax = 5%nat)) "");;
  c0 ← m_lift (key_and_extent_one ax sh 0 "t");
  m_lift (py_assert c0 "");;
  m_lift (assert_spatial ax [1; 2; 3]%nat);;
  c4 ← m_lift (key_and_extent_one ax sh 4 "c");
  m_lift (py_assert c4 "");;
  volume5d ← m_lift (value (Input self));
  let sigma := Sigma self in
  vv ← m_lift (view_0_xyz_0 (shape volume5d));
  let volume := read_view volume5d vv in
  (* result_view = result[0, :, :, :, 0] *)
  result_view ← m_lift (view_0_xyz_0 (shape result));
  let fvol := volume in
  (* Choose filter selected by user *)
  let volume_filter := Filter self in
  filter_name ← m_lift (match FILTER_NAMES !! volume_filter with
                        | Some n => Ok n
                        | None => Raise (KeyError (KInt volume_filter))
                        end);
  (* reduce to a 2d volume if we have actual 2d input *)
  d2 ← m_lift (getitem (shape fvol) 2);
  let fvol := if d2 =? 1
              then mk_ndarray (firstn 2 (shape fvol)) (data fvol)
              else fvol in
  (* invert the input for filter mode RAW_INVERTED *)
  let fvol := if volume_filter =? RAW_INVERTED then inplace F32.neg fvol else fvol in
  (* for the hessian filters only one channel is kept *)
  let channel := select_channel volume_filter fvol in
  (* the Request threadpool may not have any workers *)
  let max_workers := Z.max 1 (num_workers env) in
  (* compute the filter response block-wise *)
  emit (Call_parallel_filter filter_name fvol sigma max_workers channel);;
  response ← m_lift (parallel_filter env filter_name fvol sigma max_workers channel);
  (* need to invert response for hessian bright *)
  response ← m_lift (if volume_filter =? HESSIAN_BRIGHT
                     then (mx ← np_max response;
                           Ok (inplace (fun x => F32.sub mx x) response))
                     else Ok response);
  (* write the response to result view *)
  if ndim fvol =? 2
  then (rv ← m_lift (view_0_xy00 (shape result));
        m_lift (write_view result rv response))
  else m_lift (write_view result result_view response).

End OpFilter.

(* ===================================================================== *)
(** * OpSimpleBlockwiseWatershed                                         *)
(* ===================================================================== *)

Module OpSimpleBlockwiseWatershed.

Record t : Type := mk {
  Input : array_slot F32.t;
  DoAgglo : Z;
  SizeRegularizer : pyfloat;
  ReduceTo : pyfloat
}.

(** [setupOutputs]: the output has the input's shape, and the dtype
    [numpy.uint32]: the [result] of a request is a [uint32] array. *)
Definition Output_meta_shape (self : t) : list Z := meta_shape (meta (Input self)).

Definition txyzc : list string := ["t"; "x"; "y"; "z"; "c"]%string.

Inductive result_index : Type :=
| Idx_0_ellipsis_0          (* numpy.s_[0, ..., 0] *)
| Idx_0_ellipsis_0_0.       (* numpy.s_[0, ..., 0, 0] *)

Definition view_of (i : result_index) (sh : list Z) : outcome view :=
  match i with
  | Idx_0_ellipsis_0 => view_0_ellipsis_0 sh
  | Idx_0_ellipsis_0_0 => view_0_ellipsis_0_0 sh
  end.

Definition execute (env : backend) (self : t) (roi : roi_t)
           (result : ndarray Z) : M applet_t (ndarray Z) :=
  if negb (bool_decide (roi_extent roi = Output_meta_shape self))
  then m_raise (ValueError "Blockwise Watershed must be run on the entire volume")
  else
  if negb (bool_decide (getAxisKeys (meta (Input self)) = txyzc))
  then m_raise (ValueError ("Unsupported input axis keys "
                            ++ py_str_list (getAxisKeys (meta (Input self)))))
  else
  z ← m_lift (getTaggedShape_at (meta (Input self)) "z");
  let result_idx := if 1 <? z then Idx_0_ellipsis_0 else Idx_0_ellipsis_0_0 in
  input_ ← m_lift (get (Input self) roi);
  let input_ := squeeze input_ in
  if negb ((ndim input_ =? 2) || (ndim input_ =? 3))
  then m_raise (ValueError ("Input shape " ++ py_str_tuple (shape input_)
                            ++ " has an invalid number of non-singleton dimensions"))
  else
  '(labels, max_id) ←
     (if negb (DoAgglo self =? 0)
      then
        let max_workers := Z.max 1 (num_workers env) in
        emit (Call_watershed_and_agglomerate input_ max_workers
                (SizeRegularizer self) (ReduceTo self));;
        m_lift (watershed_and_agglomerate env input_ max_workers
                  (SizeRegularizer self) (ReduceTo self))
      else
        emit (Call_watershedsNew input_);;
        m_lift (watershedsNew env input_));
  v ← m_lift (view_of result_idx (shape result));
  (* the labels are cast to the dtype of the result *)
  m_lift (write_view result v (astype_uint32 labels)).

End OpSimpleBlockwiseWatershed.

(* ===================================================================== *)
(** * OpMstSegmentorProvider                                             *)
(* ===================================================================== *)

Module OpMstSegmentorProvider.

Inductive slot_name : Type := Slot_Image | Slot_LabelImage | Slot_MST.

#[export] Instance slot_name_eq_dec : EqDecision slot_name.
Proof. solve_decision. Defined.

Record t : Type := mk {
  Image : array_slot F32.t;
  LabelImage : array_slot Z
}.

(** The nested function [updateProgressBar(x)]: send the signal iff the
    progress is significant. *)
Definition updateProgressBar (x : Z) : M applet_t unit :=
  p ← m_gets progress;
  if (1 <? x - p) || (x =? 100)
  then progressSignal x;; set_progress x
  else m_ret tt.

Fixpoint run_callbacks (xs : list Z) : M applet_t unit :=
  match xs with
  | [] => m_ret tt
  | x :: xs' => updateProgressBar x;; run_callbacks xs'
  end.

(** The body of the [try] statement. *)
Definition execute_body (env : backend) (self : t)
           (result : list (option segmentor)) : M applet_t (list (option segmentor)) :=
  volume_feat ← m_lift (get (Image self) (roiFromShape (meta_shape (meta (Image self)))));
  labelVolume ← m_lift (get (LabelImage self)
                          (roiFromShape (meta_shape (meta (LabelImage self)))));
  set_progress 0;;
  lv ← m_lift (view_0_ellipsis_0 (shape labelVolume));
  let labels := read_view labelVolume lv in
  fv ← m_lift (view_0_ellipsis_0 (shape volume_feat));
  let features := read_view volume_feat fv in
  emit (Call_WatershedSegmentor labels features);;
  let '(reported, built) := WatershedSegmentor env labels features in
  run_callbacks reported;;
  newMst ← m_lift built;
  (* Output is of shape 1 *)
  let newMst := mk_segmentor (graph newMst) None in
  m_lift (setitem result 0 (Some newMst)).

Definition execute (env : backend) (self : t) (slot : slot_name)
           (result : list (option segmentor)) : M applet_t (list (option segmentor)) :=
  m_lift (py_assert (bool_decide (slot = Slot_MST)) "Invalid output slot");;
  (* first thing, show the user that we are waiting for computations to finish *)
  progressSignal (-1);;
  try_finally (execute_body env self result) (progressSignal 100).

(** [self.MST.value]: the request for the whole (one-element) output,
    served into a fresh destination, and its element. *)
Definition MST_value (env : backend) (self : t) : M applet_t (option segmentor) :=
  r ← execute env self Slot_MST [None];
  m_lift (getitem r 0).

End OpMstSegmentorProvider.

(* ===================================================================== *)
(** * OpPreprocessing                                                    *)
(* ===================================================================== *)

Module OpPreprocessing.

Inductive slot_name : Type :=
| Slot_OverlayData | Slot_InputData | Slot_Sigma | Slot_Filter
| Slot_DoAgglo | Slot_SizeRegularizer | Slot_ReduceTo
| Slot_PreprocessedData | Slot_FilteredImage | Slot_WatershedImage
| Slot_WatershedSourceImage.

#[export] Instance slot_name_eq_dec : EqDecision slot_name.
Proof. solve_decision. Defined.

(** References to Python list objects (result buffers). *)
Definition loc : Type := positive.

(** The operator's attributes, the values on its parameter slots, and its
    inner graph-building operator. *)
Record t : Type := mk {
  cachedResult : loc;
  hasUnsavedData : bool;
  _dirty : bool;
  deserialized : bool;
  cachedSigma : option pyfloat;
  cachedFilter : option Z;
  cachedDoAgglo : option Z;
  cachedSizeRegularizer : option pyfloat;
  cachedReduceTo : option pyfloat;
  Sigma : pyfloat;
  Filter : Z;
  DoAgglo : Z;
  SizeRegularizer : pyfloat;
  ReduceTo : pyfloat;
  _opMstProvider : OpMstSegmentorProvider.t
}.

(** The operator, the list objects it can reach, and the applet. *)
Record world : Type := mk_world {
  self : t;
  heap : gmap loc (list (option segmentor));
  applet : applet_t
}.

Definition on_self (f : t -> t) : M world unit :=
  m_modify (fun w => mk_world (f (self w)) (heap w) (applet w)).

Definition on_applet {A} (m : M applet_t A) : M world A :=
  m_zoom applet (fun a w => mk_world (self w) (heap w) a) m.

(** [obj[0]] for the list object at [l]. *)
Definition heap_get0 (l : loc) : M world (option segmentor) :=
  h ← m_gets heap;
  match h !! l with
  | Some lst => m_lift (getitem lst 0)
  | None => m_raise IndexError
  end.

(** [obj[0] = x] for the list object at [l]; every reference to the
    object sees the new element. *)
Definition heap_set0 (l : loc) (x : option segmentor) : M world unit :=
  h ← m_gets heap;
  match h !! l with
  | Some lst =>
      lst' ← m_lift (setitem lst 0 x);
      m_modify (fun w => mk_world (self w) (<[l := lst']> (heap w)) (applet w))
  | None => m_raise IndexError
  end.

(** A new list object [[None]]. *)
Definition alloc_none : M world loc :=
  h ← m_gets heap;
  let l := fresh (dom h) in
  m_modify (fun w => mk_world (self w) (<[l := [None]]> (heap w)) (applet w));;
  m_ret l.

(** The state in which [execute] may answer from the cache:
    [not self._dirty and self.cachedResult[0] is not None]. *)
Definition may_use_cache : M world bool :=
  d ← m_gets (fun w : world => _dirty (self w));
  if (d : bool) then m_ret false
  else (r ← m_gets (fun w : world => cachedResult (self w));
        c0 ← heap_get0 r;
        m_ret (bool_decide (c0 ≠ None))).

Definition set_cachedSigma v (s : t) : t :=
  mk (cachedResult s) (hasUnsavedData s) (_dirty s) (deserialized s)
     v (cachedFilter s) (cachedDoAgglo s) (cachedSizeRegularizer s) (cachedReduceTo s)
     (Sigma s) (Filter s) (DoAgglo s) (SizeRegularizer s) (ReduceTo s) (_opMstProvider s).
Definition set_cachedFilter v (s : t) : t :=
  mk (cachedResult s) (hasUnsavedData s) (_dirty s) (deserialized s)
     (cachedSigma s) v (cachedDoAgglo s) (cachedSizeRegularizer s) (cachedReduceTo s)
     (Sigma s) (Filter s) (DoAgglo s) (SizeRegularizer s) (ReduceTo s) (_opMstProvider s).
Definition set_cachedDoAgglo v (s : t) : t :=
  mk (cachedResult s) (hasUnsavedData s) (_dirty s) (deserialized s)
     (cachedSigma s) (cachedFilter s) v (cachedSizeRegularizer s) (cachedReduceTo s)
     (Sigma s) (Filter s) (DoAgglo s) (SizeRegularizer s) (ReduceTo s) (_opMstProvider s).
Definition set_cachedSizeRegularizer v (s : t) : t :=
  mk (cachedResult s) (hasUnsavedData s) (_dirty s) (deserialized s)
     (cachedSigma s) (cachedFilter s) (cachedDoAgglo s) v (cachedReduceTo s)
     (Sigma s) (Filter s) (DoAgglo s) (SizeRegularizer s) (ReduceTo s) (_opMstProvider s).
Definition set_cachedReduceTo v (s : t) : t :=
  mk (cachedResult s) (hasUnsavedData s) (_dirty s) (deserialized s)
     (cachedSigma s) (cachedFilter s) (cachedDoAgglo s) (cachedSizeRegularizer s) v
     (Sigma s) (Filter s) (DoAgglo s) (SizeRegularizer s) (ReduceTo s) (_opMstProvider s).
Definition set_hasUnsavedData v (s : t) : t :=
  mk (cachedResult s) v (_dirty s) (deserialized s)
     (cachedSigma s) (cachedFilter s) (cachedDoAgglo s) (cachedSizeRegularizer s)
     (cachedReduceTo s)
     (Sigma s) (Filter s) (DoAgglo s) (SizeRegularizer s) (ReduceTo s) (_opMstProvider s).
Definition set_dirty v (s : t) : t :=
  mk (cachedResult s) (hasUnsavedData s) v (deserialized s)
     (cachedSigma s) (cachedFilter s) (cachedDoAgglo s) (cachedSizeRegularizer s)
     (cachedReduceTo s)
     (Sigma s) (Filter s) (DoAgglo s) (SizeRegularizer s) (ReduceTo s) (_opMstProvider s).
Definition set_cachedResult v (s : t) : t :=
  mk v (hasUnsavedData s) (_dirty s) (deserialized s)
     (cachedSigma s) (cachedFilter s) (cachedDoAgglo s) (cachedSizeRegularizer s)
     (cachedReduceTo s)
     (Sigma s) (Filter s) (DoAgglo s) (SizeRegularizer s) (ReduceTo s) (_opMstProvider s).

(** [execute(self, slot, subindex, roi, result)]; [result] refers to the
    destination buffer the caller allocated.  The value returned is the
    reference to the object handed back. *)
Definition execute (env : backend) (slot : slot_name) (result : loc) : M world loc :=
  m_lift (py_assert (bool_decide (slot = Slot_PreprocessedData)) "Invalid output slot");;
  cached ← may_use_cache;
  if (cached : bool)
  then m_gets (fun w : world => cachedResult (self w))
  else
    prov ← m_gets (fun w : world => _opMstProvider (self w));
    on_applet (emit MST_requested);;
    mst ← on_applet (OpMstSegmentorProvider.MST_value env prov);
    on_self (fun s => set_cachedSigma (Some (Sigma s)) s);;
    on_self (fun s => set_cachedFilter (Some (Filter s)) s);;
    on_self (fun s => set_cachedDoAgglo (Some (DoAgglo s)) s);;
    on_self (fun s => set_cachedSizeRegularizer (Some (SizeRegularizer s)) s);;
    on_self (fun s => set_cachedReduceTo (Some (ReduceTo s)) s);;
    on_self (set_hasUnsavedData true);;
    on_self (set_dirty false);;
    on_self (set_cachedResult result);;
    heap_set0 result mst;;
    (* Signal downstream that a new MST has been created. *)
    on_applet (emit SetDirty_PreprocessedData);;
    m_ret result.

(** [propagateDirty(self, slot, subindex, roi)]. *)
Definition propagateDirty (slot : slot_name) : M world unit :=
  (if bool_decide (slot = Slot_InputData)
   then
     (* complete restart: no values will be reused any more *)
     on_self (set_cachedSigma None);;
     on_self (set_cachedFilter None);;
     on_self (set_cachedDoAgglo None);;
     on_self (set_cachedSizeRegularizer None);;
     on_self (set_cachedReduceTo None);;
     l ← alloc_none;
     on_self (set_cachedResult l)
   else m_ret tt);;
  on_self (set_dirty true).

(** [__init__]: the attributes of a new operator. *)
Definition init (sigma : pyfloat) (filter : Z) (doAgglo : Z)
           (sizeRegularizer reduceTo : pyfloat)
           (prov : OpMstSegmentorProvider.t) : world :=
  mk_world
    (mk 1%positive false false false None None None None None
        sigma filter doAgglo sizeRegularizer reduceTo prov)
    {[ 1%positive := [None] ]}
    (mk_applet 0 []).

(** Consecutive requests for the result, each with its own destination
    buffer and nothing else happening in between; the outcomes are
    returned in order. *)
Fixpoint run_requests (env : backend) (results : list loc) (w : world)
  : list (outcome loc) * world :=
  match results with
  | [] => ([], w)
  | r :: rs =>
      let (o, w1) := execute env Slot_PreprocessedData r w in
      let (os, w2) := run_requests env rs w1 in
      (o :: os, w2)
  end.

(** The applet once the request for a new graph has been logged. *)
Definition requested (a : applet_t) : applet_t :=
  mk_applet (progress a) (log a ++ [MST_requested]).

(** The attributes once a new graph has been stored into [result]. *)
Definition rebuilt (s : t) (result : loc) : t :=
  mk result true false (deserialized s)
     (Some (Sigma s)) (Some (Filter s)) (Some (DoAgglo s))
     (Some (SizeRegularizer s)) (Some (ReduceTo s))
     (Sigma s) (Filter s) (DoAgglo s) (SizeRegularizer s) (ReduceTo s)
     (_opMstProvider s).

Definition is_MST_requested (e : event) : bool :=
  match e with MST_requested => true | _ => false end.

(** How often the graph-building chain was started. *)
Definition chain_runs (a : applet_t) : nat :=
  length (List.filter is_MST_requested (log a)).

End OpPreprocessing.

(* ===================================================================== *)
(** * OpPreprocessing._checkConstraints                                  *)
(* ===================================================================== *)

Module Constraints.

(** What the check raises: ilastik's
    [DatasetConstraintError(appletName, message)], or an exception of
    Python's own. *)
Inductive error : Type :=
| DatasetConstraintError (appletName message : string)
| PythonError (e : exn).

(** How a call of the check ends. *)
Inductive result (A : Type) : Type :=
| Returns (a : A)
| Raises (e : error).
Arguments Returns {A} a.
Arguments Raises {A} e.

#[export] Instance result_ret : MRet result := @Returns.
#[export] Instance result_bind : MBind result :=
  fun A B k r => match r with Returns a => k a | Raises e => Raises e end.

(** A step that can only raise an exception of Python's own. *)
Definition py {A} (o : outcome A) : result A :=
  match o with Ok a => Returns a | Raise e => Raises (PythonError e) end.

(** A slot as the check sees it: whether it is ready, and its metadata. *)
Record slot : Type := mk_cslot { ready : bool; slot_meta_of : slot_meta }.

(** The two slots of [OpPreprocessing] the check reads. *)
Record t : Type := mk { InputData : slot; OverlayData : slot }.

(** [meta.getTaggedShape()]: the axis keys zipped with the shape. *)
Definition getTaggedShape (m : slot_meta) : list (string * Z) :=
  combine (getAxisKeys m) (meta_shape m).

(** [all(axistags[i].isSpatial() for i in range)]: stops at the first axis
    that is not spatial. *)
Fixpoint all_spatial (ax : list AxisInfo) (range : list nat) : outcome bool :=
  match range with
  | [] => Ok true
  | i :: range' =>
      a ← getitem ax i;
      if isSpatial a then all_spatial ax range' else Ok false
  end.

(** [_checkConstraints(self, *args)], called when [InputData] or
    [OverlayData] becomes ready.  [eq_shapes] is lazyflow's comparison of
    two tagged shapes. *)
Definition _checkConstraints
           (eq_shapes : list (string * Z) -> list (string * Z) -> bool)
           (self : t) : result unit :=
  let input_slot := InputData self in
  if negb (ready input_slot) then Returns tt
  else
  c ← py (getTaggedShape_at (slot_meta_of input_slot) "c");
  if negb (c =? 1)
  then Raises (DatasetConstraintError "Carving"
                 ("Input image must have exactly one channel. "
                  ++ "You attempted to add a dataset with " ++ py_str c ++ " channels"))
  else
  t ← py (getTaggedShape_at (slot_meta_of input_slot) "t");
  if negb (t =? 1)
  then Raises (DatasetConstraintError "Carving"
                 ("Input image must not have more than one time point. "
                  ++ "You attempted to add a dataset with " ++ py_str t ++ " time points"))
  else
  (* Errors for developers *)
  py (py_assert (bool_decide (length (meta_shape (slot_meta_of input_slot)) = 5%nat))
        ("was expecting a 5D dataset, got shape="
         ++ py_str_tuple (meta_shape (slot_meta_of input_slot))));;
  spatial ← py (all_spatial (axistags (slot_meta_of input_slot)) [1; 2; 3]%nat);
  py (py_assert spatial "2nd to 4th axes must be spatial");;
  if ready (OverlayData self)
     && negb (eq_shapes (getTaggedShape (slot_meta_of (OverlayData self)))
                        (getTaggedShape (slot_meta_of input_slot)))
  then Raises (DatasetConstraintError "Carving"
                 ("Overlay image must have the same shape as raw data (different channels are ok). "
                  ++ "Your raw data has shape="
                  ++ py_str_tuple (meta_shape (slot_meta_of input_slot))
                  ++ " but your overlay has shape "
                  ++ py_str_tuple (meta_shape (slot_meta_of (OverlayData self)))))
  else Returns tt.

End Constraints.

(* ===================================================================== *)
(** * Small concrete instances                                           *)
(* ===================================================================== *)

Module Demo.

Definition f32s (l : list Z) : list F32.t := map F32.of_Z l.

Definition tags : list AxisInfo :=
  [ mk_axis "t" false; mk_axis "x" true; mk_axis "y" true;
    mk_axis "z" true; mk_axis "c" false ].

(** A slot serving a volume of integers converted to float32. *)
Definition f32_slot (sh : list Z) (l : list Z) : array_slot F32.t :=
  mk_slot (mk_meta tags sh) (slot_of_volume (mk_ndarray sh (f32s l))).

(** A slot serving a float32 volume as it is. *)
Definition slot_of (v : ndarray F32.t) : array_slot F32.t :=
  mk_slot (mk_meta tags (shape v)) (slot_of_volume v).

Definition label_slot (sh : list Z) (l : list Z) : array_slot Z :=
  mk_slot (mk_meta tags sh) (slot_of_volume (mk_ndarray sh l)).

Definition zeros_f32 (sh : list Z) : ndarray F32.t :=
  mk_ndarray sh (replicate (Z.to_nat (size_of sh)) F32.pzero).

Definition zeros_Z (sh : list Z) : ndarray Z :=
  mk_ndarray sh (replicate (Z.to_nat (size_of sh)) 0).

(** Back ends that answer at once: the filter returns its input, the
    watersheds label every voxel 1, the graph constructor reports some
    progress and returns graph 7. *)
Definition env (workers : Z) : backend :=
  mk_backend workers
    (fun _ fvol _ _ _ => Ok fvol)
    (fun i _ _ _ => Ok (mk_ndarray (shape i) (map (fun _ => 1) (data i)), 1))
    (fun i => Ok (mk_ndarray (shape i) (map (fun _ => 1) (data i)), 1))
    (fun _ f => ([0; 1; 5; 50; 100], Ok (mk_segmentor 7 (Some f)))).

(** The same, with a graph constructor that fails half way. *)
Definition env_failing : backend :=
  mk_backend 4
    (fun _ fvol _ _ _ => Ok fvol)
    (fun i _ _ _ => Ok (mk_ndarray (shape i) (map (fun _ => 1) (data i)), 1))
    (fun i => Ok (mk_ndarray (shape i) (map (fun _ => 1) (data i)), 1))
    (fun _ _ => ([0; 30], Raise (UpstreamError "graph construction failed"))).

Definition provider : OpMstSegmentorProvider.t :=
  OpMstSegmentorProvider.mk
    (f32_slot [1; 2; 2; 1; 1] [0; 85; 170; 255])
    (label_slot [1; 2; 2; 1; 1] [1; 1; 2; 2]).

Definition applet0 : applet_t := mk_applet 0 [].

(** A new orchestrator, with two destination buffers allocated by the
    caller at references 5 and 6. *)
Definition world0 : OpPreprocessing.world :=
  let w := OpPreprocessing.init (F32.of_Z 2) 0 1 (F32.of_Z 1) (F32.of_Z 1) provider in
  OpPreprocessing.mk_world (OpPreprocessing.self w)
    (<[ 6%positive := [None] ]> (<[ 5%positive := [None] ]> (OpPreprocessing.heap w)))
    (OpPreprocessing.applet w).

(** The orchestrator after its first successful request. *)
Definition world_clean : OpPreprocessing.world :=
  snd (OpPreprocessing.execute (env 4) OpPreprocessing.Slot_PreprocessedData
         5%positive world0).

End Demo.

(* ===================================================================== *)
(** * Further concrete instances                                         *)
(* ===================================================================== *)

Module Examples.

(** A watershed back end that numbers the voxels of its input in order. *)
Definition number_voxels (i : ndarray F32.t) : outcome (ndarray Z * Z) :=
  Ok (mk_ndarray (shape i) (map Z.of_nat (seq 1 (length (data i)))),
      Z.of_nat (length (data i))).

(** Back ends as in [Demo.env], with that watershed. *)
Definition env_numbering : backend :=
  mk_backend 4
    (fun _ fvol _ _ _ => Ok fvol)
    (fun i _ _ _ => number_voxels i)
    number_voxels
    (fun _ f => ([0; 1; 3; 4; 100], Ok (mk_segmentor 7 (Some f)))).

(** Watershed stages on volumes with one singleton spatial axis. *)
Definition flat_x : OpSimpleBlockwiseWatershed.t :=
  OpSimpleBlockwiseWatershed.mk
    (Demo.f32_slot [1; 1; 2; 2; 1] [1; 2; 3; 4]) 1 (F32.of_Z 1) (F32.of_Z 1).

Definition flat_y : OpSimpleBlockwiseWatershed.t :=
  OpSimpleBlockwiseWatershed.mk
    (Demo.f32_slot [1; 2; 1; 2; 1] [1; 2; 3; 4]) 1 (F32.of_Z 1) (F32.of_Z 1).

(** A slot whose upstream cannot deliver. *)
Definition broken_slot {A} (sh : list Z) : array_slot A :=
  mk_slot (mk_meta Demo.tags sh) (fun _ => Raise (UpstreamError "no data")).

(** Filter stages on a 2 x 2 image. *)
Definition filter_2d (kind : Z) : OpFilter.t :=
  OpFilter.mk (Demo.f32_slot [1; 2; 2; 1; 1] [1; 2; 3; 4]) kind (F32.of_Z 2).

(** A comparison of tagged shapes that takes them as they are. *)
Definition same_tagged_shape (a b : list (string * Z)) : bool := bool_decide (a = b).

(** The slots the dataset check sees for a single-channel image and for
    an RGB image, both without overlay. *)
Definition grey_image : Constraints.t :=
  Constraints.mk (Constraints.mk_cslot true (mk_meta Demo.tags [1; 2; 2; 1; 1]))
                 (Constraints.mk_cslot false (mk_meta [] [])).

Definition rgb_image : Constraints.t :=
  Constraints.mk (Constraints.mk_cslot true (mk_meta Demo.tags [1; 2; 2; 1; 3]))
                 (Constraints.mk_cslot false (mk_meta [] [])).

End Examples.

(* ===================================================================== *)
(** * Notions used in the statements                                     *)
(* ===================================================================== *)

(** [m] only appends events to the log, and all of them satisfy [P]. *)
Definition appends {A} (P : event -> Prop) (m : M applet_t A) : Prop :=
  forall a r a', m a = (r, a') ->
    exists evs, log a' = log a ++ evs /\ Forall P evs.

(** The events of the graph builder. *)
Definition provider_event (e : event) : Prop :=
  match e with
  | ProgressSignal _ | Call_WatershedSegmentor _ _ => True
  | _ => False
  end.


(** The call the watershed stage makes for a squeezed input. *)
Definition watershed_call (env : backend) (self : OpSimpleBlockwiseWatershed.t)
           (input_ : ndarray F32.t) : event :=
  if OpSimpleBlockwiseWatershed.DoAgglo self =? 0
  then Call_watershedsNew input_
  else Call_watershed_and_agglomerate input_ (Z.max 1 (num_workers env))
         (OpSimpleBlockwiseWatershed.SizeRegularizer self)
         (OpSimpleBlockwiseWatershed.ReduceTo self).

(** What the back end answers to that call. *)
Definition watershed_answer (env : backend) (self : OpSimpleBlockwiseWatershed.t)
           (input_ : ndarray F32.t) : outcome (ndarray Z * Z) :=
  if OpSimpleBlockwiseWatershed.DoAgglo self =? 0
  then watershedsNew env input_
  else watershed_and_agglomerate env input_ (Z.max 1 (num_workers env))
         (OpSimpleBlockwiseWatershed.SizeRegularizer self)
         (OpSimpleBlockwiseWatershed.ReduceTo self).

(** The volume [OpFilter.execute] hands to the filter, from the
    three-dimensional [volume]: two-dimensional if the z axis is a
    singleton, negated for RAW_INVERTED. *)
Definition filter_input (volume_filter : Z) (volume : ndarray F32.t) : ndarray F32.t :=
  let fvol :=
    match nth_error (shape volume) 2 with
    | Some d2 => if d2 =? 1 then mk_ndarray (firstn 2 (shape volume)) (data volume)
                 else volume
    | None => volume
    end in
  if volume_filter =? OpFilter.RAW_INVERTED then inplace F32.neg fvol else fvol.

(** Calls to the filter that ask for the channel [OpFilter.select_channel]
    picks for the kind on the operator's [Filter] slot. *)
Definition channel_as_selected (self : OpFilter.t) (e : event) : Prop :=
  match e with
  | Call_parallel_filter _ fvol _ _ channel =>
      channel = OpFilter.select_channel (OpFilter.Filter self) fvol
  | _ => False
  end.


(** Where a remainder [rem] of a division by [pw] lies: nowhere (exact),
    below, at or above the half. *)
Definition locate (rem pw : Z) : location :=
  if rem =? 0 then loc_Exact else loc_Inexact (2 * rem ?= pw).

(** A finite float32 value: a zero, or a number whose significand is
    canonical for its exponent and whose exponent is in range. *)
Definition fin_valid (x : spec_float) : Prop :=
  match x with
  | S754_zero _ => True
  | S754_finite _ m e => bounded 24 128 m e = true
  | _ => False
  end.

(** A positive number or plus infinity. *)
Definition pos_result (x : spec_float) : Prop :=
  x = S754_infinity false \/
  exists m e, x = S754_finite false m e /\ -149 <= e.

(** 255 or one of its two float32 neighbours, 255 - 2^-16 and 255 + 2^-16. *)
Definition near_255 (x : spec_float) : Prop :=
  x = S754_finite false 16711679 (-16) \/
  x = S754_finite false 16711680 (-16) \/
  x = S754_finite false 16711681 (-16).

(** The extent of the block [st:sp]. *)
Definition block_extent (st sp : list Z) : list Z :=
  map (fun p => snd p - fst p) (combine st sp).

(** A block [st:sp] that lies inside an array of shape [sh]. *)
Inductive block_within : list Z -> list Z -> list Z -> Prop :=
| block_nil : block_within [] [] []
| block_cons d a b sh st sp :
    0 <= a -> a <= b -> b <= d -> block_within sh st sp ->
    block_within (d :: sh) (a :: st) (b :: sp).

(** The metadata [OpFilter.execute] asserts: five axis tags, the first
    keyed "t" and the last keyed "c", both of extent one, with three spatial
    axes between them. *)
Definition five_d_meta (m : slot_meta) : bool :=
  match axistags m, meta_shape m with
  | [a0; a1; a2; a3; a4], s0 :: _ :: _ :: _ :: s4 :: _ =>
      bool_decide (key a0 = "t"%string) && (s0 =? 1)
      && isSpatial a1 && isSpatial a2 && isSpatial a3
      && bool_decide (key a4 = "c"%string) && (s4 =? 1)
  | _, _ => false
  end.

(** Progress values that may follow the progress [p] one after the other:
    each is more than one above the value signalled before it, or is 100. *)
Fixpoint spaced (p : Z) (xs : list Z) : Prop :=
  match xs with
  | [] => True
  | x :: xs' => (1 < x - p \/ x = 100) /\ spaced x xs'
  end.

(** What happens to the orchestrator from outside: a request for the
    result into a destination buffer, or a change notification on a slot. *)
Inductive op : Type :=
| Request (result : OpPreprocessing.loc)
| Notify (slot : OpPreprocessing.slot_name).

(** The orchestrator after a sequence of them. *)
Fixpoint run_ops (env : backend) (ops : list op) (w : OpPreprocessing.world)
  : OpPreprocessing.world :=
  match ops with
  | [] => w
  | Request result :: ops' =>
      run_ops env ops'
        (snd (OpPreprocessing.execute env OpPreprocessing.Slot_PreprocessedData result w))
  | Notify slot :: ops' =>
      run_ops env ops' (snd (OpPreprocessing.propagateDirty slot w))
  end.

(** The state in which a request is answered from the cache. *)
Definition cache_ready (w : OpPreprocessing.world) : Prop :=
  OpPreprocessing._dirty (OpPreprocessing.self w) = false /\
  exists mst rest,
    OpPreprocessing.heap w !! OpPreprocessing.cachedResult (OpPreprocessing.self w)
    = Some (Some mst :: rest).

(** The five cached parameters are the values on the parameter slots. *)
Definition snapshot_is_current (s : OpPreprocessing.t) : Prop :=
  OpPreprocessing.cachedSigma s = Some (OpPreprocessing.Sigma s) /\
  OpPreprocessing.cachedFilter s = Some (OpPreprocessing.Filter s) /\
  OpPreprocessing.cachedDoAgglo s = Some (OpPreprocessing.DoAgglo s) /\
  OpPreprocessing.cachedSizeRegularizer s = Some (OpPreprocessing.SizeRegularizer s) /\
  OpPreprocessing.cachedReduceTo s = Some (OpPreprocessing.ReduceTo s).

(** Whenever the cache would answer, it answers for the current
    parameters, and the unsaved-data flag is set. *)
Definition coherent (w : OpPreprocessing.world) : Prop :=
  cache_ready w ->
  snapshot_is_current (OpPreprocessing.self w) /\
  OpPreprocessing.hasUnsavedData (OpPreprocessing.self w) = true.

(** What no request and no notification touches: the [deserialized]
    flag, the values on the parameter slots and the inner operator stay,
    and [hasUnsavedData] is not reset. *)
Definition same_settings (s s' : OpPreprocessing.t) : Prop :=
  OpPreprocessing.deserialized s' = OpPreprocessing.deserialized s /\
  OpPreprocessing.Sigma s' = OpPreprocessing.Sigma s /\
  OpPreprocessing.Filter s' = OpPreprocessing.Filter s /\
  OpPreprocessing.DoAgglo s' = OpPreprocessing.DoAgglo s /\
  OpPreprocessing.SizeRegularizer s' = OpPreprocessing.SizeRegularizer s /\
  OpPreprocessing.ReduceTo s' = OpPreprocessing.ReduceTo s /\
  OpPreprocessing._opMstProvider s' = OpPreprocessing._opMstProvider s /\
  (OpPreprocessing.hasUnsavedData s = true -> OpPreprocessing.hasUnsavedData s' = true).

(** [a <= b] for two float32 values, neither of them NaN. *)
Definition f32_le (a b : F32.t) : Prop :=
  SFcompare a b = Some Lt \/ SFcompare a b = Some Eq.

(** The input the dataset check lets through: one channel, one time
    point, five axes of which the second to fourth are spatial. *)
Definition admissible_input (m : slot_meta) : Prop :=
  getTaggedShape_at m "c" = Ok 1 /\
  getTaggedShape_at m "t" = Ok 1 /\
  length (meta_shape m) = 5%nat /\
  Constraints.all_spatial (axistags m) [1; 2; 3]%nat = Ok true.

(* ===================================================================== *)
(** * Proof support                                                      *)
(* ===================================================================== *)

Ltac munfold :=
  unfold mbind, mret, M_bind, M_ret, outcome_bind, outcome_ret,
         m_bind, m_ret, m_raise, m_gets, m_modify, m_lift, m_zoom,
         try_finally, obind in *.

Ltac case_outcome :=
  match goal with
  | |- context [match ?x with Ok _ => _ | Raise _ => _ end] => destruct x eqn:?
  | |- context [let (_, _) := ?x in _] => destruct x eqn:?
  | |- context [match ?x with (_, _) => _ end] => destruct x eqn:?
  | |- context [if ?b then _ else _] => destruct b eqn:?
  end.

Ltac wf_concrete :=
  split; [repeat (first [apply Forall_nil_2 | apply Forall_cons_2; [lia|]])
         | vm_compute; reflexivity].

Ltac by_computation := first [vm_compute; reflexivity | lia | wf_concrete].

(* ===================================================================== *)
(** * Event logs                                                         *)
(* ===================================================================== *)

Lemma appends_ret {A} P (x : A) : appends P (m_ret x).
Proof. intros a r a' [= <- <-]. exists []. by rewrite app_nil_r. Qed.

Lemma appends_lift {A} P (o : outcome A) : appends P (m_lift o).
Proof. intros a r a' [= <- <-]. exists []. by rewrite app_nil_r. Qed.

Lemma appends_raise {A} P e : appends P (@m_raise _ A e).
Proof. intros a r a' [= <- <-]. exists []. by rewrite app_nil_r. Qed.

Lemma appends_gets {A} P (f : applet_t -> A) : appends P (m_gets f).
Proof. intros a r a' [= <- <-]. exists []. by rewrite app_nil_r. Qed.

Lemma appends_emit (P : event -> Prop) e : P e -> appends P (emit e).
Proof. intros HP a r a' [= <- <-]. simpl. eauto. Qed.

Lemma appends_set_progress P x : appends P (set_progress x).
Proof. intros a r a' [= <- <-]. exists []. by rewrite app_nil_r. Qed.

Lemma appends_bind {A B} P (m : M applet_t A) (k : A -> M applet_t B) :
  appends P m -> (forall x, appends P (k x)) -> appends P (m_bind m k).
Proof.
  intros Hm Hk a r a'. unfold m_bind.
  destruct (m a) as [[x|e] a1] eqn:E; intros H.
  - destruct (Hm _ _ _ E) as (ev1 & H1 & F1).
    destruct (Hk x _ _ _ H) as (ev2 & H2 & F2).
    exists (ev1 ++ ev2). split; [by rewrite H2, H1, app_assoc|].
    by apply Forall_app.
  - injection H as <- <-. eauto.
Qed.

Ltac appends_step :=
  first
    [ apply appends_lift | apply appends_ret | apply appends_raise
    | apply appends_emit; simpl; done
    | apply appends_bind; [|intros ?]
    | match goal with
      | |- appends _ (if ?b then _ else _) => destruct b
      | |- appends _ (match ?x with _ => _ end) => destruct x
      end ].

(* ===================================================================== *)
(** * The graph builder: progress signals                                *)
(* ===================================================================== *)

Section GraphBuilder.
Import OpMstSegmentorProvider.

Lemma appends_updateProgressBar x : appends provider_event (updateProgressBar x).
Proof.
  unfold updateProgressBar. apply appends_bind.
  - apply appends_gets.
  - intros p. destruct (_ || _).
    + apply appends_bind; [by apply appends_emit | intros; apply appends_set_progress].
    + apply appends_ret.
Qed.

Lemma appends_run_callbacks xs : appends provider_event (run_callbacks xs).
Proof.
  induction xs as [|x xs IH]; simpl.
  - apply appends_ret.
  - apply appends_bind; [apply appends_updateProgressBar | intros; apply IH].
Qed.

Lemma appends_execute_body env self result :
  appends provider_event (execute_body env self result).
Proof.
  unfold execute_body.
  repeat first
    [ apply appends_bind; [|intros ?]
    | apply appends_lift | by apply appends_emit | apply appends_set_progress
    | apply appends_run_callbacks ].
  destruct (WatershedSegmentor env _ _) as [reported built].
  repeat first
    [ apply appends_bind; [|intros ?]
    | apply appends_lift | apply appends_run_callbacks ].
Qed.

(** [execute] on the [MST] slot, in one equation: the start signal, the
    body, and the completion signal whatever the body did. *)
Lemma execute_unfold env self result a :
  execute env self Slot_MST result a =
  let started := mk_applet (progress a) (log a ++ [ProgressSignal (-1)]) in
  let '(r, a2) := execute_body env self result started in
  (r, mk_applet (progress a2) (log a2 ++ [ProgressSignal 100])).
Proof.
  unfold execute, progressSignal, emit. munfold. simpl.
  destruct (execute_body env self result _) as [r a2]. reflexivity.
Qed.

(** A value the body returns holds a graph object in its first place. *)
Lemma execute_body_value env self result a r a' :
  execute_body env self result a = (Ok r, a') ->
  exists g rest, r = Some g :: rest /\ raw g = None.
Proof.
  unfold execute_body, setitem. munfold.
  repeat (case_outcome; try congruence).
  all: intros [= <- <-]; destruct result; simpl in *; try congruence; eauto.
Qed.

Lemma MST_value_is_object env self a v a' :
  MST_value env self a = (Ok v, a') -> exists g, v = Some g.
Proof.
  unfold MST_value. munfold. rewrite execute_unfold. simpl.
  destruct (execute_body env self [None] _) as [[r|e] a2] eqn:E; [|congruence].
  destruct (execute_body_value _ _ _ _ _ _ E) as (g & rest & -> & _).
  simpl. intros [= <- <-]. eauto.
Qed.

Lemma appends_MST_value env self : appends provider_event (MST_value env self).
Proof.
  intros a r a'. unfold MST_value. munfold. rewrite execute_unfold. simpl.
  destruct (execute_body env self [None] _) as [r0 a2] eqn:E.
  destruct (appends_execute_body _ _ _ _ _ _ E) as (evs & Hevs & F). simpl in Hevs.
  intros H.
  assert (log a' = log a2 ++ [ProgressSignal 100]) as ->.
  { destruct r0; [destruct (getitem a0 0)|]; injection H as <- <-; reflexivity. }
  rewrite Hevs, <- !app_assoc. eexists; split; [reflexivity|].
  repeat (apply Forall_app; split); auto; by repeat constructor.
Qed.

(** C6.  Every exit of [OpMstSegmentorProvider.execute] on its [MST]
    slot is preceded by the completion signal: whatever the body of the
    [try] statement does -- return a value or raise, in particular when
    the graph constructor raises -- the events of the call start with
    [progressSignal(-1)] and end with [progressSignal(100)], and the
    body's value or exception is what the caller receives. *)
Theorem execute_signals_completion_on_every_exit env self result a :
  let r := execute env self Slot_MST result a in
  let started := mk_applet (progress a) (log a ++ [ProgressSignal (-1)]) in
  (exists evs,
      log (snd r) = log a ++ [ProgressSignal (-1)] ++ evs ++ [ProgressSignal 100])
  /\ fst r = fst (execute_body env self result started)
  /\ (forall vf lv v1 v2 reported e,
        get (Image self) (roiFromShape (meta_shape (meta (Image self)))) = Ok vf ->
        get (LabelImage self) (roiFromShape (meta_shape (meta (LabelImage self)))) = Ok lv ->
        view_0_ellipsis_0 (shape lv) = Ok v1 ->
        view_0_ellipsis_0 (shape vf) = Ok v2 ->
        WatershedSegmentor env (read_view lv v1) (read_view vf v2) = (reported, Raise e) ->
        fst r = Raise e).
Proof.
  cbv zeta. rewrite execute_unfold. cbv zeta.
  destruct (execute_body env self result _) as [r a2] eqn:E. simpl.
  split; [|split].
  - destruct (appends_execute_body _ _ _ _ _ _ E) as (evs & Hevs & _). simpl in Hevs.
    exists evs. rewrite Hevs, <- !app_assoc. reflexivity.
  - reflexivity.
  - intros vf lv v1 v2 reported e Hvf Hlv Hv1 Hv2 Hw.
    revert E. unfold execute_body. munfold.
    rewrite Hvf, Hlv. simpl. rewrite Hv1, Hv2. simpl. rewrite Hw.
    destruct (run_callbacks reported _) as [[[]|e'] a3] eqn:Ecb.
    + intros [= <- _]. reflexivity.
    + exfalso. clear -Ecb. revert Ecb. generalize (mk_applet 0
        ((log a ++ [ProgressSignal (-1)]) ++
         [Call_WatershedSegmentor (read_view lv v1) (read_view vf v2)])).
      induction reported as [|x xs IH]; intros s; simpl; [discriminate|].
      unfold updateProgressBar, progressSignal, emit, set_progress. munfold.
      destruct (_ || _); simpl; apply IH.
Qed.

Lemma execute_signals_completion_on_every_exit_witness :
  let r := execute Demo.env_failing Demo.provider Slot_MST [None] Demo.applet0 in
  fst r = Raise (UpstreamError "graph construction failed") /\
  log (snd r)
  = [ProgressSignal (-1);
     Call_WatershedSegmentor (mk_ndarray [2; 2; 1] [1; 1; 2; 2])
       (mk_ndarray [2; 2; 1] (Demo.f32s [0; 85; 170; 255]));
     ProgressSignal 30;
     ProgressSignal 100].
Proof.
  cbv zeta.
  destruct (execute_signals_completion_on_every_exit Demo.env_failing Demo.provider
              [None] Demo.applet0) as (_ & _ & Hraise).
  split.
  - apply (Hraise (mk_ndarray [1; 2; 2; 1; 1] (Demo.f32s [0; 85; 170; 255]))
                  (mk_ndarray [1; 2; 2; 1; 1] [1; 1; 2; 2])
                  (mk_view [0; 0; 0; 0; 0] [1; 2; 2; 1; 1] [2; 2; 1])
                  (mk_view [0; 0; 0; 0; 0] [1; 2; 2; 1; 1] [2; 2; 1])
                  [0; 30]);
      vm_compute; reflexivity.
  - vm_compute. reflexivity.
Defined.

End GraphBuilder.

(* ===================================================================== *)
(** * The orchestrator: dirty tracking and memoisation                   *)
(* ===================================================================== *)

Section Orchestrator.
Import OpPreprocessing.

Lemma may_use_cache_frame w b w' :
  may_use_cache w = (b, w') -> w' = w.
Proof.
  unfold may_use_cache, heap_get0, getitem. munfold.
  destruct (_dirty (self w)); [congruence|].
  destruct (heap w !! cachedResult (self w)) as [lst|]; [|congruence].
  destruct (nth_error lst 0); congruence.
Qed.

Lemma may_use_cache_true w :
  may_use_cache w = (Ok true, w) <->
  _dirty (self w) = false /\
  exists mst rest, heap w !! cachedResult (self w) = Some (Some mst :: rest).
Proof.
  unfold may_use_cache, heap_get0, getitem. munfold.
  destruct (_dirty (self w)).
  { split; [congruence | intros [? _]; congruence]. }
  destruct (heap w !! cachedResult (self w)) as [lst|].
  2:{ split; [congruence | intros (_ & ? & ? & ?); congruence]. }
  destruct lst as [|[m|] rest]; simpl.
  - split; [congruence | intros (_ & ? & ? & ?); congruence].
  - split; [eauto | reflexivity].
  - split; [congruence | intros (_ & ? & ? & ?); congruence].
Qed.

(** A request served from the cache: the cached object itself is handed
    back and nothing at all changes. *)
Lemma execute_cached env w result mst rest :
  _dirty (self w) = false ->
  heap w !! cachedResult (self w) = Some (Some mst :: rest) ->
  execute env Slot_PreprocessedData result w = (Ok (cachedResult (self w)), w).
Proof.
  intros Hd Hc.
  assert (Hm : may_use_cache w = (Ok true, w))
    by (apply may_use_cache_true; eauto).
  unfold execute. munfold. simpl. rewrite Hm. reflexivity.
Qed.

(** A request that cannot be served from the cache, in one equation. *)
Lemma execute_recompute env w result :
  may_use_cache w = (Ok false, w) ->
  execute env Slot_PreprocessedData result w =
  match OpMstSegmentorProvider.MST_value env (_opMstProvider (self w))
          (requested (applet w)) with
  | (Raise e, a1) => (Raise e, mk_world (self w) (heap w) a1)
  | (Ok mst, a1) =>
      match heap w !! result with
      | Some (x :: rest) =>
          (Ok result,
           mk_world (rebuilt (self w) result)
                    (<[result := mst :: rest]> (heap w))
                    (mk_applet (progress a1) (log a1 ++ [SetDirty_PreprocessedData])))
      | _ => (Raise IndexError, mk_world (rebuilt (self w) result) (heap w) a1)
      end
  end.
Proof.
  intros Hm. unfold execute. munfold. simpl. rewrite Hm.
  unfold on_applet, on_self, emit, heap_set0, setitem. munfold. simpl.
  fold (requested (applet w)).
  destruct (OpMstSegmentorProvider.MST_value _ _ _) as [[mst|e] a1]; [|reflexivity].
  destruct w as [s h a]. cbn [self heap applet]. destruct s.
  cbv [rebuilt set_cachedResult set_dirty set_hasUnsavedData set_cachedReduceTo
       set_cachedSizeRegularizer set_cachedDoAgglo set_cachedFilter set_cachedSigma
       cachedResult hasUnsavedData _dirty deserialized cachedSigma
       cachedFilter cachedDoAgglo cachedSizeRegularizer cachedReduceTo Sigma Filter
       DoAgglo SizeRegularizer ReduceTo _opMstProvider].
  destruct (h !! result) as [[|x rest]|]; reflexivity.
Qed.

Lemma may_use_cache_cases w :
  may_use_cache w = (Ok true, w) \/ may_use_cache w = (Ok false, w) \/
  exists e, may_use_cache w = (Raise e, w).
Proof.
  destruct (may_use_cache w) as [[[]|e] w'] eqn:E;
    rewrite (may_use_cache_frame _ _ _ E); eauto.
Qed.

Lemma execute_fails_early env w result e :
  may_use_cache w = (Raise e, w) ->
  execute env Slot_PreprocessedData result w = (Raise e, w).
Proof. intros Hm. unfold execute. munfold. simpl. by rewrite Hm. Qed.

Lemma chain_runs_app a evs :
  chain_runs (mk_applet (progress a) (log a ++ evs))
  = (chain_runs a + length (List.filter is_MST_requested evs))%nat.
Proof. unfold chain_runs. simpl. by rewrite List.filter_app, length_app. Qed.

Lemma provider_events_no_request evs :
  Forall provider_event evs -> List.filter is_MST_requested evs = [].
Proof.
  induction 1 as [|e evs He _ IH]; [reflexivity|].
  simpl. rewrite IH. by destruct e.
Qed.

(** A request that returns leaves the operator clean with the returned
    object as its cache, and has started the chain at most once. *)
Lemma execute_returns_clean env w result l w1 :
  execute env Slot_PreprocessedData result w = (Ok l, w1) ->
  l = cachedResult (self w1) /\
  _dirty (self w1) = false /\
  (exists mst rest, heap w1 !! l = Some (Some mst :: rest)) /\
  (chain_runs (applet w1) <= chain_runs (applet w) + 1)%nat.
Proof.
  destruct (may_use_cache_cases w) as [Hm|[Hm|[e Hm]]].
  - apply may_use_cache_true in Hm as (Hd & mst & rest & Hc).
    rewrite (execute_cached env w result mst rest Hd Hc).
    intros [= <- <-]. repeat split; eauto. lia.
  - rewrite (execute_recompute env w result Hm).
    destruct (OpMstSegmentorProvider.MST_value _ _ _) as [[mst|e] a1] eqn:E;
      [|discriminate].
    destruct (MST_value_is_object _ _ _ _ _ E) as [g ->].
    destruct (appends_MST_value _ _ _ _ _ E) as (evs & Hlog & F).
    destruct (heap w !! result) as [[|x rest]|]; try discriminate.
    intros [= <- <-]. simpl. repeat split.
    + exists g, rest. by rewrite lookup_insert_eq.
    + unfold chain_runs at 1. simpl. rewrite Hlog. simpl.
      rewrite !List.filter_app, !length_app, (provider_events_no_request evs F).
      simpl. unfold chain_runs. lia.
  - rewrite (execute_fails_early env w result e Hm). discriminate.
Qed.

Lemma run_requests_cached env rs w mst rest :
  _dirty (self w) = false ->
  heap w !! cachedResult (self w) = Some (Some mst :: rest) ->
  run_requests env rs w = (map (fun _ => Ok (cachedResult (self w))) rs, w).
Proof.
  intros Hd Hc. induction rs as [|r rs IH]; [reflexivity|].
  simpl. rewrite (execute_cached env w r mst rest Hd Hc), IH. reflexivity.
Qed.

(** Every request either leaves the world as it was or has started the
    chain. *)
Lemma execute_frame_or_recompute env w result :
  snd (execute env Slot_PreprocessedData result w) = w \/
  exists evs,
    log (applet (snd (execute env Slot_PreprocessedData result w)))
    = log (applet w) ++ MST_requested :: evs.
Proof.
  destruct (may_use_cache_cases w) as [Hm|[Hm|[e Hm]]].
  - apply may_use_cache_true in Hm as (Hd & mst & rest & Hc).
    rewrite (execute_cached env w result mst rest Hd Hc). by left.
  - right. rewrite (execute_recompute env w result Hm).
    destruct (OpMstSegmentorProvider.MST_value _ _ _) as [[mst|e] a1] eqn:E;
      destruct (appends_MST_value _ _ _ _ _ E) as (evs & Hlog & F);
      simpl in Hlog.
    + destruct (heap w !! result) as [[|x rest]|]; simpl; rewrite Hlog, <- ?app_assoc;
        simpl; eauto.
    + simpl. rewrite Hlog, <- app_assoc. simpl. eauto.
  - rewrite (execute_fails_early env w result e Hm). by left.
Qed.

Lemma needs_rebuild w :
  _dirty (self w) = true \/
  (exists rest, heap w !! cachedResult (self w) = Some (None :: rest)) ->
  may_use_cache w = (Ok false, w).
Proof.
  unfold may_use_cache, heap_get0, getitem. munfold.
  intros [Hd|[rest Hc]].
  - by rewrite Hd.
  - destruct (_dirty (self w)); [reflexivity|]. by rewrite Hc.
Qed.

(** A request that cannot be served from the cache starts the chain
    exactly once, whatever its outcome. *)
Lemma rebuild_starts_chain_once env w result :
  may_use_cache w = (Ok false, w) ->
  chain_runs (applet (snd (execute env Slot_PreprocessedData result w)))
  = S (chain_runs (applet w)).
Proof.
  intros Hm. rewrite (execute_recompute env w result Hm).
  destruct (OpMstSegmentorProvider.MST_value _ _ _) as [[mst|e] a1] eqn:E;
    destruct (appends_MST_value _ _ _ _ _ E) as (evs & Hl & F); simpl in Hl.
  - assert (Hc : chain_runs a1 = S (chain_runs (applet w))).
    { unfold chain_runs. rewrite Hl, !List.filter_app, !length_app,
        (provider_events_no_request evs F). simpl. lia. }
    destruct (heap w !! result) as [[|x rest]|]; cbn [snd applet]; try exact Hc.
    unfold chain_runs in *. cbn [log]. rewrite List.filter_app, length_app, Hc.
    simpl. lia.
  - cbn [snd applet]. unfold chain_runs.
    rewrite Hl, !List.filter_app, !length_app, (provider_events_no_request evs F).
    simpl. lia.
Qed.

(** Consecutive requests on a dirty operator that all raise, each with a
    destination buffer that has an element to assign to: the graph build
    is what raised, so every one of them has started the chain and the
    operator's attributes are as they were. *)
Lemma failing_requests_restart env rs w :
  _dirty (self w) = true ->
  Forall (fun r => exists x rest, heap w !! r = Some (x :: rest)) rs ->
  Forall (fun o => exists e, o = Raise e) (fst (run_requests env rs w)) ->
  chain_runs (applet (snd (run_requests env rs w)))
  = (chain_runs (applet w) + length rs)%nat
  /\ self (snd (run_requests env rs w)) = self w.
Proof.
  revert w. induction rs as [|r rs IH]; intros w Hd Hb Hr.
  - simpl. split; [lia | reflexivity].
  - apply Forall_cons in Hb as [(x & rest & Hx) Hb].
    pose proof (rebuild_starts_chain_once env w r (needs_rebuild w (or_introl Hd))) as Hn.
    cbn [run_requests] in *.
    rewrite (execute_recompute env w r (needs_rebuild w (or_introl Hd))) in *.
    destruct (OpMstSegmentorProvider.MST_value _ _ _) as [[mst|e] a1].
    + rewrite Hx in Hr. destruct (run_requests env rs _) as [os w2].
      cbn [fst] in Hr. apply Forall_cons in Hr as [(e & He) _]. discriminate.
    + cbn [snd applet] in Hn.
      specialize (IH (mk_world (self w) (heap w) a1) Hd Hb).
      destruct (run_requests env rs (mk_world (self w) (heap w) a1)) as [os w2].
      cbn [fst snd] in *. apply Forall_cons in Hr as [_ Hr].
      destruct (IH Hr) as [IH1 IH2]. cbn [applet self] in IH1, IH2.
      split; [rewrite IH1, Hn; simpl; lia | exact IH2].
Qed.

(** C2.  With the orchestrator clean and a cached result present,
    [execute] on [PreprocessedData] returns the cached result object
    itself and starts no run of the chain; any number of consecutive
    requests do the same.  Once a request has returned, every consecutive
    request returns that same object without starting the chain, and the
    request that returned started it at most once.  A request that raises
    does not end the dirty state: of consecutive requests on a dirty
    orchestrator that all raise (each into a buffer with an element to
    assign to), every one starts the chain, and the orchestrator's
    attributes stay as they were. *)
Theorem clean_request_returns_cached_object env w result mst rest rs :
  _dirty (self w) = false ->
  heap w !! cachedResult (self w) = Some (Some mst :: rest) ->
  execute env Slot_PreprocessedData result w = (Ok (cachedResult (self w)), w)
  /\ chain_runs (applet (snd (execute env Slot_PreprocessedData result w)))
     = chain_runs (applet w)
  /\ run_requests env rs w = (map (fun _ => Ok (cachedResult (self w))) rs, w)
  /\ (forall w0 r1 l1 w1,
         execute env Slot_PreprocessedData r1 w0 = (Ok l1, w1) ->
         run_requests env rs w1 = (map (fun _ => Ok l1) rs, w1)
         /\ (chain_runs (applet w1) <= chain_runs (applet w0) + 1)%nat)
  /\ (forall w0,
         _dirty (self w0) = true ->
         Forall (fun r => exists x rest, heap w0 !! r = Some (x :: rest)) rs ->
         Forall (fun o => exists e, o = Raise e) (fst (run_requests env rs w0)) ->
         chain_runs (applet (snd (run_requests env rs w0)))
         = (chain_runs (applet w0) + length rs)%nat
         /\ self (snd (run_requests env rs w0)) = self w0).
Proof.
  intros Hd Hc.
  pose proof (execute_cached env w result mst rest Hd Hc) as He.
  split; [exact He|]. split; [by rewrite He|].
  split; [by apply (run_requests_cached env rs w mst rest)|].
  split; [|intros w0; apply failing_requests_restart].
  intros w0 r1 l1 w1 H1.
  destruct (execute_returns_clean _ _ _ _ _ H1) as (-> & Hd1 & (m1 & rest1 & Hc1) & Hn).
  split; [|exact Hn].
  by apply (run_requests_cached env rs w1 m1 rest1).
Qed.

Lemma clean_request_returns_cached_object_witness :
  _dirty (self Demo.world_clean) = false /\
  heap Demo.world_clean !! cachedResult (self Demo.world_clean)
    = Some [Some (mk_segmentor 7 None)] /\
  execute (Demo.env 4) Slot_PreprocessedData 6%positive Demo.world_clean
    = (Ok 5%positive, Demo.world_clean) /\
  run_requests (Demo.env 4) [5%positive; 6%positive] Demo.world0
    = ([Ok 5%positive; Ok 5%positive], Demo.world_clean) /\
  chain_runs (applet (snd (run_requests Demo.env_failing [6%positive]
                             (snd (propagateDirty Slot_Sigma Demo.world_clean)))))
  = 2%nat.
Proof.
  assert (Hd : _dirty (self Demo.world_clean) = false) by (vm_compute; reflexivity).
  assert (Hc : heap Demo.world_clean !! cachedResult (self Demo.world_clean)
               = Some [Some (mk_segmentor 7 None)]) by (vm_compute; reflexivity).
  destruct (clean_request_returns_cached_object (Demo.env 4) Demo.world_clean
              6%positive _ _ [6%positive] Hd Hc) as (He & _ & _ & Hall & _).
  split; [exact Hd|]. split; [exact Hc|]. split; [exact He|].
  split.
  - assert (H1 : execute (Demo.env 4) Slot_PreprocessedData 5%positive Demo.world0
                 = (Ok 5%positive, Demo.world_clean)) by (vm_compute; reflexivity).
    destruct (Hall _ _ _ _ H1) as [Hrun _].
    simpl. rewrite H1. simpl in Hrun. rewrite Hrun. reflexivity.
  - destruct (clean_request_returns_cached_object Demo.env_failing Demo.world_clean
                6%positive _ _ [6%positive] Hd Hc) as (_ & _ & _ & _ & Hfail).
    destruct (Hfail (snd (propagateDirty Slot_Sigma Demo.world_clean))) as [Hn _].
    + vm_compute. reflexivity.
    + apply Forall_cons_2; [|apply Forall_nil_2]. eexists _, _. vm_compute. reflexivity.
    + apply Forall_cons_2; [|apply Forall_nil_2]. eexists. vm_compute. reflexivity.
    + rewrite Hn. vm_compute. reflexivity.
Defined.

(** The chain can run more than once per dirty transition: after one
    change notification, two consecutive requests whose graph build fails
    start it twice. *)
Lemma failed_rebuilds_run_the_chain_again :
  let w := snd (propagateDirty Slot_Sigma Demo.world_clean) in
  let r := run_requests Demo.env_failing [5%positive; 6%positive] w in
  chain_runs (applet w) = 1%nat
  /\ fst r = [Raise (UpstreamError "graph construction failed");
              Raise (UpstreamError "graph construction failed")]
  /\ chain_runs (applet (snd r)) = 3%nat.
Proof. vm_compute. repeat split. Qed.

(** C10.  With the orchestrator clean and a cached result present,
    [execute] on [PreprocessedData] changes nothing: the dirty flag, the
    unsaved-data flag, the five cached parameters, the cached result
    object and its contents stay as they are, and nothing is logged -- no
    dirty notification on [PreprocessedData] in particular.  Whenever a
    request does change the world, the rebuild of the graph was started. *)
Theorem clean_request_is_a_no_op env w result mst rest :
  _dirty (self w) = false ->
  heap w !! cachedResult (self w) = Some (Some mst :: rest) ->
  let w' := snd (execute env Slot_PreprocessedData result w) in
  w' = w
  /\ (_dirty (self w'), hasUnsavedData (self w')) = (_dirty (self w), hasUnsavedData (self w))
  /\ (cachedSigma (self w'), cachedFilter (self w'), cachedDoAgglo (self w'),
      cachedSizeRegularizer (self w'), cachedReduceTo (self w'))
     = (cachedSigma (self w), cachedFilter (self w), cachedDoAgglo (self w),
        cachedSizeRegularizer (self w), cachedReduceTo (self w))
  /\ cachedResult (self w') = cachedResult (self w)
  /\ heap w' = heap w
  /\ log (applet w') = log (applet w)
  /\ (forall env0 w0 r0,
         snd (execute env0 Slot_PreprocessedData r0 w0) = w0 \/
         exists evs,
           log (applet (snd (execute env0 Slot_PreprocessedData r0 w0)))
           = log (applet w0) ++ MST_requested :: evs).
Proof.
  intros Hd Hc. cbv zeta.
  rewrite (execute_cached env w result mst rest Hd Hc). simpl.
  repeat split. intros. apply execute_frame_or_recompute.
Qed.

Lemma clean_request_is_a_no_op_witness :
  _dirty (self Demo.world_clean) = false /\
  heap Demo.world_clean !! cachedResult (self Demo.world_clean)
    = Some [Some (mk_segmentor 7 None)] /\
  snd (execute (Demo.env 4) Slot_PreprocessedData 6%positive Demo.world_clean)
    = Demo.world_clean.
Proof.
  assert (Hd : _dirty (self Demo.world_clean) = false) by (vm_compute; reflexivity).
  assert (Hc : heap Demo.world_clean !! cachedResult (self Demo.world_clean)
               = Some [Some (mk_segmentor 7 None)]) by (vm_compute; reflexivity).
  split; [exact Hd|]. split; [exact Hc|].
  exact (proj1 (clean_request_is_a_no_op (Demo.env 4) Demo.world_clean
                  6%positive _ _ Hd Hc)).
Defined.

(** C4.  When the orchestrator needs a rebuild and the rebuild of the
    graph raises, [execute] raises that exception and leaves every
    attribute of the operator (cached result reference, cached
    parameters, unsaved-data flag, dirty flag) and every list object,
    the previously cached one included, exactly as before the call. *)
Theorem failed_rebuild_changes_nothing env w result e a1 :
  (_dirty (self w) = true \/
   exists rest, heap w !! cachedResult (self w) = Some (None :: rest)) ->
  OpMstSegmentorProvider.MST_value env (_opMstProvider (self w))
    (requested (applet w)) = (Raise e, a1) ->
  let r := execute env Slot_PreprocessedData result w in
  fst r = Raise e /\ self (snd r) = self w /\ heap (snd r) = heap w
  /\ applet (snd r) = a1.
Proof.
  intros Hn Hf. cbv zeta.
  rewrite (execute_recompute env w result (needs_rebuild w Hn)), Hf.
  repeat split.
Qed.

Lemma failed_rebuild_changes_nothing_witness :
  let w := snd (propagateDirty Slot_Sigma Demo.world_clean) in
  let r := execute Demo.env_failing Slot_PreprocessedData 6%positive w in
  _dirty (self w) = true /\
  fst r = Raise (UpstreamError "graph construction failed") /\
  self (snd r) = self w /\ heap (snd r) = heap w /\
  heap (snd r) !! cachedResult (self (snd r)) = Some [Some (mk_segmentor 7 None)].
Proof.
  cbv zeta.
  set (w := snd (propagateDirty Slot_Sigma Demo.world_clean)).
  assert (Hd : _dirty (self w) = true) by (vm_compute; reflexivity).
  assert (Hf : OpMstSegmentorProvider.MST_value Demo.env_failing
                 (_opMstProvider (self w)) (requested (applet w))
               = (Raise (UpstreamError "graph construction failed"),
                  snd (OpMstSegmentorProvider.MST_value Demo.env_failing
                         (_opMstProvider (self w)) (requested (applet w)))))
    by (vm_compute; reflexivity).
  destruct (failed_rebuild_changes_nothing Demo.env_failing w 6%positive _ _
              (or_introl Hd) Hf) as (H1 & H2 & H3 & _).
  split; [exact Hd|]. split; [exact H1|]. split; [exact H2|]. split; [exact H3|].
  rewrite H3, H2. vm_compute. reflexivity.
Defined.

(** C3.  [propagateDirty] sets the dirty flag for every slot.  For
    [InputData] it also resets the five cached parameters to unset and
    makes [cachedResult] a new list [[None]], leaving the previous
    result object as it is; for any other slot the dirty flag is the only
    thing that changes. *)
Theorem propagateDirty_marks_dirty_and_restarts_on_input slot w :
  let r := propagateDirty slot w in
  let s' := self (snd r) in
  fst r = Ok tt
  /\ _dirty s' = true
  /\ (slot = Slot_InputData ->
      (cachedSigma s', cachedFilter s', cachedDoAgglo s',
       cachedSizeRegularizer s', cachedReduceTo s') = (None, None, None, None, None)
      /\ heap (snd r) !! cachedResult s' = Some [None]
      /\ heap w !! cachedResult s' = None
      /\ (forall l, l <> cachedResult s' -> heap (snd r) !! l = heap w !! l)
      /\ (hasUnsavedData s', deserialized s') = (hasUnsavedData (self w), deserialized (self w))
      /\ (Sigma s', Filter s', DoAgglo s', SizeRegularizer s', ReduceTo s')
         = (Sigma (self w), Filter (self w), DoAgglo (self w),
            SizeRegularizer (self w), ReduceTo (self w))
      /\ applet (snd r) = applet w)
  /\ (slot <> Slot_InputData ->
      snd r = mk_world (set_dirty true (self w)) (heap w) (applet w)).
Proof.
  cbv zeta. unfold propagateDirty, on_self, alloc_none. munfold.
  destruct (bool_decide (slot = Slot_InputData)) eqn:E; simpl.
  - apply bool_decide_eq_true in E. repeat split; try congruence.
    + apply lookup_insert_eq.
    + apply not_elem_of_dom, is_fresh.
    + intros l Hl. by apply lookup_insert_ne.
  - apply bool_decide_eq_false in E. repeat split; congruence.
Qed.

Lemma propagateDirty_marks_dirty_and_restarts_on_input_witness :
  let r := propagateDirty Slot_InputData Demo.world_clean in
  let r2 := propagateDirty Slot_Sigma Demo.world_clean in
  cachedSigma (self Demo.world_clean) = Some (F32.of_Z 2) /\
  cachedSigma (self (snd r)) = None /\
  heap (snd r) !! cachedResult (self (snd r)) = Some [None] /\
  _dirty (self (snd r)) = true /\
  snd r2 = mk_world (set_dirty true (self Demo.world_clean))
             (heap Demo.world_clean) (applet Demo.world_clean).
Proof.
  cbv zeta.
  destruct (propagateDirty_marks_dirty_and_restarts_on_input Slot_InputData
              Demo.world_clean) as (_ & Hd & Hin & _).
  destruct (Hin eq_refl) as (Hp & Hh & _).
  destruct (propagateDirty_marks_dirty_and_restarts_on_input Slot_Sigma
              Demo.world_clean) as (_ & _ & _ & Hother).
  split; [vm_compute; reflexivity|]. split; [congruence|]. split; [exact Hh|].
  split; [exact Hd|]. apply Hother. discriminate.
Defined.

End Orchestrator.

(* ===================================================================== *)
(** * The watershed stage: what it accepts                               *)
(* ===================================================================== *)

Section Watershed.
Import OpSimpleBlockwiseWatershed.


(** The three checks, then the call: [execute] in one equation per case. *)
Lemma execute_rejects_partial env self roi result a :
  roi_extent roi <> Output_meta_shape self ->
  execute env self roi result a
  = (Raise (ValueError "Blockwise Watershed must be run on the entire volume"), a).
Proof.
  intros H. unfold execute. rewrite bool_decide_eq_false_2 by exact H. reflexivity.
Qed.

Lemma execute_rejects_axes env self roi result a :
  roi_extent roi = Output_meta_shape self ->
  getAxisKeys (meta (Input self)) <> txyzc ->
  execute env self roi result a
  = (Raise (ValueError ("Unsupported input axis keys "
                        ++ py_str_list (getAxisKeys (meta (Input self))))), a).
Proof.
  intros H1 H2. unfold execute.
  rewrite bool_decide_eq_true_2 by exact H1.
  rewrite bool_decide_eq_false_2 by exact H2. reflexivity.
Qed.

Lemma execute_checked env self roi result a z arr :
  roi_extent roi = Output_meta_shape self ->
  getAxisKeys (meta (Input self)) = txyzc ->
  getTaggedShape_at (meta (Input self)) "z" = Ok z ->
  get (Input self) roi = Ok arr ->
  execute env self roi result a =
  if (ndim (squeeze arr) =? 2) || (ndim (squeeze arr) =? 3)
  then
    (('(labels, max_id) ← watershed_answer env self (squeeze arr);
      v ← view_of (if 1 <? z then Idx_0_ellipsis_0 else Idx_0_ellipsis_0_0)
            (shape result);
      write_view result v (astype_uint32 labels)),
     mk_applet (progress a) (log a ++ [watershed_call env self (squeeze arr)]))
  else (Raise (ValueError ("Input shape " ++ py_str_tuple (shape (squeeze arr))
                           ++ " has an invalid number of non-singleton dimensions")),
        a).
Proof.
  intros H1 H2 Hz Ha. unfold execute.
  rewrite bool_decide_eq_true_2 by exact H1.
  rewrite bool_decide_eq_true_2 by exact H2.
  cbn [negb]. munfold. rewrite Hz, Ha.
  destruct (_ || _); cbn [negb]; [|reflexivity].
  unfold watershed_answer, watershed_call, emit. munfold.
  destruct (DoAgglo self =? 0); cbn [negb].
  - destruct (watershedsNew env (squeeze arr)) as [[labels max_id]|e]; [|reflexivity].
    destruct (view_of _ _); reflexivity.
  - destruct (watershed_and_agglomerate env _ _ _ _) as [[labels max_id]|e]; [|reflexivity].
    destruct (view_of _ _); reflexivity.
Qed.


Lemma broadcast_eq_same {A} sh (l : list A) : is_Some (broadcast_eq sh sh l).
Proof.
  revert l. induction sh as [|d sh IH]; intros l; [by eexists|].
  cbn [broadcast_eq].
  assert (H : is_Some (mapM (broadcast_eq sh sh)
                         (chunks (Z.to_nat d) (Z.to_nat (size_of sh)) l))).
  { apply mapM_is_Some. apply Forall_forall. intros r _. apply IH. }
  destruct H as [rows' ->]. simpl. rewrite Z.eqb_refl. by eexists.
Qed.

Lemma write_view_same_shape {A} (a : ndarray A) v (src : ndarray A) :
  shape src = v_shape v ->
  exists out, write_view a v src = Ok out /\ shape out = shape a.
Proof.
  intros Hs. unfold write_view, broadcast_to. rewrite Hs.
  rewrite bool_decide_eq_true_2 by lia. rewrite Nat.sub_diag. cbn [replicate app].
  destruct (broadcast_eq_same (v_shape v) (data src)) as [d ->]. eauto.
Qed.


(** Two-dimensional labels do not broadcast into a block with a singleton
    axis in the middle. *)
Lemma broadcast_singleton_middle {A} x z (l : list A) :
  x <> 1 -> broadcast_to [x; z] [x; 1; z] l = None.
Proof.
  intros Hx. apply Z.eqb_neq in Hx.
  assert (Hin : forall row : list A, broadcast_eq [x; z] [1; z] row = None).
  { intros row. cbn [broadcast_eq].
    destruct (mapM _ _); simpl; [by rewrite Hx | reflexivity]. }
  unfold broadcast_to. cbn [length]. rewrite bool_decide_eq_true_2 by lia.
  cbn [Nat.sub replicate app]. cbn [broadcast_eq].
  change (Z.to_nat 1) with 1%nat. cbn [chunks mapM]. rewrite Hx.
  destruct (mapM _ (chunks (Z.to_nat x) _ _)); reflexivity.
Qed.

(** The squeezed shape of a volume of shape [(1, x, y, z, 1)]. *)
Lemma squeeze_txyzc {A} (arr : ndarray A) x y z :
  shape arr = [1; x; y; z; 1] ->
  shape (squeeze arr)
  = (if x =? 1 then [] else [x]) ++ (if y =? 1 then [] else [y])
      ++ (if z =? 1 then [] else [z]).
Proof.
  intros Hsa. unfold squeeze. cbn [shape]. rewrite Hsa. cbn [List.filter Z.eqb negb].
  by destruct (x =? 1), (y =? 1), (z =? 1).
Qed.




End Watershed.

(* ===================================================================== *)
(** * The filter stage: channel, inversion, workers                      *)
(* ===================================================================== *)

Section Filter.
Import OpFilter.

Lemma view_0_xyz_0_inv sh v :
  view_0_xyz_0 sh = Ok v ->
  exists t x y z c, sh = [t; x; y; z; c] /\
    v = mk_view [0; 0; 0; 0; 0] [1; x; y; z; 1] [x; y; z].
Proof.
  unfold view_0_xyz_0.
  destruct sh as [|t [|x [|y [|z [|c [|]]]]]]; try discriminate.
  destruct (_ && _); [|discriminate]. intros [= <-]. by exists t, x, y, z, c.
Qed.

(** A call that returns has made exactly one call to the filter: on the
    prepared volume, with the selected channel and the clamped number of
    workers; what it writes is the response, subtracted from its maximum
    for HESSIAN_BRIGHT only. *)
Lemma execute_ok env self roi result a out a' :
  execute env self roi result a = (Ok out, a') ->
  exists volume5d vv name response rv written,
    value (Input self) = Ok volume5d /\
    view_0_xyz_0 (shape volume5d) = Ok vv /\
    FILTER_NAMES !! Filter self = Some name /\
    let fvol := filter_input (Filter self) (read_view volume5d vv) in
    let channel := select_channel (Filter self) fvol in
    let workers := Z.max 1 (num_workers env) in
    a' = mk_applet (progress a)
           (log a ++ [Call_parallel_filter name fvol (Sigma self) workers channel]) /\
    parallel_filter env name fvol (Sigma self) workers channel = Ok response /\
    write_view result rv written = Ok out /\
    (Filter self = HESSIAN_BRIGHT ->
     exists mx, np_max response = Ok mx /\
                written = inplace (fun x => F32.sub mx x) response) /\
    (Filter self <> HESSIAN_BRIGHT -> written = response).
Proof.
  unfold execute. munfold.
  destruct (py_assert (bool_decide (length _ = 5%nat)) _); [|discriminate].
  destruct (key_and_extent_one _ _ 0 _) as [c0|]; [|discriminate].
  destruct (py_assert c0 _); [|discriminate].
  destruct (assert_spatial _ _); [|discriminate].
  destruct (key_and_extent_one _ _ 4 _) as [c4|]; [|discriminate].
  destruct (py_assert c4 _); [|discriminate].
  destruct (value (Input self)) as [volume5d|] eqn:Hv; [|discriminate].
  destruct (view_0_xyz_0 (shape volume5d)) as [vv|] eqn:Hvv; [|discriminate].
  destruct (view_0_xyz_0 (shape result)) as [result_view|] eqn:Hrv; [|discriminate].
  destruct (FILTER_NAMES !! Filter self) as [name|] eqn:Hn; [|discriminate].
  destruct (view_0_xyz_0_inv _ _ Hvv) as (t & x & y & z & c & Hsh & ->).
  cbn [read_view v_shape shape getitem nth_error].
  set (volume := read_view volume5d _).
  assert (Hfi : filter_input (Filter self) volume
                = (if Filter self =? RAW_INVERTED
                   then inplace F32.neg
                          (if z =? 1 then mk_ndarray (firstn 2 [x; y; z]) (data volume)
                           else volume)
                   else if z =? 1 then mk_ndarray (firstn 2 [x; y; z]) (data volume)
                        else volume)).
  { unfold filter_input. reflexivity. }
  rewrite <- Hfi. set (fvol := filter_input _ _).
  unfold emit. munfold. cbn [progress log].
  destruct (parallel_filter env name fvol _ _ _) as [response|] eqn:Hpf; [|discriminate].
  intros H.
  exists volume5d, (mk_view [0; 0; 0; 0; 0] [1; x; y; z; 1] [x; y; z]), name, response.
  fold volume. fold fvol.
  destruct (Filter self =? HESSIAN_BRIGHT) eqn:Hb.
  - destruct (np_max response) as [mx|] eqn:Hmx; [|discriminate].
    destruct (ndim fvol =? 2).
    + destruct (view_0_xy00 (shape result)) as [rv|]; [|discriminate].
      exists rv, (inplace (fun x => F32.sub mx x) response).
      destruct (write_view result rv _) eqn:Hw; [|discriminate].
      injection H as <- <-. apply Z.eqb_eq in Hb.
      repeat split; eauto. congruence.
    + exists result_view, (inplace (fun x => F32.sub mx x) response).
      destruct (write_view result result_view _) eqn:Hw; [|discriminate].
      injection H as <- <-. apply Z.eqb_eq in Hb.
      repeat split; eauto. congruence.
  - apply Z.eqb_neq in Hb. destruct (ndim fvol =? 2).
    + destruct (view_0_xy00 (shape result)) as [rv|]; [|discriminate].
      exists rv, response.
      destruct (write_view result rv _) eqn:Hw; [|discriminate].
      injection H as <- <-. repeat split; eauto. congruence.
    + exists result_view, response.
      destruct (write_view result result_view _) eqn:Hw; [|discriminate].
      injection H as <- <-. repeat split; eauto. congruence.
Qed.

Lemma filter_calls_as_selected env self roi result :
  appends (channel_as_selected self) (execute env self roi result).
Proof. unfold execute, mbind, M_bind. repeat appends_step. Qed.

(** C8.  Every call [OpFilter.execute] makes to the filter asks for one
    channel of the eigenvalue response when the kind is a ridge kind --
    the last one, index [fvol.ndim - 1], for HESSIAN_BRIGHT and the first
    one, index 0, for HESSIAN_DARK -- and for no channel otherwise.  In a
    call that returns, what is written to the result is
    [max(response) - response] for HESSIAN_BRIGHT and the response itself
    for every other kind. *)
Theorem ridge_channel_and_inversion env self roi result a out a' :
  execute env self roi result a = (Ok out, a') ->
  (exists name fvol response rv written,
      log a' = log a ++ [Call_parallel_filter name fvol (Sigma self)
                           (Z.max 1 (num_workers env))
                           (select_channel (Filter self) fvol)] /\
      parallel_filter env name fvol (Sigma self) (Z.max 1 (num_workers env))
        (select_channel (Filter self) fvol) = Ok response /\
      write_view result rv written = Ok out /\
      (Filter self = HESSIAN_BRIGHT ->
       select_channel (Filter self) fvol = Some (ndim fvol - 1) /\
       exists mx, np_max response = Ok mx /\
                  written = inplace (fun x => F32.sub mx x) response) /\
      (Filter self = HESSIAN_DARK ->
       select_channel (Filter self) fvol = Some 0 /\ written = response) /\
      (Filter self <> HESSIAN_BRIGHT -> Filter self <> HESSIAN_DARK ->
       select_channel (Filter self) fvol = None /\ written = response))
  /\ (forall roi0 result0 a0,
         exists evs,
           log (snd (execute env self roi0 result0 a0)) = log a0 ++ evs /\
           Forall (channel_as_selected self) evs)
  /\ (forall fvol,
         select_channel HESSIAN_BRIGHT fvol = Some (ndim fvol - 1) /\
         select_channel HESSIAN_DARK fvol = Some 0 /\
         select_channel STEP_EDGES fvol = None /\
         select_channel RAW fvol = None /\
         select_channel RAW_INVERTED fvol = None).
Proof.
  intros H. split; [|split].
  - destruct (execute_ok _ _ _ _ _ _ _ H)
      as (volume5d & vv & name & response & rv & written
          & _ & _ & _ & Ha' & Hpf & Hw & Hbright & Hother).
    cbv zeta in Ha', Hpf.
    exists name, (filter_input (Filter self) (read_view volume5d vv)),
      response, rv, written.
    split; [by rewrite Ha'|]. split; [exact Hpf|]. split; [exact Hw|].
    unfold select_channel. split; [|split].
    + intros Hb. split; [by rewrite Hb|]. by apply Hbright.
    + intros Hd. split; [by rewrite Hd|]. apply Hother. by rewrite Hd.
    + intros Hb Hd. split; [|by apply Hother].
      apply Z.eqb_neq in Hb, Hd. by rewrite Hb, Hd.
  - intros roi0 result0 a0.
    destruct (execute env self roi0 result0 a0) as [r0 a1] eqn:E.
    exact (filter_calls_as_selected env self roi0 result0 a0 r0 a1 E).
  - intros fvol. repeat split.
Qed.

Lemma ridge_channel_and_inversion_witness :
  let self := OpFilter.mk (Demo.f32_slot [1; 2; 2; 1; 1] [1; 2; 3; 4])
                HESSIAN_BRIGHT (F32.of_Z 2) in
  let r := execute (Demo.env 4) self (roiFromShape [1; 2; 2; 1; 1])
             (Demo.zeros_f32 [1; 2; 2; 1; 1]) Demo.applet0 in
  fst r = Ok (mk_ndarray [1; 2; 2; 1; 1] (Demo.f32s [3; 2; 1] ++ [F32.pzero])) /\
  log (snd r)
  = [Call_parallel_filter "hessianOfGaussianEigenvalues"
       (mk_ndarray [2; 2] (Demo.f32s [1; 2; 3; 4])) (F32.of_Z 2) 4 (Some 1)].
Proof.
  cbv zeta.
  set (self := OpFilter.mk _ _ _).
  set (r := execute _ _ _ _ _).
  assert (Hr : r = (Ok (mk_ndarray [1; 2; 2; 1; 1] (Demo.f32s [3; 2; 1] ++ [F32.pzero])),
                    snd r)) by (vm_compute; reflexivity).
  unfold r in Hr.
  destruct (ridge_channel_and_inversion _ _ _ _ _ _ _ Hr)
    as ((name & fvol & response & rv & written & Hlog & _) & _).
  split; [unfold r; by rewrite Hr|]. vm_compute. reflexivity.
Defined.

End Filter.

(* ===================================================================== *)
(** * Worker-pool sizing                                                 *)
(* ===================================================================== *)

Section Workers.





End Workers.

(* ===================================================================== *)
(** * float32 rounding                                                   *)
(* ===================================================================== *)

Section Rounding.

Lemma digits2_pos_size p : digits2_pos p = Pos.size p.
Proof. induction p; simpl; congruence. Qed.

Lemma digits2_bounds p :
  2 ^ (Zpos (digits2_pos p) - 1) <= Zpos p < 2 ^ Zpos (digits2_pos p).
Proof.
  rewrite digits2_pos_size. split.
  - pose proof (Pos.size_le p) as H.
    assert (Hz : 2 ^ Zpos (Pos.size p) <= 2 * Zpos p).
    { change 2 with (Zpos 2) at 1. rewrite <- Pos2Z.inj_pow. 
      change (2 * Zpos p) with (Zpos (p~0)). apply Pos2Z.pos_le_pos. exact H. }
    replace (Zpos (Pos.size p)) with (Zpos (Pos.size p) - 1 + 1) in Hz by lia.
    rewrite Z.pow_add_r in Hz by lia. lia.
  - pose proof (Pos.size_gt p) as H.
    change 2 with (Zpos 2). rewrite <- Pos2Z.inj_pow. apply Pos2Z.pos_lt_pos. exact H.
Qed.

Lemma iter_pos_nat {A} (f : A -> A) p x :
  SpecFloat.iter_pos f p x = Nat.iter (Pos.to_nat p) f x.
Proof.
  revert x. induction p as [p IH|p IH|]; intros x; cbn [SpecFloat.iter_pos].
  - rewrite !IH. rewrite Pos2Nat.inj_xI.
    replace (S (2 * Pos.to_nat p)) with (Pos.to_nat p + Pos.to_nat p + 1)%nat by lia.
    rewrite !Nat.iter_add. reflexivity.
  - rewrite !IH. rewrite Pos2Nat.inj_xO.
    replace (2 * Pos.to_nat p)%nat with (Pos.to_nat p + Pos.to_nat p)%nat by lia.
    rewrite Nat.iter_add. reflexivity.
  - reflexivity.
Qed.

Lemma shr_1_spec m r s :
  0 <= m ->
  shr_1 (Build_shr_record m r s) = Build_shr_record (m / 2) (Z.odd m) (r || s).
Proof.
  intros Hm. destruct m as [|p|p]; [reflexivity| |lia].
  destruct p as [p|p|]; simpl.
  - f_equal. rewrite Pos2Z.inj_xI. 
    replace (2 * Zpos p + 1) with (1 + Zpos p * 2) by lia.
    rewrite Z.div_add by lia. reflexivity.
  - f_equal. rewrite Pos2Z.inj_xO. rewrite Z.mul_comm, Z.div_mul by lia. reflexivity.
  - reflexivity.
Qed.

Lemma iter_shr_1_spec n m :
  0 <= m ->
  let mrs := Nat.iter n shr_1 (Build_shr_record m false false) in
  shr_m mrs = m / 2 ^ Z.of_nat n /\
  loc_of_shr_record mrs = locate (m mod 2 ^ Z.of_nat n) (2 ^ Z.of_nat n).
Proof.
  intros Hm. induction n as [|n IH]; cbv zeta.
  - simpl. rewrite Z.div_1_r, Z.mod_1_r. split; reflexivity.
  - cbv zeta in IH. rewrite Nat.iter_succ.
    destruct (Nat.iter n shr_1 _) as [mn rn sn]. simpl in IH. destruct IH as [Hmn Hloc].
    assert (Hp : 0 < 2 ^ Z.of_nat n) by (apply Z.pow_pos_nonneg; lia).
    assert (Hmn0 : 0 <= mn) by (subst mn; apply Z.div_pos; lia).
    rewrite shr_1_spec by exact Hmn0. cbn [shr_m].
    rewrite Nat2Z.inj_succ, Z.pow_succ_r by lia.
    assert (Hdiv : mn / 2 = m / (2 * 2 ^ Z.of_nat n)).
    { subst mn. rewrite Z.div_div by lia. f_equal. lia. }
    split; [exact Hdiv|].
    pose proof (Z.div_mod m (2 ^ Z.of_nat n) ltac:(lia)) as E1.
    pose proof (Z.mod_pos_bound m (2 ^ Z.of_nat n) Hp) as B1.
    pose proof (Z.div_mod mn 2 ltac:(lia)) as E2.
    pose proof (Z.mod_pos_bound mn 2 ltac:(lia)) as B2.
    set (rem := m mod 2 ^ Z.of_nat n) in *.
    assert (Hrem' : m mod (2 * 2 ^ Z.of_nat n) = rem + 2 ^ Z.of_nat n * (mn mod 2)).
    { symmetry. apply Z.mod_unique with (q := mn / 2); [left; nia|]. nia. }
    rewrite Hrem'.
    assert (Hodd : Z.odd mn = (mn mod 2 =? 1)).
    { rewrite Zmod_odd. destruct (Z.odd mn); reflexivity. }
    rewrite Hodd. unfold locate in *.
    destruct (rem =? 0) eqn:Er.
    + apply Z.eqb_eq in Er. 
      assert (rn = false /\ sn = false) as [-> ->].
      { destruct rn, sn; simpl in Hloc; try discriminate; auto. }
      rewrite Er. simpl.
      destruct (mn mod 2 =? 1) eqn:Eb.
      * apply Z.eqb_eq in Eb. rewrite Eb.
        replace (0 + 2 ^ Z.of_nat n * 1 =? 0) with false by (symmetry; apply Z.eqb_neq; lia).
        simpl. f_equal. symmetry. apply Z.compare_eq_iff. lia.
      * apply Z.eqb_neq in Eb. assert (mn mod 2 = 0) as -> by lia.
        rewrite Z.mul_0_r. reflexivity.
    + apply Z.eqb_neq in Er.
      assert (rn || sn = true) as ->.
      { destruct rn, sn; simpl in Hloc; try discriminate; auto. }
      destruct (mn mod 2 =? 1) eqn:Eb.
      * apply Z.eqb_eq in Eb. rewrite Eb.
        replace (rem + 2 ^ Z.of_nat n * 1 =? 0) with false by (symmetry; apply Z.eqb_neq; lia).
        simpl. f_equal. symmetry. apply Z.compare_gt_iff. lia.
      * apply Z.eqb_neq in Eb. assert (mn mod 2 = 0) as -> by lia.
        rewrite Z.mul_0_r, Z.add_0_r.
        replace (rem =? 0) with false by (symmetry; apply Z.eqb_neq; lia).
        simpl. f_equal. symmetry. apply Z.compare_lt_iff. lia.
Qed.

Lemma shr_spec m e n :
  0 <= m -> 0 <= n ->
  exists mrs,
    shr (Build_shr_record m false false) e n = (mrs, e + n) /\
    shr_m mrs = m / 2 ^ n /\
    loc_of_shr_record mrs = locate (m mod 2 ^ n) (2 ^ n).
Proof.
  intros Hm Hn. destruct n as [|p|p]; [| |lia].
  - exists (Build_shr_record m false false). simpl.
    rewrite Z.add_0_r, Z.div_1_r, Z.mod_1_r. repeat split.
  - unfold shr. rewrite iter_pos_nat.
    pose proof (iter_shr_1_spec (Pos.to_nat p) m Hm) as H. cbv zeta in H.
    rewrite positive_nat_Z in H. eexists. split; [reflexivity|]. exact H.
Qed.

Lemma shr_nonpos mrs e n : n <= 0 -> shr mrs e n = (mrs, e).
Proof. destruct n; [reflexivity|lia|reflexivity]. Qed.

(** Rounding to nearest: [m = m1 * pw + rem]. *)
Lemma rne_spec m1 rem pw :
  0 <= rem < pw ->
  let m2 := round_nearest_even m1 (locate rem pw) in
  m1 <= m2 <= m1 + 1 /\
  2 * Z.abs (m2 * pw - (m1 * pw + rem)) <= pw /\
  (rem = 0 -> m2 = m1).
Proof.
  intros Hr. cbv zeta. unfold locate, round_nearest_even.
  destruct (rem =? 0) eqn:E.
  - apply Z.eqb_eq in E. subst rem.
    replace (m1 * pw - (m1 * pw + 0)) with 0 by ring. simpl. lia.
  - apply Z.eqb_neq in E.
    destruct (2 * rem ?= pw) eqn:C.
    + rewrite Z.compare_eq_iff in C. destruct (Z.even m1); lia.
    + rewrite Z.compare_lt_iff in C. lia.
    + rewrite Z.compare_gt_iff in C. lia.
Qed.

Lemma Zdigits2_le_24 m : 0 <= m < 2 ^ 24 -> Zdigits2 m <= 24.
Proof.
  intros [H0 H1]. destruct m as [|p|p]; simpl; [lia| |lia].
  pose proof (digits2_bounds p) as [B _].
  destruct (Z_le_gt_dec (Zpos (digits2_pos p)) 24) as [|G]; [assumption|].
  exfalso. assert (2 ^ 24 <= 2 ^ (Zpos (digits2_pos p) - 1))
    by (apply Z.pow_le_mono_r; lia). lia.
Qed.

(** [binary_round_aux] on a positive mantissa with nothing lost so far:
    the mantissa is shifted right by [n] places and rounded to nearest. *)
Lemma round_aux_exact_spec sx mx ex :
  0 < mx ->
  let n := Z.max (Z.max (Zdigits2 mx - 24) (-149 - ex)) 0 in
  let r := binary_round_aux 24 128 sx mx ex loc_Exact in
  exists m2,
    2 * Z.abs (m2 * 2 ^ n - mx) <= 2 ^ n /\
    (mx mod 2 ^ n = 0 -> m2 * 2 ^ n = mx) /\
    mx / 2 ^ n <= m2 /\
    ((m2 = 0 /\ r = S754_zero sx) \/
     (0 < m2 /\
      (r = S754_infinity sx \/
       exists mP eP,
         r = S754_finite sx mP eP /\ -149 <= eP /\ ex + n <= eP /\
         Zpos mP * 2 ^ (eP - (ex + n)) = m2))).
Proof.
  intros Hmx. cbv zeta.
  set (d := Zdigits2 mx).
  set (n := Z.max (Z.max (d - 24) (-149 - ex)) 0).
  assert (Hd : 2 ^ (d - 1) <= mx < 2 ^ d).
  { destruct mx as [|p|p]; try lia. apply digits2_bounds. }
  assert (Hd0 : 0 < d).
  { destruct mx as [|p|p]; try lia. unfold d. simpl. lia. }
  assert (Hn : 0 <= n) by lia.
  assert (Hpn : 0 < 2 ^ n) by (apply Z.pow_pos_nonneg; lia).
  unfold binary_round_aux, shr_fexp. fold d.
  assert (Hfexp : fexp 24 128 (d + ex) - ex = Z.max (d - 24) (-149 - ex)).
  { unfold fexp, emin. lia. }
  rewrite Hfexp. cbn [shr_record_of_loc].
  (* first shift *)
  assert (Hshr : exists mrs,
             shr (Build_shr_record mx false false) ex (Z.max (d - 24) (-149 - ex))
             = (mrs, ex + n) /\
             shr_m mrs = mx / 2 ^ n /\
             loc_of_shr_record mrs = locate (mx mod 2 ^ n) (2 ^ n)).
  { destruct (Z_le_gt_dec (Z.max (d - 24) (-149 - ex)) 0) as [L|G].
    - rewrite shr_nonpos by exact L. assert (n = 0) as -> by lia.
      exists (Build_shr_record mx false false).
      rewrite Z.add_0_r, Z.div_1_r, Z.mod_1_r. repeat split.
    - assert (n = Z.max (d - 24) (-149 - ex)) as <- by lia.
      apply shr_spec; lia. }
  destruct Hshr as (mrs & -> & Hm1 & Hloc).
  rewrite Hloc, Hm1.
  set (m1 := mx / 2 ^ n). set (rem := mx mod 2 ^ n).
  assert (Hrem : 0 <= rem < 2 ^ n) by (apply Z.mod_pos_bound; lia).
  assert (Hmx_eq : mx = m1 * 2 ^ n + rem).
  { unfold m1, rem. rewrite Z.mul_comm. apply Z.div_mod. lia. }
  pose proof (rne_spec m1 rem (2 ^ n) Hrem) as (Hm2 & Hnear & Hexact). cbv zeta in *.
  set (m2 := round_nearest_even m1 (locate rem (2 ^ n))) in *.
  assert (Hm1_0 : 0 <= m1) by (apply Z.div_pos; lia).
  assert (Hm1_24 : m1 < 2 ^ 24).
  { apply Z.div_lt_upper_bound; [lia|].
    apply Z.lt_le_trans with (2 ^ d); [lia|].
    rewrite <- Z.pow_add_r by lia. apply Z.pow_le_mono_r; lia. }
  exists m2. rewrite <- Hmx_eq in Hnear.
  split; [exact Hnear|]. split; [intros H0; rewrite (Hexact H0); lia|].
  split; [lia|].
  (* second shift *)
  assert (Hfexp2 : forall dg, fexp 24 128 (dg + (ex + n)) - (ex + n)
                              = Z.max (dg - 24) (-149 - (ex + n))).
  { intros dg. unfold fexp, emin. lia. }
  rewrite Hfexp2.
  destruct (Z.eq_dec m2 0) as [Z0|NZ].
  - left. split; [exact Z0|]. rewrite Z0. cbn [Zdigits2].
    rewrite shr_nonpos by lia. reflexivity.
  - right. split; [lia|].
    destruct (Z.eq_dec m2 (2 ^ 24)) as [Ec|Nc].
    + (* carry *)
      rewrite Ec. change (Zdigits2 (2 ^ 24)) with 25.
      replace (Z.max (25 - 24) (-149 - (ex + n))) with 1 by lia.
      cbn [shr SpecFloat.iter_pos shr_1]. change (2 ^ 24) with 16777216. cbn [shr_1 shr_m].
      destruct (ex + n + 1 <=? 128 - 24) eqn:Ee; [right|by left].
      exists 8388608%positive, (ex + n + 1). split; [reflexivity|].
      split; [lia|]. split; [lia|].
      replace (ex + n + 1 - (ex + n)) with 1 by lia. reflexivity.
    + assert (Hm2_24 : 0 < m2 < 2 ^ 24) by lia.
      pose proof (Zdigits2_le_24 m2 ltac:(lia)) as Hdg.
      rewrite shr_nonpos by lia. cbn [shr_m].
      destruct m2 as [|q|q] eqn:Eq; [lia| |lia].
      destruct (ex + n <=? 128 - 24) eqn:Ee; [right|by left].
      exists q, (ex + n). split; [reflexivity|]. split; [lia|]. split; [lia|].
      rewrite Z.sub_diag. simpl. lia.
Qed.

Lemma mul_c255_spec mD eD :
  -149 <= eD ->
  let P := SFmul 24 128 (S754_finite false mD eD) F32.c255 in
  P = S754_infinity false \/
  exists mP eP,
    P = S754_finite false mP eP /\ 0 <= eP - eD + 16 /\
    16711679 * Zpos mD < Zpos mP * 2 ^ (eP - eD + 16) < 16711681 * Zpos mD.
Proof.
  intros HeD. cbv zeta. unfold F32.c255, SFmul. cbn [xorb].
  set (mx := Zpos (mD * 16711680)). set (ex := eD + -16).
  assert (Hmx : mx = 16711680 * Zpos mD) by (unfold mx; lia).
  destruct (round_aux_exact_spec false mx ex ltac:(lia))
    as (m2 & Hnear & Hexact & Hlow & Hres).
  set (d := Zdigits2 mx) in *.
  assert (Hd : 2 ^ (d - 1) <= mx < 2 ^ d) by apply digits2_bounds.
  assert (Hd24 : 24 <= d).
  { destruct (Z_le_gt_dec 24 d) as [|G]; [assumption|exfalso].
    assert (2 ^ d <= 2 ^ 23) by (apply Z.pow_le_mono_r; lia). lia. }
  set (n := Z.max (Z.max (d - 24) (-149 - ex)) 0) in *.
  assert (Hn : n = Z.max (d - 24) (-133 - eD)) by (unfold n, ex; lia).
  assert (Hn0 : 0 <= n) by lia.
  assert (Hpn : 0 < 2 ^ n) by (apply Z.pow_pos_nonneg; lia).
  assert (Hm2pos : 0 < m2).
  { apply Z.lt_le_trans with (mx / 2 ^ n); [|exact Hlow].
    apply Z.div_str_pos. split; [lia|].
    apply Z.le_trans with (2 ^ (d - 1)); [|lia].
    apply Z.pow_le_mono_r; lia. }
  assert (Hbound : 16711679 * Zpos mD < m2 * 2 ^ n < 16711681 * Zpos mD).
  { destruct (Z.eq_dec (mx mod 2 ^ n) 0) as [E0|N0].
    - rewrite (Hexact E0). lia.
    - assert (Hn16 : 16 < n).
      { destruct (Z_le_gt_dec n 16) as [L|G]; [exfalso|lia]. apply N0.
        rewrite Hmx.
        replace (16711680 * Zpos mD) with (255 * Zpos mD * 2 ^ (16 - n) * 2 ^ n).
        - apply Z.mod_mul. lia.
        - rewrite <- Z.mul_assoc, <- Z.pow_add_r by lia.
          replace (16 - n + n) with 16 by lia. lia. }
      assert (Hnd : n = d - 24) by lia.
      assert (Hhalf : 2 ^ n = 2 * 2 ^ (n - 1)).
      { rewrite <- Z.pow_succ_r by lia. f_equal. lia. }
      assert (H23 : 2 ^ (d - 1) = 2 ^ (n - 1) * 2 ^ 24).
      { rewrite <- Z.pow_add_r by lia. f_equal. lia. }
      assert (Hlt : 2 ^ (n - 1) < Zpos mD) by lia.
      lia. }
  destruct Hres as [[Z0 _]|[_ [Hinf|(mP & eP & HP & HeP & Hge & Hval)]]]; [lia|by left|].
  right. exists mP, eP. split; [exact HP|]. split; [unfold ex in Hge; lia|].
  replace (eP - eD + 16) with ((eP - (ex + n)) + n) by (unfold ex; lia).
  rewrite Z.pow_add_r by lia. rewrite Z.mul_assoc, Hval. exact Hbound.
Qed.

Lemma shift_match m s :
  0 <= s ->
  match s with Z.pos _ => Z.shiftl m s | 0 => m | Z.neg _ => 0 end = m * 2 ^ s.
Proof.
  intros Hs. destruct s as [|p|p]; [simpl; lia| |lia].
  apply Z.shiftl_mul_pow2. lia.
Qed.

Lemma round_near_255_a q loc :
  q = 16711679 \/ q = 16711680 ->
  near_255 (binary_round_aux 24 128 false q (-16) loc).
Proof.
  unfold near_255.
  intros [-> | ->]; destruct loc as [|[| |]]; vm_compute; auto.
Qed.

Lemma round_near_255_b q loc :
  33423358 <= q <= 33423361 ->
  near_255 (binary_round_aux 24 128 false q (-17) loc).
Proof.
  unfold near_255. intros Hq.
  assert (q = 33423358 \/ q = 33423359 \/ q = 33423360 \/ q = 33423361)
    as [-> | [-> | [-> | ->]]] by lia;
    destruct loc as [|[| |]]; vm_compute; auto.
Qed.

Lemma div_near_255 mP eP mD eD :
  0 <= eP - eD + 16 ->
  16711679 * Zpos mD < Zpos mP * 2 ^ (eP - eD + 16) < 16711681 * Zpos mD ->
  near_255 (SFdiv 24 128 (S754_finite false mP eP) (S754_finite false mD eD)).
Proof.
  intros Ht Hb. set (t := eP - eD + 16) in *.
  unfold SFdiv, SFdiv_core_binary. cbn [xorb Zdigits2].
  pose proof (digits2_bounds mP) as [P1 P2].
  pose proof (digits2_bounds mD) as [D1 D2].
  set (d1 := Zpos (digits2_pos mP)) in *. set (d2 := Zpos (digits2_pos mD)) in *.
  assert (Hd1 : 0 < d1) by (unfold d1; lia).
  assert (Hd2 : 0 < d2) by (unfold d2; lia).
  assert (HT : 0 < 2 ^ t) by (apply Z.pow_pos_nonneg; lia).
  set (u := d1 + t - d2).
  assert (Hu : u = 23 \/ u = 24).
  { assert (u <= 24).
    { destruct (Z_le_gt_dec u 24) as [|G]; [assumption|exfalso].
      assert (2 ^ (24 + d2) <= 2 ^ (d1 - 1 + t)) by (apply Z.pow_le_mono_r; unfold u in G; lia).
      rewrite !Z.pow_add_r in H by lia.
      assert (2 ^ (d1 - 1) * 2 ^ t <= Zpos mP * 2 ^ t) by nia.
      assert (16711681 * Zpos mD < 2 ^ 24 * 2 ^ d2) by lia. lia. }
    assert (23 <= u).
    { destruct (Z_le_gt_dec 23 u) as [|G]; [assumption|exfalso].
      assert (2 ^ (d1 + t) <= 2 ^ (23 + (d2 - 1))) by (apply Z.pow_le_mono_r; unfold u in G; lia).
      rewrite !Z.pow_add_r in H0 by lia.
      assert (Zpos mP * 2 ^ t < 2 ^ d1 * 2 ^ t) by nia.
      assert (2 ^ 23 * 2 ^ (d2 - 1) <= 16711679 * Zpos mD) by lia. lia. }
    lia. }
  assert (He' : Z.min (fexp 24 128 (d1 + eP - (d2 + eD))) (eP - eD) = u - 40).
  { unfold fexp, emin, u, t. lia. }
  rewrite He'.
  replace (eP - eD - (u - 40)) with (t + 24 - u) by (unfold t; lia).
  rewrite shift_match by lia.
  assert (Hdiv : Z.div_eucl (Zpos mP * 2 ^ (t + 24 - u)) (Zpos mD)
                 = ((Zpos mP * 2 ^ (t + 24 - u)) / Zpos mD,
                    (Zpos mP * 2 ^ (t + 24 - u)) mod Zpos mD)).
  { unfold Z.div, Z.modulo. by destruct (Z.div_eucl _ _). }
  rewrite Hdiv.
  destruct Hu as [Hu|Hu]; rewrite Hu.
  - replace (t + 24 - 23) with (t + 1) by lia. rewrite Z.pow_add_r by lia.
    change (23 - 40) with (-17). apply round_near_255_b.
    split.
    + apply Z.div_le_lower_bound; lia.
    + assert (Zpos mP * (2 ^ t * 2 ^ 1) / Zpos mD < 33423362); [|lia].
      apply Z.div_lt_upper_bound; lia.
  - replace (t + 24 - 24) with t by lia.
    change (24 - 40) with (-16). apply round_near_255_a.
    assert (16711679 <= Zpos mP * 2 ^ t / Zpos mD) by (apply Z.div_le_lower_bound; lia).
    assert (Zpos mP * 2 ^ t / Zpos mD < 16711681) by (apply Z.div_lt_upper_bound; lia).
    lia.
Qed.

Lemma bounded_canonical m e :
  bounded 24 128 m e = true ->
  -149 <= e /\ Zpos (digits2_pos m) <= 24 /\
  (-149 < e -> Zpos (digits2_pos m) = 24).
Proof.
  unfold bounded, canonical_mantissa, fexp, emin.
  intros H. apply andb_prop in H as [H _]. apply Z.eqb_eq in H. lia.
Qed.

Lemma pos_iter_xO m d : Zpos (Pos.iter xO m d) = Zpos m * 2 ^ Zpos d.
Proof.
  induction d as [|d IH] using Pos.peano_ind.
  - simpl. lia.
  - rewrite Pos.iter_succ, Pos2Z.inj_succ, Z.pow_succ_r by lia.
    rewrite Pos2Z.inj_xO, IH. lia.
Qed.

Lemma shl_align_spec mx ex ez :
  ez <= ex -> Zpos (fst (shl_align mx ex ez)) = Zpos mx * 2 ^ (ex - ez).
Proof.
  intros H. unfold shl_align.
  destruct (ez - ex) as [|d|d] eqn:E.
  - replace (ex - ez) with 0 by lia. simpl. lia.
  - lia.
  - cbn [fst]. rewrite pos_iter_xO. f_equal. f_equal. lia.
Qed.

Lemma shl_align_exp mx ex ez :
  snd (shl_align mx ex ez) = ex \/ snd (shl_align mx ex ez) = ez.
Proof. unfold shl_align. destruct (ez - ex); auto. Qed.

Lemma binary_round_pos z e :
  -149 <= e -> pos_result (binary_round 24 128 false z e).
Proof.
  intros He. unfold binary_round.
  pose proof (shl_align_exp z e (fexp 24 128 (Zpos (digits2_pos z) + e))) as Hexp.
  destruct (shl_align z e _) as [mz ez]. cbn [snd] in Hexp.
  assert (Hez : -149 <= ez).
  { destruct Hexp as [-> | ->]; [assumption|]. unfold fexp, emin. lia. }
  destruct (round_aux_exact_spec false (Zpos mz) ez ltac:(lia))
    as (m2 & _ & _ & Hlow & Hres).
  pose proof (digits2_bounds mz) as [B1 B2]. cbn [Zdigits2] in *.
  set (d := Zpos (digits2_pos mz)) in *.
  assert (Hd : 0 < d) by (unfold d; lia).
  set (n := Z.max (Z.max (d - 24) (-149 - ez)) 0) in *.
  assert (Hm2 : 0 < m2).
  { apply Z.lt_le_trans with (Zpos mz / 2 ^ n); [|exact Hlow].
    apply Z.div_str_pos. split; [apply Z.pow_pos_nonneg; lia|].
    apply Z.le_trans with (2 ^ (d - 1)); [|lia].
    apply Z.pow_le_mono_r; lia. }
  destruct Hres as [[Z0 _]|[_ [Hinf|(mP & eP & HP & HeP & _)]]]; [lia|by left|].
  right. eauto.
Qed.

Lemma aligned_lt m1 e1 m2 e2 :
  bounded 24 128 m1 e1 = true -> bounded 24 128 m2 e2 = true ->
  e1 < e2 ->
  Zpos (fst (shl_align m1 e1 (Z.min e2 e1))) < Zpos (fst (shl_align m2 e2 (Z.min e2 e1)))
  /\ Zpos (fst (shl_align m1 e1 (Z.min e1 e2))) < Zpos (fst (shl_align m2 e2 (Z.min e1 e2))).
Proof.
  intros H1 H2 He.
  apply bounded_canonical in H1 as (A1 & A2 & _).
  apply bounded_canonical in H2 as (B1 & _ & B3).
  pose proof (digits2_bounds m1) as [_ P1]. pose proof (digits2_bounds m2) as [P2 _].
  rewrite B3 in P2 by lia.
  assert (Zpos m1 < 2 ^ 24).
  { apply Z.lt_le_trans with (2 ^ Zpos (digits2_pos m1)); [lia|].
    apply Z.pow_le_mono_r; lia. }
  assert (Hk : 2 <= 2 ^ (e2 - e1)).
  { change 2 with (2 ^ 1) at 1. apply Z.pow_le_mono_r; lia. }
  rewrite Z.min_r by lia. rewrite Z.min_l by lia.
  rewrite !shl_align_spec by lia. rewrite Z.sub_diag. simpl (2 ^ 0).
  change (2 ^ (24 - 1)) with 8388608 in P2. change (2 ^ 24) with 16777216 in H.
  split; nia.
Qed.

Lemma aligned_same m e :
  Zpos (fst (shl_align m e (Z.min e e))) = Zpos m.
Proof. rewrite Z.min_id, shl_align_spec by lia. rewrite Z.sub_diag. simpl. lia. Qed.

Lemma compare_cont_lt m1 m2 :
  Pos.compare_cont Eq m1 m2 = Lt -> Zpos m1 < Zpos m2.
Proof. intros H. change (Pos.compare m1 m2 = Lt) in H. rewrite Pos.compare_lt_iff in H. lia. Qed.

Lemma compare_cont_gt m1 m2 :
  Pos.compare_cont Eq m1 m2 = Gt -> Zpos m2 < Zpos m1.
Proof. intros H. change (Pos.compare m1 m2 = Gt) in H. rewrite Pos.compare_gt_iff in H. lia. Qed.

Lemma binary_normalize_pos z e :
  0 < z -> -149 <= e -> pos_result (binary_normalize 24 128 z e false).
Proof.
  intros Hz He. destruct z as [|p|p]; try lia. simpl. by apply binary_round_pos.
Qed.

(** The difference of two finite floats [m < M] is a positive float or
    overflows to plus infinity. *)
Lemma sub_pos m M :
  fin_valid m -> fin_valid M -> SFltb m M = true ->
  pos_result (SFsub 24 128 M m).
Proof.
  unfold SFltb. intros Vm VM Hlt.
  destruct m as [sm|sm| |sm mm em], M as [sM|sM| |sM mM eM];
    simpl in Vm, VM; try contradiction; simpl in Hlt; try discriminate.
  - (* zero < finite *)
    destruct sM; [discriminate|]. simpl. right. exists mM, eM.
    split; [reflexivity|]. by apply bounded_canonical in VM as [? _].
  - (* finite < zero *)
    destruct sm; [|discriminate]. simpl. right. exists mm, em.
    split; [reflexivity|]. by apply bounded_canonical in Vm as [? _].
  - (* finite < finite *)
    pose proof (bounded_canonical _ _ Vm) as (Em & _).
    pose proof (bounded_canonical _ _ VM) as (EM & _).
    unfold SFsub. apply binary_normalize_pos; [|lia].
    destruct sm, sM; simpl in Hlt; try discriminate; cbn [cond_Zopp].
    + (* both negative *)
      destruct (em ?= eM) eqn:C; try discriminate.
      * apply Z.compare_eq_iff in C. subst eM. rewrite !aligned_same.
        destruct (Pos.compare_cont Eq mm mM) eqn:C2; try discriminate.
        apply compare_cont_gt in C2. lia.
      * rewrite Z.compare_gt_iff in C.
        pose proof (aligned_lt _ _ _ _ VM Vm C) as [_ H]. lia.
    + (* negative < positive *) lia.
    + (* both positive *)
      destruct (em ?= eM) eqn:C; try discriminate.
      * apply Z.compare_eq_iff in C. subst eM. rewrite !aligned_same.
        destruct (Pos.compare_cont Eq mm mM) eqn:C2; try discriminate.
        apply compare_cont_lt in C2. lia.
      * rewrite Z.compare_lt_iff in C.
        pose proof (aligned_lt _ _ _ _ Vm VM C) as [H _]. lia.
Qed.

End Rounding.

(* ===================================================================== *)
(** * The normalisation stage                                            *)
(* ===================================================================== *)

Section Normalization.
Import OpNormalize255.

(** [execute] in one equation: the three in-place passes amount to
    [rescale] on every element, with the extrema of the region read. *)
Lemma execute_eq self roi result :
  execute self roi result =
  (region ← get (Input self) roi;
   volume_max ← np_max region;
   volume_min ← np_min region;
   Ok (mk_ndarray (shape region)
         (map (rescale volume_min volume_max) (data region)))).
Proof.
  unfold execute. munfold.
  destruct (get (Input self) roi) as [region|]; [|reflexivity].
  destruct (np_max region) as [M|]; [|reflexivity].
  destruct (np_min region) as [m|]; [|reflexivity].
  unfold inplace, rescale. cbn [shape data]. by rewrite !map_map.
Qed.

Lemma maximum_diag v : F32.maximum v v = v.
Proof. unfold F32.maximum. by destruct (_ || _). Qed.

Lemma minimum_diag v : F32.minimum v v = v.
Proof. unfold F32.minimum. by destruct (_ || _). Qed.

Lemma fold_maximum_const v l :
  Forall (eq v) l -> fold_left F32.maximum l v = v.
Proof. induction 1 as [|x l <- _ IH]; simpl; [reflexivity|]. by rewrite maximum_diag. Qed.

Lemma fold_minimum_const v l :
  Forall (eq v) l -> fold_left F32.minimum l v = v.
Proof. induction 1 as [|x l <- _ IH]; simpl; [reflexivity|]. by rewrite minimum_diag. Qed.

Lemma sub_diag_finite s m e :
  F32.sub (S754_finite s m e) (S754_finite s m e) = S754_zero false.
Proof. unfold F32.sub, SFsub. by rewrite Z.sub_diag. Qed.

(** [(v - v) * 255 / (v - v)] is NaN whatever [v] is. *)
Lemma rescale_diag v : rescale v v v = F32.nan.
Proof.
  unfold rescale. destruct v as [s|s| |s m e].
  - by destruct s.
  - by destruct s.
  - reflexivity.
  - by rewrite sub_diag_finite.
Qed.

(** C1 (as amended).  For a constant region -- at least one element, all
    elements the same float32 value, of whatever kind -- [execute] raises
    nothing: it returns an array of the region's shape whose elements are
    all NaN. *)
Theorem constant_volume_yields_nan self roi result region v :
  get (Input self) roi = Ok region ->
  data region <> [] ->
  Forall (eq v) (data region) ->
  np_max region = Ok v /\ np_min region = Ok v /\
  execute self roi result
  = Ok (mk_ndarray (shape region) (replicate (length (data region)) F32.nan)).
Proof.
  intros Hin Hne Hc.
  assert (Hmax : np_max region = Ok v).
  { unfold np_max. destruct (data region) as [|x l]; [done|].
    apply Forall_cons in Hc as [<- Hc]. by rewrite fold_maximum_const. }
  assert (Hmin : np_min region = Ok v).
  { unfold np_min. destruct (data region) as [|x l]; [done|].
    apply Forall_cons in Hc as [<- Hc]. by rewrite fold_minimum_const. }
  split; [exact Hmax|]. split; [exact Hmin|].
  rewrite execute_eq. munfold. rewrite Hin, Hmax, Hmin. do 2 f_equal.
  clear -Hc. induction Hc as [|x l <- _ IH]; simpl; [reflexivity|].
  by rewrite rescale_diag, IH.
Qed.

Lemma constant_volume_yields_nan_witness :
  let region := mk_ndarray [1; 2; 2; 1; 1] (Demo.f32s [7; 7; 7; 7]) in
  let self := OpNormalize255.mk (Demo.slot_of region) in
  execute self (roiFromShape [1; 2; 2; 1; 1]) (Demo.zeros_f32 [1; 2; 2; 1; 1])
  = Ok (mk_ndarray [1; 2; 2; 1; 1] [F32.nan; F32.nan; F32.nan; F32.nan]).
Proof.
  cbv zeta.
  refine (proj2 (proj2 (constant_volume_yields_nan _ _ _
            (mk_ndarray [1; 2; 2; 1; 1] (Demo.f32s [7; 7; 7; 7])) (F32.of_Z 7) _ _ _))).
  - vm_compute. reflexivity.
  - discriminate.
  - vm_compute. repeat constructor.
Defined.

(** C1 as stated fails: on the constant volume of sevens the stage does not
    raise; it returns the all-NaN volume. *)
Lemma constant_volume_is_not_rejected :
  let region := mk_ndarray [1; 2; 2; 1; 1] (Demo.f32s [7; 7; 7; 7]) in
  let self := OpNormalize255.mk (Demo.slot_of region) in
  let r := execute self (roiFromShape [1; 2; 2; 1; 1])
             (Demo.zeros_f32 [1; 2; 2; 1; 1]) in
  np_max region = np_min region /\
  ~ (exists e, r = Raise e) /\
  r = Ok (mk_ndarray [1; 2; 2; 1; 1] [F32.nan; F32.nan; F32.nan; F32.nan]).
Proof.
  cbv zeta. split; [vm_compute; reflexivity|].
  assert (H : execute (OpNormalize255.mk (Demo.slot_of
                (mk_ndarray [1; 2; 2; 1; 1] (Demo.f32s [7; 7; 7; 7]))))
                (roiFromShape [1; 2; 2; 1; 1]) (Demo.zeros_f32 [1; 2; 2; 1; 1])
              = Ok (mk_ndarray [1; 2; 2; 1; 1] [F32.nan; F32.nan; F32.nan; F32.nan]))
    by (vm_compute; reflexivity).
  split; [|exact H]. intros [e He]. rewrite H in He. discriminate.
Qed.

Lemma fold_maximum_in l x : In (fold_left F32.maximum l x) (x :: l).
Proof.
  revert x. induction l as [|y l IH]; intros x; simpl; [auto|].
  destruct (IH (F32.maximum x y)) as [H|H]; [|auto].
  unfold F32.maximum in H at 1. destruct (_ || _); auto.
Qed.

Lemma fold_minimum_in l x : In (fold_left F32.minimum l x) (x :: l).
Proof.
  revert x. induction l as [|y l IH]; intros x; simpl; [auto|].
  destruct (IH (F32.minimum x y)) as [H|H]; [|auto].
  unfold F32.minimum in H at 1. destruct (_ || _); auto.
Qed.

Lemma np_max_in a M : np_max a = Ok M -> In M (data a).
Proof.
  unfold np_max. destruct (data a) as [|x l]; [discriminate|].
  intros [= <-]. apply fold_maximum_in.
Qed.

Lemma np_min_in a m : np_min a = Ok m -> In m (data a).
Proof.
  unfold np_min. destruct (data a) as [|x l]; [discriminate|].
  intros [= <-]. apply fold_minimum_in.
Qed.

Lemma fin_valid_of_bools x :
  F32.is_finite x = true -> F32.valid x = true -> fin_valid x.
Proof. destruct x; simpl; try discriminate; auto. Qed.

(** The minimum goes to plus zero. *)
Lemma rescale_min m M :
  fin_valid m -> fin_valid M -> F32.ltb m M = true ->
  rescale m M m = F32.pzero.
Proof.
  intros Vm VM Hlt. unfold rescale.
  assert (Hz : F32.sub m m = S754_zero false).
  { destruct m as [[]| | |]; simpl in Vm; try contradiction; try reflexivity.
    apply sub_diag_finite. }
  rewrite Hz.
  destruct (sub_pos m M Vm VM Hlt) as [H|(mD & eD & H & _)];
    unfold F32.sub, F32.prec, F32.emax; rewrite H; reflexivity.
Qed.

(** The maximum goes to 255 up to one rounding step, unless the product
    with 255 overflows. *)
Lemma rescale_max m M :
  fin_valid m -> fin_valid M -> F32.ltb m M = true ->
  F32.is_finite (F32.mul (F32.sub M m) F32.c255) = true ->
  near_255 (rescale m M M).
Proof.
  intros Vm VM Hlt. unfold rescale.
  destruct (sub_pos m M Vm VM Hlt) as [H|(mD & eD & H & HeD)];
    unfold F32.sub, F32.mul, F32.div, F32.prec, F32.emax; rewrite H.
  - discriminate.
  - destruct (mul_c255_spec mD eD HeD) as [HP|(mP & eP & HP & Ht & Hb)];
      cbv zeta in HP; rewrite HP; [discriminate|].
    intros _. by apply div_near_255.
Qed.

Lemma chunks_length {A} k sz (l : list A) : length (chunks k sz l) = k.
Proof. revert l. induction k as [|k IH]; intros l; simpl; [reflexivity|]. by rewrite IH. Qed.

Lemma chunks_exact {A} k sz (l : list A) :
  length l = (k * sz)%nat ->
  concat (chunks k sz l) = l /\ Forall (fun r => length r = sz) (chunks k sz l).
Proof.
  revert l. induction k as [|k IH]; intros l Hl; simpl.
  - destruct l; [auto|discriminate].
  - destruct (IH (skipn sz l)) as [Hc Hf].
    { rewrite length_skipn. lia. }
    rewrite Hc. split; [apply firstn_skipn|].
    constructor; [|exact Hf]. rewrite length_firstn. lia.
Qed.

Lemma size_of_nonneg sh : Forall (fun d => 0 <= d) sh -> 0 <= size_of sh.
Proof. induction 1; simpl; lia. Qed.

Lemma slice_nd_whole {A} sh (l : list A) :
  Forall (fun d => 0 <= d) sh ->
  length l = Z.to_nat (size_of sh) ->
  slice_nd sh (map (fun _ => 0) sh) sh l = l.
Proof.
  intros Hsh. revert l. induction Hsh as [|d sh Hd Hsh IH]; intros l Hl; [reflexivity|].
  cbn [slice_nd map]. cbn [size_of fold_right] in Hl. fold (size_of sh) in Hl.
  pose proof (size_of_nonneg sh Hsh) as Hs.
  rewrite Z2Nat.inj_mul in Hl by lia.
  destruct (chunks_exact (Z.to_nat d) (Z.to_nat (size_of sh)) l Hl) as [Hc Hf].
  rewrite Z.sub_0_r. change (Z.to_nat 0) with 0%nat. rewrite skipn_O.
  rewrite firstn_all2 by (rewrite chunks_length; lia).
  rewrite <- Hc at 2. f_equal. clear Hc.
  induction Hf as [|r rows Hr Hf IHf]; [reflexivity|].
  simpl. rewrite IH by exact Hr. f_equal. exact IHf.
Qed.

Lemma roi_extent_whole sh : roi_extent (roiFromShape sh) = sh.
Proof.
  unfold roi_extent, roiFromShape. simpl.
  induction sh as [|d sh IH]; simpl; [reflexivity|]. rewrite IH. f_equal. lia.
Qed.

(** A request for the whole of a volume held in memory returns the volume. *)
Lemma whole_request_reads_volume {A} (v : ndarray A) :
  wf_ndarray v -> slot_of_volume v (roiFromShape (shape v)) = Ok v.
Proof.
  intros [Hsh Hl]. unfold slot_of_volume. rewrite roi_extent_whole.
  unfold roiFromShape. cbn [start stop].
  rewrite slice_nd_whole by assumption. by destruct v.
Qed.

(** C5 (as amended).  For a request whose region holds finite float32
    values with minimum [m] below maximum [M], [execute] returns an array
    of the region's shape in which each element [x] has become
    [((x - m) * 255) / (M - m)], computed in float32; [m] and [M] are the
    extrema of the requested region -- of the whole volume when the whole
    volume is requested.  The minimum goes to 0 exactly; the maximum goes
    to 255 or to one of its two float32 neighbours, provided
    [(M - m) * 255] does not overflow. *)
Theorem normalize_rescales_requested_region self roi result region m M :
  get (Input self) roi = Ok region ->
  Forall (fun x => F32.is_finite x = true /\ F32.valid x = true) (data region) ->
  np_min region = Ok m ->
  np_max region = Ok M ->
  F32.ltb m M = true ->
  execute self roi result
  = Ok (mk_ndarray (shape region) (map (rescale m M) (data region)))
  /\ In m (data region) /\ In M (data region)
  /\ rescale m M m = F32.pzero
  /\ (F32.is_finite (F32.mul (F32.sub M m) F32.c255) = true ->
      near_255 (rescale m M M))
  /\ (forall v : ndarray F32.t,
         wf_ndarray v -> slot_of_volume v (roiFromShape (shape v)) = Ok v).
Proof.
  intros Hin Hfin Hmin Hmax Hlt.
  pose proof (np_min_in _ _ Hmin) as Im. pose proof (np_max_in _ _ Hmax) as IM.
  rewrite Forall_forall in Hfin.
  assert (Vm : fin_valid m).
  { destruct (Hfin m) as [? ?]; [by apply list_elem_of_In|]. by apply fin_valid_of_bools. }
  assert (VM : fin_valid M).
  { destruct (Hfin M) as [? ?]; [by apply list_elem_of_In|]. by apply fin_valid_of_bools. }
  split.
  { rewrite execute_eq. munfold. by rewrite Hin, Hmax, Hmin. }
  split; [exact Im|]. split; [exact IM|].
  split; [by apply rescale_min|].
  split; [by apply rescale_max|].
  intros v. apply whole_request_reads_volume.
Qed.

Lemma normalize_rescales_requested_region_witness :
  let volume := mk_ndarray [1; 4; 1; 1; 1] (Demo.f32s [0; 10; 20; 30]) in
  let self := OpNormalize255.mk (Demo.slot_of volume) in
  let roi := mk_roi [0; 0; 0; 0; 0] [1; 3; 1; 1; 1] in
  let region := mk_ndarray [1; 3; 1; 1; 1] (Demo.f32s [0; 10; 20]) in
  get (Input self) roi = Ok region /\
  np_min region = Ok (F32.of_Z 0) /\ np_max region = Ok (F32.of_Z 20) /\
  execute self roi (Demo.zeros_f32 [1; 3; 1; 1; 1])
  = Ok (mk_ndarray [1; 3; 1; 1; 1]
          [F32.pzero; S754_finite false 16711680 (-17); F32.c255]).
Proof.
  cbv zeta.
  set (region := mk_ndarray [1; 3; 1; 1; 1] (Demo.f32s [0; 10; 20])).
  assert (Hin : get (Input (OpNormalize255.mk (Demo.slot_of
                  (mk_ndarray [1; 4; 1; 1; 1] (Demo.f32s [0; 10; 20; 30])))))
                  (mk_roi [0; 0; 0; 0; 0] [1; 3; 1; 1; 1]) = Ok region)
    by (vm_compute; reflexivity).
  assert (Hfin : Forall (fun x => F32.is_finite x = true /\ F32.valid x = true)
                   (data region))
    by (vm_compute; repeat constructor).
  assert (Hmin : np_min region = Ok (F32.of_Z 0)) by (vm_compute; reflexivity).
  assert (Hmax : np_max region = Ok (F32.of_Z 20)) by (vm_compute; reflexivity).
  assert (Hlt : F32.ltb (F32.of_Z 0) (F32.of_Z 20) = true) by (vm_compute; reflexivity).
  destruct (normalize_rescales_requested_region _ _ (Demo.zeros_f32 [1; 3; 1; 1; 1])
              _ _ _ Hin Hfin Hmin Hmax Hlt) as (He & _).
  split; [exact Hin|]. split; [exact Hmin|]. split; [exact Hmax|].
  rewrite He. vm_compute. reflexivity.
Defined.

(** C5 as stated fails in three ways.  A request for a part of the volume
    is rescaled by the extrema of that part: of the volume 0, 10, 20, 30 the
    first two elements come back as 0 and 255, although 10 is not the
    maximum of the volume.  A finite volume can overflow: 0 and 2^127 come
    back as 0 and plus infinity.  And rounding can miss 255 by one step:
    0 and 12000092 * 2^-23 come back as 0 and 255 + 2^-16. *)
Lemma normalize_is_request_local_and_inexact :
  let volume := mk_ndarray [1; 4; 1; 1; 1] (Demo.f32s [0; 10; 20; 30]) in
  let part := mk_roi [0; 0; 0; 0; 0] [1; 2; 1; 1; 1] in
  let big := mk_ndarray [1; 2; 1; 1; 1] [F32.pzero; S754_finite false 8388608 104] in
  let odd := mk_ndarray [1; 2; 1; 1; 1] [F32.pzero; S754_finite false 12000092 (-23)] in
  let whole := roiFromShape [1; 2; 1; 1; 1] in
  let buffer := Demo.zeros_f32 [1; 2; 1; 1; 1] in
  np_max volume = Ok (F32.of_Z 30) /\
  execute (OpNormalize255.mk (Demo.slot_of volume)) part buffer
  = Ok (mk_ndarray [1; 2; 1; 1; 1] [F32.pzero; F32.c255]) /\
  F32.valid (S754_finite false 8388608 104) = true /\
  execute (OpNormalize255.mk (Demo.slot_of big)) whole buffer
  = Ok (mk_ndarray [1; 2; 1; 1; 1] [F32.pzero; F32.pinf]) /\
  F32.valid (S754_finite false 12000092 (-23)) = true /\
  execute (OpNormalize255.mk (Demo.slot_of odd)) whole buffer
  = Ok (mk_ndarray [1; 2; 1; 1; 1] [F32.pzero; S754_finite false 16711681 (-16)]).
Proof. cbv zeta. repeat split; vm_compute; reflexivity. Qed.

End Normalization.

(* ===================================================================== *)
(** * Blocks of arrays: reading back what was written                    *)
(* ===================================================================== *)

Section Blocks.
Context {A : Type}.

Lemma chunks_concat (rows : list (list A)) sz :
  Forall (fun r => length r = sz) rows ->
  chunks (length rows) sz (concat rows) = rows.
Proof.
  induction 1 as [|r rows Hr _ IH]; [reflexivity|].
  simpl. rewrite firstn_app, Hr, Nat.sub_diag, firstn_all2, firstn_O, app_nil_r by lia.
  rewrite skipn_app, Hr, Nat.sub_diag, skipn_all2 by lia.
  rewrite app_nil_l, skipn_O. by rewrite IH.
Qed.

Lemma chunks_rows k sz (l : list A) :
  length l = (k * sz)%nat ->
  Forall (fun r => length r = sz) (chunks k sz l).
Proof. intros H. by destruct (chunks_exact k sz l H). Qed.

Lemma block_extent_nonneg sh st sp :
  block_within sh st sp -> Forall (fun d => 0 <= d) (block_extent st sp).
Proof.
  induction 1; [constructor|]. unfold block_extent. simpl. constructor; [lia|assumption].
Qed.

Lemma block_shape_nonneg sh st sp :
  block_within sh st sp -> Forall (fun d => 0 <= d) sh.
Proof. induction 1; constructor; [lia|assumption]. Qed.

Lemma Forall_zip_with_rows (f : list A -> list A -> list A) n rows srcs :
  Forall (fun r => length r = n) rows ->
  (forall r s, length r = n -> In s srcs -> length (f r s) = n) ->
  Forall (fun r => length r = n) (zip_with f rows srcs).
Proof.
  intros Hr. revert srcs. induction Hr as [|r rows H _ IH]; intros srcs Hf; [constructor|].
  destruct srcs as [|s srcs]; [constructor|]. simpl. constructor.
  - apply Hf; [exact H | by left].
  - apply IH. intros r' s' Hr' Hin. apply Hf; [exact Hr' | by right].
Qed.

Lemma length_concat_rows (rows : list (list A)) sz :
  Forall (fun r => length r = sz) rows ->
  length (concat rows) = (length rows * sz)%nat.
Proof.
  induction 1 as [|r rows Hr _ IH]; [reflexivity|].
  simpl. rewrite length_app, IH, Hr. reflexivity.
Qed.

(** Assignment to a block keeps the number of elements. *)
Lemma assign_nd_length sh st sp (l src : list A) :
  block_within sh st sp ->
  length l = Z.to_nat (size_of sh) ->
  length src = Z.to_nat (size_of (block_extent st sp)) ->
  length (assign_nd sh st sp l src) = length l.
Proof.
  intros Hb. revert l src.
  induction Hb as [|d a b sh st sp Ha Hab Hbd Hb IH]; intros l src Hl Hs.
  - simpl in *. congruence.
  - cbn [assign_nd]. fold (block_extent st sp).
    pose proof (size_of_nonneg _ (block_shape_nonneg _ _ _ Hb)) as Hsz.
    pose proof (size_of_nonneg _ (block_extent_nonneg _ _ _ Hb)) as Hbz.
    cbn [size_of fold_right] in Hl. fold (size_of sh) in Hl.
    rewrite Z2Nat.inj_mul in Hl by lia.
    unfold block_extent in Hs. cbn [combine map fst snd size_of fold_right] in Hs.
    fold (block_extent st sp) in Hs. fold (size_of (block_extent st sp)) in Hs.
    rewrite Z2Nat.inj_mul in Hs by lia.
    set (sz := Z.to_nat (size_of sh)) in *.
    set (bsz := Z.to_nat (size_of (block_extent st sp))) in *.
    set (rows := chunks (Z.to_nat d) sz l).
    set (srcs := chunks (Z.to_nat (b - a)) bsz src).
    assert (Hrows : Forall (fun r => length r = sz) rows) by (by apply chunks_rows).
    assert (Hsrcs : Forall (fun r => length r = bsz) srcs) by (by apply chunks_rows).
    assert (Hlr : length rows = Z.to_nat d) by apply chunks_length.
    assert (Hls : length srcs = Z.to_nat (b - a)) by apply chunks_length.
    set (mid := zip_with (assign_nd sh st sp)
                  (firstn (Z.to_nat (b - a)) (skipn (Z.to_nat a) rows)) srcs).
    assert (Hmid : Forall (fun r => length r = sz) mid).
    { apply Forall_zip_with_rows.
      - apply Forall_take, Forall_drop, Hrows.
      - intros r s Hr Hin. rewrite IH; [exact Hr | exact Hr |].
        rewrite Forall_forall in Hsrcs. apply Hsrcs. by apply list_elem_of_In. }
    assert (Hlm : length mid = Z.to_nat (b - a)).
    { unfold mid. rewrite length_zip_with, length_firstn, length_skipn. lia. }
    assert (Hall : Forall (fun r => length r = sz)
                     (firstn (Z.to_nat a) rows ++ mid
                        ++ skipn (Z.to_nat a + Z.to_nat (b - a)) rows)).
    { repeat (apply Forall_app; split);
        [by apply Forall_take | exact Hmid | by apply Forall_drop]. }
    rewrite (length_concat_rows _ sz Hall).
    rewrite !length_app, length_firstn, length_skipn, Hlm, Hlr, Hl. nia.
Qed.

(** Reading back the block that was assigned gives what was written. *)
Lemma slice_assign_nd sh st sp (l src : list A) :
  block_within sh st sp ->
  length l = Z.to_nat (size_of sh) ->
  length src = Z.to_nat (size_of (block_extent st sp)) ->
  slice_nd sh st sp (assign_nd sh st sp l src) = src.
Proof.
  intros Hb. revert l src.
  induction Hb as [|d a b sh st sp Ha Hab Hbd Hb IH]; intros l src Hl Hs.
  - reflexivity.
  - cbn [assign_nd slice_nd]. fold (block_extent st sp).
    pose proof (size_of_nonneg _ (block_shape_nonneg _ _ _ Hb)) as Hsz.
    pose proof (size_of_nonneg _ (block_extent_nonneg _ _ _ Hb)) as Hbz.
    cbn [size_of fold_right] in Hl. fold (size_of sh) in Hl.
    rewrite Z2Nat.inj_mul in Hl by lia.
    unfold block_extent in Hs. cbn [combine map fst snd size_of fold_right] in Hs.
    fold (block_extent st sp) in Hs. fold (size_of (block_extent st sp)) in Hs.
    rewrite Z2Nat.inj_mul in Hs by lia.
    set (sz := Z.to_nat (size_of sh)) in *.
    set (bsz := Z.to_nat (size_of (block_extent st sp))) in *.
    set (rows := chunks (Z.to_nat d) sz l).
    set (srcs := chunks (Z.to_nat (b - a)) bsz src).
    assert (Hrows : Forall (fun r => length r = sz) rows) by (by apply chunks_rows).
    destruct (chunks_exact (Z.to_nat (b - a)) bsz src Hs) as [Hcs Hsrcs].
    fold srcs in Hcs, Hsrcs.
    assert (Hlr : length rows = Z.to_nat d) by apply chunks_length.
    assert (Hls : length srcs = Z.to_nat (b - a)) by apply chunks_length.
    set (picked := firstn (Z.to_nat (b - a)) (skipn (Z.to_nat a) rows)).
    assert (Hpk : Forall (fun r => length r = sz) picked)
      by (apply Forall_take, Forall_drop, Hrows).
    assert (Hlp : length picked = Z.to_nat (b - a)).
    { unfold picked. rewrite length_firstn, length_skipn. lia. }
    set (mid := zip_with (assign_nd sh st sp) picked srcs).
    assert (Hmid : Forall (fun r => length r = sz) mid).
    { apply Forall_zip_with_rows; [exact Hpk|].
      intros r s Hr Hin. rewrite assign_nd_length; [exact Hr | exact Hb | exact Hr |].
      rewrite Forall_forall in Hsrcs. apply Hsrcs. by apply list_elem_of_In. }
    assert (Hlm : length mid = Z.to_nat (b - a)).
    { unfold mid. rewrite length_zip_with. lia. }
    set (rows' := firstn (Z.to_nat a) rows ++ mid
                    ++ skipn (Z.to_nat a + Z.to_nat (b - a)) rows).
    assert (Hall : Forall (fun r => length r = sz) rows').
    { repeat (apply Forall_app; split);
        [by apply Forall_take | exact Hmid | by apply Forall_drop]. }
    assert (Hlr' : length rows' = Z.to_nat d).
    { unfold rows'. rewrite !length_app, length_firstn, length_skipn, Hlm, Hlr. lia. }
    rewrite <- Hlr', (chunks_concat rows' sz Hall).
    assert (Hsel : firstn (Z.to_nat (b - a)) (skipn (Z.to_nat a) rows') = mid).
    { unfold rows'.
      rewrite drop_app_length' by (rewrite length_take; lia).
      by rewrite take_app_length'. }
    rewrite Hsel. transitivity (concat srcs); [|exact Hcs]. f_equal.
    unfold mid. clearbody picked srcs. clear -IH Hpk Hsrcs Hlp Hls.
    assert (Hlen : length picked = length srcs) by lia. clear Hlp Hls.
    revert srcs Hsrcs Hlen.
    induction Hpk as [|r picked Hr _ IHp]; intros [|s srcs] Hsrcs Hlen;
      try discriminate; [reflexivity|].
    apply Forall_cons in Hsrcs as [Hs Hsrcs]. simpl.
    rewrite IH by assumption. f_equal. apply IHp; [exact Hsrcs | simpl in Hlen; lia].
Qed.

(** A source of the destination's shape is taken as it is. *)
Lemma broadcast_eq_id sh (l : list A) :
  Forall (fun d => 0 <= d) sh ->
  length l = Z.to_nat (size_of sh) ->
  broadcast_eq sh sh l = Some l.
Proof.
  intros Hsh. revert l. induction Hsh as [|d sh Hd Hsh IH]; intros l Hl; [reflexivity|].
  cbn [broadcast_eq]. cbn [size_of fold_right] in Hl. fold (size_of sh) in Hl.
  pose proof (size_of_nonneg sh Hsh) as Hs.
  rewrite Z2Nat.inj_mul in Hl by lia.
  destruct (chunks_exact _ _ l Hl) as [Hc Hf].
  assert (Hm : mapM (broadcast_eq sh sh) (chunks (Z.to_nat d) (Z.to_nat (size_of sh)) l)
               = Some (chunks (Z.to_nat d) (Z.to_nat (size_of sh)) l)).
  { apply mapM_Some. clear Hc. induction Hf as [|r rows Hr _ IHf]; constructor; [by apply IH | exact IHf]. }
  rewrite Hm. simpl. by rewrite Z.eqb_refl, Hc.
Qed.

Lemma block_within_whole sh :
  Forall (fun d => 0 <= d) sh -> block_within sh (zeros_like sh) sh.
Proof. induction 1; simpl; constructor; try lia; assumption. Qed.

Lemma block_extent_whole sh : block_extent (zeros_like sh) sh = sh.
Proof.
  unfold block_extent, zeros_like.
  induction sh as [|d sh IH]; simpl; [reflexivity|]. rewrite IH. f_equal. lia.
Qed.

(** Assigning to the whole of an array replaces its elements. *)
Lemma assign_nd_whole sh (l d : list A) :
  Forall (fun d => 0 <= d) sh ->
  length l = Z.to_nat (size_of sh) ->
  length d = Z.to_nat (size_of sh) ->
  assign_nd sh (zeros_like sh) sh l d = d.
Proof.
  intros Hsh Hl Hd.
  pose proof (block_within_whole sh Hsh) as Hb.
  rewrite <- (slice_nd_whole sh (assign_nd sh (zeros_like sh) sh l d) Hsh).
  - apply slice_assign_nd; [exact Hb | exact Hl |]. by rewrite block_extent_whole.
  - rewrite assign_nd_length; [exact Hl | exact Hb | exact Hl |].
    by rewrite block_extent_whole.
Qed.

Lemma write_view_whole (result src : ndarray A) v d :
  wf_ndarray result ->
  v_start v = zeros_like (shape result) ->
  v_stop v = shape result ->
  broadcast_to (shape src) (v_shape v) (data src) = Some d ->
  length d = Z.to_nat (size_of (shape result)) ->
  write_view result v src = Ok (mk_ndarray (shape result) d).
Proof.
  intros [Hsh Hl] Hst Hsp Hbc Hd. unfold write_view. rewrite Hbc, Hst, Hsp.
  by rewrite assign_nd_whole.
Qed.

End Blocks.

(* ===================================================================== *)
(** * The order of float32 values; signs of results                      *)
(* ===================================================================== *)

Section Float32Order.
Lemma f32_le_leb a b : f32_le a b <-> F32.leb a b = true.
Proof.
  unfold f32_le, F32.leb, SFleb. destruct (SFcompare a b) as [[]|]; split; intros H;
    try discriminate; try tauto; destruct H; discriminate.
Qed.

Ltac cmp :=
  repeat match goal with
  | |- context [(?a ?= ?b)%Z] => destruct (Z.compare_spec a b)
  | |- context [Pos.compare_cont Eq ?a ?b] =>
      change (Pos.compare_cont Eq a b) with (Pos.compare a b);
      destruct (Pos.compare_spec a b)
  | H : context [(?a ?= ?b)%Z] |- _ => destruct (Z.compare_spec a b)
  | H : context [Pos.compare_cont Eq ?a ?b] |- _ =>
      change (Pos.compare_cont Eq a b) with (Pos.compare a b) in H;
      destruct (Pos.compare_spec a b)
  end.

Lemma f32_le_refl a : F32.is_nan a = false -> f32_le a a.
Proof.
  unfold f32_le. destruct a as [[]|[]| |[] m e]; simpl; try discriminate; auto;
    intros _; rewrite Z.compare_refl, Pos.compare_cont_refl; auto.
Qed.

Lemma f32_le_total a b :
  F32.is_nan a = false -> F32.is_nan b = false -> f32_le a b \/ f32_le b a.
Proof.
  unfold f32_le.
  destruct a as [[]|[]| |[] m1 e1], b as [[]|[]| |[] m2 e2]; simpl;
    try discriminate; auto; intros _ _; cmp; subst; simpl; auto; try lia.
Qed.

Lemma f32_le_trans a b c :
  f32_le a b -> f32_le b c -> f32_le a c.
Proof.
  unfold f32_le.
  destruct a as [[]|[]| |[] m1 e1], b as [[]|[]| |[] m2 e2], c as [[]|[]| |[] m3 e3];
    simpl; intros [H1|H1] [H2|H2]; try discriminate; auto;
    cmp; subst; simpl in *; try discriminate; auto; try lia.
Qed.

Lemma minimum_lower a b :
  F32.is_nan a = false -> F32.is_nan b = false ->
  F32.is_nan (F32.minimum a b) = false /\
  f32_le (F32.minimum a b) a /\ f32_le (F32.minimum a b) b.
Proof.
  intros Ha Hb. unfold F32.minimum. rewrite Ha, orb_false_r.
  destruct (F32.leb a b) eqn:E.
  - split; [exact Ha|]. split; [by apply f32_le_refl | by apply f32_le_leb].
  - split; [exact Hb|]. split; [|by apply f32_le_refl].
    destruct (f32_le_total a b Ha Hb) as [H|H]; [|exact H].
    apply f32_le_leb in H. congruence.
Qed.

(** [numpy.min] of values without NaN is below every one of them. *)
Lemma fold_minimum_lower l x :
  Forall (fun v => F32.is_nan v = false) (x :: l) ->
  F32.is_nan (fold_left F32.minimum l x) = false /\
  Forall (f32_le (fold_left F32.minimum l x)) (x :: l).
Proof.
  revert x. induction l as [|y l IH]; intros x Hn.
  - apply Forall_cons in Hn as [Hx _]. simpl. split; [exact Hx|].
    constructor; [by apply f32_le_refl | constructor].
  - apply Forall_cons in Hn as [Hx Hn]. apply Forall_cons in Hn as [Hy Hl].
    destruct (minimum_lower x y Hx Hy) as (Hm & Hmx & Hmy).
    destruct (IH (F32.minimum x y)) as [Hr Hall]; [by constructor|].
    simpl. split; [exact Hr|].
    apply Forall_cons in Hall as [H0 Hall].
    constructor; [by eapply f32_le_trans|].
    constructor; [by eapply f32_le_trans | exact Hall].
Qed.

Lemma SFcompare_antisym a b :
  SFcompare b a = option_map CompOpp (SFcompare a b).
Proof.
  destruct a as [[]|[]| |[] m1 e1], b as [[]|[]| |[] m2 e2]; simpl; try reflexivity;
    rewrite (Z.compare_antisym e1 e2); destruct (e1 ?= e2); simpl; try reflexivity;
    change (Pos.compare_cont Eq m2 m1) with (Pos.compare m2 m1);
    change (Pos.compare_cont Eq m1 m2) with (Pos.compare m1 m2);
    rewrite (Pos.compare_antisym m1 m2); by destruct (Pos.compare m1 m2).
Qed.

Lemma maximum_upper a b :
  F32.is_nan a = false -> F32.is_nan b = false ->
  F32.is_nan (F32.maximum a b) = false /\
  f32_le a (F32.maximum a b) /\ f32_le b (F32.maximum a b).
Proof.
  intros Ha Hb. unfold F32.maximum. rewrite Ha, orb_false_r.
  pose proof (f32_le_total a b Ha Hb) as Ht.
  destruct (F32.geb a b) eqn:E; unfold F32.geb in E.
  - split; [exact Ha|]. split; [by apply f32_le_refl|].
    unfold f32_le. rewrite (SFcompare_antisym a b).
    destruct (SFcompare a b) as [[]|]; try discriminate; simpl; auto.
  - split; [exact Hb|]. split; [|by apply f32_le_refl].
    destruct Ht as [Ht|Ht]; [exact Ht|].
    unfold f32_le in Ht. rewrite (SFcompare_antisym a b) in Ht.
    destruct (SFcompare a b) as [[]|]; try discriminate; simpl in Ht;
      destruct Ht; discriminate.
Qed.

(** [numpy.max] of values without NaN is above every one of them. *)
Lemma fold_maximum_upper l x :
  Forall (fun v => F32.is_nan v = false) (x :: l) ->
  F32.is_nan (fold_left F32.maximum l x) = false /\
  Forall (fun v => f32_le v (fold_left F32.maximum l x)) (x :: l).
Proof.
  revert x. induction l as [|y l IH]; intros x Hn.
  - apply Forall_cons in Hn as [Hx _]. simpl. split; [exact Hx|].
    constructor; [by apply f32_le_refl | constructor].
  - apply Forall_cons in Hn as [Hx Hn]. apply Forall_cons in Hn as [Hy Hl].
    destruct (maximum_upper x y Hx Hy) as (Hm & Hmx & Hmy).
    destruct (IH (F32.maximum x y)) as [Hr Hall]; [by constructor|].
    simpl. split; [exact Hr|].
    apply Forall_cons in Hall as [H0 Hall].
    constructor; [by eapply f32_le_trans|].
    constructor; [by eapply f32_le_trans | exact Hall].
Qed.

Lemma SFcompare_refl a : fin_valid a -> SFcompare a a = Some Eq.
Proof.
  destruct a as [[]| | |[] m e]; simpl; try contradiction; try reflexivity;
    intros _; by rewrite Z.compare_refl, Pos.compare_cont_refl.
Qed.

Lemma shr_1_nonneg mrs : 0 <= shr_m mrs -> 0 <= shr_m (shr_1 mrs).
Proof.
  destruct mrs as [m r s]. cbn [shr_m]. intros Hm.
  rewrite shr_1_spec by exact Hm. cbn [shr_m]. apply Z.div_pos; lia.
Qed.

Lemma shr_nonneg mrs e n : 0 <= shr_m mrs -> 0 <= shr_m (fst (shr mrs e n)).
Proof.
  intros Hm. unfold shr. destruct n as [|p|p]; cbn [fst]; try exact Hm.
  rewrite iter_pos_nat. induction (Pos.to_nat p) as [|k IH]; [exact Hm|].
  rewrite Nat.iter_succ. by apply shr_1_nonneg.
Qed.

Lemma shr_record_of_loc_m m l : shr_m (shr_record_of_loc m l) = m.
Proof. by destruct l as [|[]]. Qed.

Lemma round_nearest_even_nonneg m l : 0 <= m -> 0 <= round_nearest_even m l.
Proof.
  intros Hm. unfold round_nearest_even. destruct l as [|[]]; try lia.
  destruct (Z.even m); lia.
Qed.

(** Rounding a non-negative significand gives a zero, a number or an
    infinity of the sign asked for, never NaN. *)
Lemma round_aux_sign sx mx ex lx :
  0 <= mx ->
  let r := binary_round_aux 24 128 sx mx ex lx in
  r = S754_zero sx \/ r = S754_infinity sx \/ exists m e, r = S754_finite sx m e.
Proof.
  intros Hm. cbv zeta. unfold binary_round_aux, shr_fexp.
  pose proof (shr_nonneg (shr_record_of_loc mx lx) ex
                (fexp 24 128 (Zdigits2 mx + ex) - ex)) as H1.
  rewrite shr_record_of_loc_m in H1. specialize (H1 Hm).
  destruct (shr (shr_record_of_loc mx lx) ex _) as [mrs' e']. cbn [fst] in H1.
  set (m2 := round_nearest_even (shr_m mrs') (loc_of_shr_record mrs')).
  assert (H2 : 0 <= m2) by (by apply round_nearest_even_nonneg).
  pose proof (shr_nonneg (shr_record_of_loc m2 loc_Exact) e'
                (fexp 24 128 (Zdigits2 m2 + e') - e')) as H3.
  rewrite shr_record_of_loc_m in H3. specialize (H3 H2).
  destruct (shr (shr_record_of_loc m2 loc_Exact) e' _) as [mrs'' e'']. cbn [fst] in H3.
  destruct (shr_m mrs'') as [|p|p]; [auto| |lia].
  destruct (e'' <=? 128 - 24); eauto.
Qed.

Lemma div_pos_sign mx ex my ey :
  let r := SFdiv 24 128 (S754_finite false mx ex) (S754_finite false my ey) in
  r = S754_zero false \/ r = S754_infinity false \/
  exists m e, r = S754_finite false m e.
Proof.
  cbv zeta. unfold SFdiv, SFdiv_core_binary. cbn [xorb].
  set (s := ex - ey - _).
  set (m' := match s with 0 => Zpos mx | Z.pos _ => _ | Z.neg _ => 0 end).
  assert (Hm' : 0 <= m').
  { unfold m'. destruct s; try lia. apply Z.shiftl_nonneg. lia. }
  assert (Hq : 0 <= fst (Z.div_eucl m' (Zpos my))).
  { change (0 <= m' / Zpos my). apply Z.div_pos; lia. }
  destruct (Z.div_eucl m' (Zpos my)) as [q r]. cbn [fst] in Hq.
  by apply round_aux_sign.
Qed.

(** An element equal to the minimum gives a zero difference. *)
Lemma sub_eq_zero x m :
  fin_valid x -> fin_valid m -> SFcompare m x = Some Eq ->
  exists s, SFsub 24 128 x m = S754_zero s.
Proof.
  destruct x as [sx| | |sx mx ex], m as [sm| | |sm mm em]; simpl;
    try contradiction; intros _ _ H.
  - destruct sx, sm; eauto.
  - destruct sm; discriminate.
  - destruct sx; discriminate.
  - assert (sx = sm /\ ex = em /\ mx = mm) as (-> & -> & ->).
    { destruct sm, sx; try discriminate;
        destruct (Z.compare_spec em ex); try discriminate;
        change (Pos.compare_cont Eq mm mx) with (Pos.compare mm mx) in H;
        destruct (Pos.compare_spec mm mx); try discriminate; auto. }
    exists false. apply sub_diag_finite.
Qed.

End Float32Order.

(* ===================================================================== *)
(** * The watershed stage: checks, write-back, singleton axes            *)
(* ===================================================================== *)

Section WatershedStorage.
Import OpSimpleBlockwiseWatershed.

Lemma tagged_z (self : t) x y z :
  getAxisKeys (meta (Input self)) = txyzc ->
  meta_shape (meta (Input self)) = [1; x; y; z; 1] ->
  getTaggedShape_at (meta (Input self)) "z" = Ok z.
Proof. intros Hk Hms. unfold getTaggedShape_at. rewrite Hk, Hms. reflexivity. Qed.

(** Labels that fit into 32 bits are stored as they are. *)
Lemma uint32_fits (ls : list Z) :
  Forall (fun l => 0 <= l < 2 ^ 32) ls -> map (fun l => l mod 2 ^ 32) ls = ls.
Proof.
  induction 1 as [|l ls Hl _ IH]; [reflexivity|].
  cbn [map]. rewrite IH. f_equal. by apply Z.mod_small.
Qed.

(** X1.  On a volume of shape [(1, x, y, z, 1)] with [y > 1] and at least
    one of [x > 1], [z > 1], a whole-volume request returns the labels the
    back end computed for the squeezed input, element for element, laid
    out in the shape [(1, x, y, z, 1)] of the result and cast to the
    result's dtype [uint32]: each label is stored modulo [2^32], so labels
    that fit into 32 bits are stored as returned.  The back end was called
    once.  A singleton x axis is broadcast, a singleton z axis is addressed
    by the index [[0, ..., 0, 0]]. *)
Theorem labels_are_stored_as_uint32 env self roi result a x y z arr labels max_id :
  getAxisKeys (meta (Input self)) = txyzc ->
  meta_shape (meta (Input self)) = [1; x; y; z; 1] ->
  1 <= x -> 1 < y -> 1 <= z -> 1 < x \/ 1 < z ->
  roi_extent roi = [1; x; y; z; 1] ->
  get (Input self) roi = Ok arr ->
  shape arr = [1; x; y; z; 1] ->
  shape result = [1; x; y; z; 1] ->
  wf_ndarray result ->
  watershed_answer env self (squeeze arr) = Ok (labels, max_id) ->
  shape labels = shape (squeeze arr) ->
  wf_ndarray labels ->
  execute env self roi result a
  = (Ok (mk_ndarray [1; x; y; z; 1] (map (fun l => l mod 2 ^ 32) (data labels))),
     mk_applet (progress a) (log a ++ [watershed_call env self (squeeze arr)]))
  /\ (Forall (fun l => 0 <= l < 2 ^ 32) (data labels) ->
      execute env self roi result a
      = (Ok (mk_ndarray [1; x; y; z; 1] (data labels)),
         mk_applet (progress a) (log a ++ [watershed_call env self (squeeze arr)]))).
Proof.
  intros Hk Hms Hx Hy Hz Hxz Hroi Ha Hsa Hsr Hwf Hans Hsl [Hlsh Hll].
  cut (execute env self roi result a
       = (Ok (mk_ndarray [1; x; y; z; 1] (map (fun l => l mod 2 ^ 32) (data labels))),
          mk_applet (progress a) (log a ++ [watershed_call env self (squeeze arr)]))).
  { intros He. split; [exact He|]. intros Hf. rewrite He. by rewrite (uint32_fits _ Hf). }
  set (lab := astype_uint32 labels).
  assert (Hlab : shape lab = shape labels) by reflexivity.
  assert (Hlabl : length (data lab) = Z.to_nat (size_of (shape lab))).
  { unfold lab, astype_uint32, inplace. cbn [data shape]. by rewrite length_map. }
  assert (H1 : roi_extent roi = Output_meta_shape self)
    by (unfold Output_meta_shape; congruence).
  rewrite (execute_checked env self roi result a z arr H1 Hk
             (tagged_z self x y z Hk Hms) Ha).
  assert (Hy1 : (y =? 1) = false) by (apply Z.eqb_neq; lia).
  assert (Hsq : shape (squeeze arr)
                = (if x =? 1 then [] else [x]) ++ [y] ++ (if z =? 1 then [] else [z])).
  { rewrite (squeeze_txyzc arr x y z Hsa), Hy1. reflexivity. }
  assert (Hx1 : x = 1 /\ 1 < z \/ 1 < x /\ z = 1 \/ 1 < x /\ 1 < z) by lia.
  assert (Hsize : size_of (shape lab) = x * y * z).
  { rewrite Hlab, Hsl, Hsq.
    destruct Hx1 as [[-> Hz1]|[[Hx1 ->]|[Hx1 Hz1]]].
    - assert ((z =? 1) = false) as -> by (apply Z.eqb_neq; lia). simpl. lia.
    - assert ((x =? 1) = false) as -> by (apply Z.eqb_neq; lia). simpl. lia.
    - assert ((x =? 1) = false) as -> by (apply Z.eqb_neq; lia).
      assert ((z =? 1) = false) as -> by (apply Z.eqb_neq; lia). simpl. lia. }
  assert (Hnd : ((ndim (squeeze arr) =? 2) || (ndim (squeeze arr) =? 3)) = true).
  { unfold ndim. rewrite Hsq.
    destruct Hx1 as [[-> Hz1]|[[Hx1 ->]|[Hx1 Hz1]]].
    - assert ((z =? 1) = false) as -> by (apply Z.eqb_neq; lia). reflexivity.
    - assert ((x =? 1) = false) as -> by (apply Z.eqb_neq; lia). reflexivity.
    - assert ((x =? 1) = false) as -> by (apply Z.eqb_neq; lia).
      assert ((z =? 1) = false) as -> by (apply Z.eqb_neq; lia). reflexivity. }
  rewrite Hnd. f_equal. munfold. rewrite Hans. fold lab.
  change (map (fun l => l mod 2 ^ 32) (data labels)) with (data lab).
  assert (Hwhole : forall v,
             v_start v = zeros_like (shape result) -> v_stop v = shape result ->
             (v_shape v = shape lab \/ v_shape v = 1%Z :: shape lab) ->
             write_view result v lab = Ok (mk_ndarray [1; x; y; z; 1] (data lab))).
  { intros v Hst Hsp Hv. rewrite <- Hsr.
    apply write_view_whole; try assumption.
    - unfold broadcast_to. destruct Hv as [-> | ->].
      + rewrite bool_decide_eq_true_2 by lia. rewrite Nat.sub_diag. cbn [replicate app].
        apply broadcast_eq_id; [by rewrite Hlab | exact Hlabl].
      + rewrite bool_decide_eq_true_2 by (simpl; lia).
        replace (length (1%Z :: shape lab) - length (shape lab))%nat with 1%nat
          by (simpl; lia).
        cbn [replicate app]. apply broadcast_eq_id; [constructor; [lia | by rewrite Hlab]|].
        cbn [size_of fold_right]. fold (size_of (shape lab)). rewrite Hlabl. f_equal. lia.
    - rewrite Hlabl, Hsr, Hsize. f_equal. simpl. lia. }
  clearbody lab.
  rewrite Hsr. destruct (1 <? z) eqn:Ez.
  - apply Z.ltb_lt in Ez.
    assert (Ez1 : (z =? 1) = false) by (apply Z.eqb_neq; lia).
    cbn [view_of view_0_ellipsis_0 rev app].
    assert (Hb : ((0 <? 1) && (0 <? 1)) = true) by reflexivity. rewrite Hb.
    apply Hwhole; cbn [v_start v_stop v_shape]; [by rewrite Hsr | by rewrite Hsr |].
    rewrite Hlab, Hsl, Hsq, Ez1. destruct (Z.eqb_spec x 1) as [->|]; [by right | by left].
  - apply Z.ltb_ge in Ez. assert (z = 1) as -> by lia.
    assert (Ex1 : (x =? 1) = false) by (apply Z.eqb_neq; lia).
    cbn [view_of view_0_ellipsis_0_0 rev app].
    assert (Hb : ((0 <? 1) && (0 <? 1) && (0 <? 1)) = true) by reflexivity. rewrite Hb.
    apply Hwhole; cbn [v_start v_stop v_shape]; [by rewrite Hsr | by rewrite Hsr |].
    rewrite Hlab, Hsl, Hsq, Ex1. by left.
Qed.

(** A back end whose labels do not fit into 32 bits. *)
Lemma labels_are_stored_as_uint32_witness :
  let wide := mk_backend 4
                (fun _ fvol _ _ _ => Ok fvol)
                (fun i _ _ _ => Ok (mk_ndarray (shape i) [1; 2 ^ 32 + 2; -1; 4], 4))
                (fun i => Ok (mk_ndarray (shape i) [1; 2 ^ 32 + 2; -1; 4], 4))
                (fun _ f => ([], Ok (mk_segmentor 7 (Some f)))) in
  OpSimpleBlockwiseWatershed.execute wide Examples.flat_x
    (roiFromShape [1; 1; 2; 2; 1]) (Demo.zeros_Z [1; 1; 2; 2; 1]) Demo.applet0
  = (Ok (mk_ndarray [1; 1; 2; 2; 1] [1; 2; 4294967295; 4]),
     mk_applet 0
       [Call_watershed_and_agglomerate (mk_ndarray [2; 2] (Demo.f32s [1; 2; 3; 4]))
          4 (F32.of_Z 1) (F32.of_Z 1)])
  /\ OpSimpleBlockwiseWatershed.execute Examples.env_numbering Examples.flat_x
       (roiFromShape [1; 1; 2; 2; 1]) (Demo.zeros_Z [1; 1; 2; 2; 1]) Demo.applet0
     = (Ok (mk_ndarray [1; 1; 2; 2; 1] [1; 2; 3; 4]),
        mk_applet 0
          [Call_watershed_and_agglomerate (mk_ndarray [2; 2] (Demo.f32s [1; 2; 3; 4]))
             4 (F32.of_Z 1) (F32.of_Z 1)]).
Proof.
  cbv zeta. split.
  - destruct (labels_are_stored_as_uint32
                (mk_backend 4
                   (fun _ fvol _ _ _ => Ok fvol)
                   (fun i _ _ _ => Ok (mk_ndarray (shape i) [1; 2 ^ 32 + 2; -1; 4], 4))
                   (fun i => Ok (mk_ndarray (shape i) [1; 2 ^ 32 + 2; -1; 4], 4))
                   (fun _ f => ([], Ok (mk_segmentor 7 (Some f)))))
                Examples.flat_x
                (roiFromShape [1; 1; 2; 2; 1]) (Demo.zeros_Z [1; 1; 2; 2; 1]) Demo.applet0
                1 2 2 (mk_ndarray [1; 1; 2; 2; 1] (Demo.f32s [1; 2; 3; 4]))
                (mk_ndarray [2; 2] [1; 2 ^ 32 + 2; -1; 4]) 4) as [H _];
      [by_computation..|].
    rewrite H. vm_compute. reflexivity.
  - destruct (labels_are_stored_as_uint32 Examples.env_numbering Examples.flat_x
                (roiFromShape [1; 1; 2; 2; 1]) (Demo.zeros_Z [1; 1; 2; 2; 1]) Demo.applet0
                1 2 2 (mk_ndarray [1; 1; 2; 2; 1] (Demo.f32s [1; 2; 3; 4]))
                (mk_ndarray [2; 2] [1; 2; 3; 4]) 4) as [_ H];
      [by_computation..|].
    rewrite H; [vm_compute; reflexivity|].
    repeat (apply Forall_cons_2; [lia|]). apply Forall_nil_2.
Defined.

(** X2.  On a volume of shape [(1, x, 1, z, 1)] with [x, z > 1] the request
    passes all three checks and the back end is called on the squeezed
    [(x, z)] input, but its labels cannot be stored: [result[0, ..., 0]]
    has shape [(x, 1, z)], the assignment does not broadcast, and the
    request ends in a [ValueError] after the watershed has run. *)
Theorem singleton_y_axis_is_not_stored env self roi result a x z arr labels max_id :
  getAxisKeys (meta (Input self)) = txyzc ->
  meta_shape (meta (Input self)) = [1; x; 1; z; 1] ->
  1 < x -> 1 < z ->
  roi_extent roi = [1; x; 1; z; 1] ->
  get (Input self) roi = Ok arr ->
  shape arr = [1; x; 1; z; 1] ->
  shape result = [1; x; 1; z; 1] ->
  watershed_answer env self (squeeze arr) = Ok (labels, max_id) ->
  shape labels = shape (squeeze arr) ->
  shape (squeeze arr) = [x; z] /\
  exists msg,
    execute env self roi result a
    = (Raise (ValueError msg),
       mk_applet (progress a) (log a ++ [watershed_call env self (squeeze arr)])).
Proof.
  intros Hk Hms Hx Hz Hroi Ha Hsa Hsr Hans Hsl.
  assert (Hsq : shape (squeeze arr) = [x; z]).
  { unfold squeeze. cbn [shape]. rewrite Hsa. cbn [List.filter Z.eqb negb].
    assert ((x =? 1) = false) as -> by (apply Z.eqb_neq; lia).
    assert ((z =? 1) = false) as -> by (apply Z.eqb_neq; lia). reflexivity. }
  split; [exact Hsq|].
  assert (H1 : roi_extent roi = Output_meta_shape self)
    by (unfold Output_meta_shape; congruence).
  rewrite (execute_checked env self roi result a z arr H1 Hk
             (tagged_z self x 1 z Hk Hms) Ha).
  unfold ndim at 1. rewrite Hsq. cbn [length Z.of_nat Z.eqb Pos.of_succ_nat Pos.succ
                                        Pos.eqb orb].
  munfold. rewrite Hans, Hsr.
  assert ((1 <? z) = true) as -> by (apply Z.ltb_lt; lia).
  cbn [view_of view_0_ellipsis_0 rev app].
  assert (Hb : ((0 <? 1) && (0 <? 1)) = true) by reflexivity. rewrite Hb.
  unfold write_view. cbn [v_shape].
  change (shape (astype_uint32 labels)) with (shape labels). rewrite Hsl, Hsq.
  rewrite broadcast_singleton_middle by lia. eauto.
Qed.

Lemma singleton_y_axis_is_not_stored_witness :
  exists msg,
    OpSimpleBlockwiseWatershed.execute Examples.env_numbering Examples.flat_y
      (roiFromShape [1; 2; 1; 2; 1]) (Demo.zeros_Z [1; 2; 1; 2; 1]) Demo.applet0
    = (Raise (ValueError msg),
       mk_applet 0
         [Call_watershed_and_agglomerate (mk_ndarray [2; 2] (Demo.f32s [1; 2; 3; 4]))
            4 (F32.of_Z 1) (F32.of_Z 1)]).
Proof.
  destruct (singleton_y_axis_is_not_stored Examples.env_numbering Examples.flat_y
             (roiFromShape [1; 2; 1; 2; 1]) (Demo.zeros_Z [1; 2; 1; 2; 1]) Demo.applet0
             2 2 (mk_ndarray [1; 2; 1; 2; 1] (Demo.f32s [1; 2; 3; 4]))
             (mk_ndarray [2; 2] [1; 2; 3; 4]) 4) as [_ [msg H]];
    [by_computation..|].
  exists msg. rewrite H. vm_compute. reflexivity.
Defined.

(** X3.  [OpSimpleBlockwiseWatershed.execute] calls a watershed back end
    at most once, and only after the region check, the axis-key check and
    the dimension check have all passed; it never touches the applet's
    progress.  The region check comes first: a request of another extent
    raises [ValueError] whatever the axes are; then axis keys other than
    [t, x, y, z, c] raise [ValueError]; and a failure of the upstream
    request is passed on unchanged.  None of these exits logs anything. *)
Theorem back_end_runs_only_after_the_checks env self roi result a :
  let r := execute env self roi result a in
  progress (snd r) = progress a
  /\ (log (snd r) = log a \/
      exists arr,
        roi_extent roi = Output_meta_shape self /\
        getAxisKeys (meta (Input self)) = txyzc /\
        get (Input self) roi = Ok arr /\
        (ndim (squeeze arr) = 2 \/ ndim (squeeze arr) = 3) /\
        log (snd r) = log a ++ [watershed_call env self (squeeze arr)])
  /\ (roi_extent roi <> Output_meta_shape self ->
      exists msg, r = (Raise (ValueError msg), a))
  /\ (roi_extent roi = Output_meta_shape self ->
      getAxisKeys (meta (Input self)) <> txyzc ->
      exists msg, r = (Raise (ValueError msg), a))
  /\ (forall z e,
        roi_extent roi = Output_meta_shape self ->
        getAxisKeys (meta (Input self)) = txyzc ->
        getTaggedShape_at (meta (Input self)) "z" = Ok z ->
        get (Input self) roi = Raise e ->
        r = (Raise e, a)).
Proof.
  cbv zeta.
  assert (Hlast : forall z e,
            roi_extent roi = Output_meta_shape self ->
            getAxisKeys (meta (Input self)) = txyzc ->
            getTaggedShape_at (meta (Input self)) "z" = Ok z ->
            get (Input self) roi = Raise e ->
            execute env self roi result a = (Raise e, a)).
  { intros z e H1 H2 Hz Hg. unfold execute.
    rewrite bool_decide_eq_true_2 by exact H1.
    rewrite bool_decide_eq_true_2 by exact H2.
    cbn [negb]. munfold. by rewrite Hz, Hg. }
  assert (Hpart : roi_extent roi <> Output_meta_shape self ->
            exists msg, execute env self roi result a = (Raise (ValueError msg), a)).
  { intros H. rewrite execute_rejects_partial by exact H. eauto. }
  assert (Haxes : roi_extent roi = Output_meta_shape self ->
            getAxisKeys (meta (Input self)) <> txyzc ->
            exists msg, execute env self roi result a = (Raise (ValueError msg), a)).
  { intros H1 H2. rewrite execute_rejects_axes by assumption. eauto. }
  assert (Hmain : progress (snd (execute env self roi result a)) = progress a /\
            (log (snd (execute env self roi result a)) = log a \/
             exists arr,
               roi_extent roi = Output_meta_shape self /\
               getAxisKeys (meta (Input self)) = txyzc /\
               get (Input self) roi = Ok arr /\
               (ndim (squeeze arr) = 2 \/ ndim (squeeze arr) = 3) /\
               log (snd (execute env self roi result a))
               = log a ++ [watershed_call env self (squeeze arr)])).
  { destruct (decide (roi_extent roi = Output_meta_shape self)) as [H1|H1];
      [|destruct (Hpart H1) as [msg ->]; auto].
    destruct (decide (getAxisKeys (meta (Input self)) = txyzc)) as [H2|H2];
      [|destruct (Haxes H1 H2) as [msg ->]; auto].
    destruct (getTaggedShape_at (meta (Input self)) "z") as [z|e] eqn:Hz.
    2:{ unfold execute.
        rewrite bool_decide_eq_true_2 by exact H1.
        rewrite bool_decide_eq_true_2 by exact H2.
        cbn [negb]. munfold. rewrite Hz. auto. }
    destruct (get (Input self) roi) as [arr|e] eqn:Hg;
      [|rewrite (Hlast z e H1 H2 eq_refl eq_refl); auto].
    rewrite (execute_checked env self roi result a z arr H1 H2 Hz Hg).
    destruct (ndim (squeeze arr) =? 2) eqn:E2.
    - split; [reflexivity|]. right. exists arr. apply Z.eqb_eq in E2. auto 10.
    - destruct (ndim (squeeze arr) =? 3) eqn:E3.
      + split; [reflexivity|]. right. exists arr. apply Z.eqb_eq in E3. auto 10.
      + auto. }
  destruct Hmain as [Hp Hl]. auto 10.
Qed.

Lemma back_end_runs_only_after_the_checks_witness :
  let turned := OpSimpleBlockwiseWatershed.mk
                  (mk_slot (mk_meta (rev Demo.tags) [1; 2; 2; 1; 1])
                     (slot_of_volume
                        (mk_ndarray [1; 2; 2; 1; 1] (Demo.f32s [1; 2; 3; 4]))))
                  1 (F32.of_Z 1) (F32.of_Z 1) in
  (exists msg,
      OpSimpleBlockwiseWatershed.execute Examples.env_numbering Examples.flat_x
        (mk_roi [0; 0; 0; 0; 0] [1; 1; 1; 2; 1]) (Demo.zeros_Z [1; 1; 1; 2; 1])
        Demo.applet0
      = (Raise (ValueError msg), Demo.applet0)) /\
  (exists msg,
      OpSimpleBlockwiseWatershed.execute Examples.env_numbering turned
        (roiFromShape [1; 2; 2; 1; 1]) (Demo.zeros_Z [1; 2; 2; 1; 1]) Demo.applet0
      = (Raise (ValueError msg), Demo.applet0)).
Proof.
  cbv zeta. split.
  - pose proof (back_end_runs_only_after_the_checks Examples.env_numbering
                  Examples.flat_x (mk_roi [0; 0; 0; 0; 0] [1; 1; 1; 2; 1])
                  (Demo.zeros_Z [1; 1; 1; 2; 1]) Demo.applet0) as H.
    cbv zeta in H. destruct H as (_ & _ & H & _). apply H. vm_compute. discriminate.
  - pose proof (back_end_runs_only_after_the_checks Examples.env_numbering
                  (OpSimpleBlockwiseWatershed.mk
                     (mk_slot (mk_meta (rev Demo.tags) [1; 2; 2; 1; 1])
                        (slot_of_volume
                           (mk_ndarray [1; 2; 2; 1; 1] (Demo.f32s [1; 2; 3; 4]))))
                     1 (F32.of_Z 1) (F32.of_Z 1))
                  (roiFromShape [1; 2; 2; 1; 1]) (Demo.zeros_Z [1; 2; 2; 1; 1])
                  Demo.applet0) as H.
    cbv zeta in H. destruct H as (_ & _ & _ & H & _).
    apply H; [vm_compute; reflexivity | vm_compute; discriminate].
Defined.

End WatershedStorage.

(* ===================================================================== *)
(** * The filter stage: input layout, filter kind, what is stored        *)
(* ===================================================================== *)

Section FilterRequest.
Import OpFilter.

Lemma execute_asserted env self roi result a :
  five_d_meta (meta (Input self)) = false ->
  execute env self roi result a = (Raise (AssertionError ""), a) \/
  execute env self roi result a = (Raise IndexError, a).
Proof.
  unfold five_d_meta, execute. munfold.
  destruct (axistags (meta (Input self))) as [|a0 [|a1 [|a2 [|a3 [|a4 [|a5 ax]]]]]];
    try (intros _; left; reflexivity).
  cbn [length]. rewrite (bool_decide_eq_true_2 (5%nat = 5%nat)) by reflexivity.
  unfold key_and_extent_one, getitem. cbn [nth_error py_assert]. munfold.
  destruct (bool_decide (key a0 = "t"%string)); [|intros _; left; reflexivity].
  destruct (meta_shape (meta (Input self))) as [|s0 sh]; [intros _; right; reflexivity|].
  cbn [nth_error]. destruct (s0 =? 1); [|intros _; left; reflexivity].
  cbn [py_assert assert_spatial getitem nth_error]. munfold.
  destruct (isSpatial a1); [|intros _; left; reflexivity].
  destruct (isSpatial a2); [|intros _; left; reflexivity].
  destruct (isSpatial a3); [|intros _; left; reflexivity].
  cbn [py_assert].
  destruct (bool_decide (key a4 = "c"%string));
    [|intros _; left; destruct sh as [|? [|? [|? [|]]]]; reflexivity].
  destruct sh as [|s1 [|s2 [|s3 [|s4 sh]]]]; try (intros _; right; reflexivity).
  cbn [nth_error andb]. destruct (s4 =? 1); [discriminate|].
  intros _; left; reflexivity.
Qed.

Lemma execute_prepared env self roi result a volume5d x y z :
  five_d_meta (meta (Input self)) = true ->
  value (Input self) = Ok volume5d ->
  shape volume5d = [1; x; y; z; 1] ->
  shape result = [1; x; y; z; 1] ->
  execute env self roi result a =
  match FILTER_NAMES !! Filter self with
  | None => (Raise (KeyError (KInt (Filter self))), a)
  | Some name =>
      let fvol := filter_input (Filter self)
                    (read_view volume5d
                       (mk_view [0; 0; 0; 0; 0] [1; x; y; z; 1] [x; y; z])) in
      let workers := Z.max 1 (num_workers env) in
      let channel := select_channel (Filter self) fvol in
      ((response ← parallel_filter env name fvol (Sigma self) workers channel;
        written ← (if Filter self =? HESSIAN_BRIGHT
                   then (mx ← np_max response;
                         Ok (inplace (fun v => F32.sub mx v) response))
                   else Ok response);
        write_view result
          (mk_view [0; 0; 0; 0; 0] [1; x; y; z; 1]
             (if z =? 1 then [x; y] else [x; y; z])) written),
       mk_applet (progress a)
         (log a ++ [Call_parallel_filter name fvol (Sigma self) workers channel]))
  end.
Proof.
  intros Hm Hv Hsv Hsr. unfold five_d_meta in Hm. unfold execute. munfold.
  destruct (axistags (meta (Input self))) as [|a0 [|a1 [|a2 [|a3 [|a4 [|a5 ax]]]]]];
    try discriminate.
  destruct (meta_shape (meta (Input self))) as [|s0 [|s1 [|s2 [|s3 [|s4 sh]]]]];
    try discriminate.
  repeat (apply andb_prop in Hm as [Hm ?]).
  cbn [length]. rewrite (bool_decide_eq_true_2 (5%nat = 5%nat)) by reflexivity.
  unfold key_and_extent_one, getitem. cbn [nth_error py_assert assert_spatial]. munfold.
  repeat (cbn [py_assert getitem nth_error];
          match goal with H : _ = true |- _ => rewrite H end).
  cbn [py_assert getitem nth_error]. rewrite Hv, Hsv, Hsr.
  cbn [view_0_xyz_0 Z.ltb Z.compare andb read_view v_shape shape nth_error].
  destruct (FILTER_NAMES !! Filter self) as [name|]; [|reflexivity].
  set (volume := read_view volume5d _).
  assert (Hfi : filter_input (Filter self) volume
                = (if Filter self =? RAW_INVERTED
                   then inplace F32.neg
                          (if z =? 1 then mk_ndarray (firstn 2 [x; y; z]) (data volume)
                           else volume)
                   else if z =? 1 then mk_ndarray (firstn 2 [x; y; z]) (data volume)
                        else volume)) by reflexivity.
  rewrite <- Hfi. set (fvol := filter_input _ _).
  assert (Hnd : (ndim fvol =? 2) = (z =? 1)).
  { unfold fvol. rewrite Hfi. unfold ndim.
    destruct (Filter self =? RAW_INVERTED), (z =? 1); reflexivity. }
  rewrite Hnd. unfold emit. munfold. cbn [progress log].
  destruct (parallel_filter env name fvol _ _ _) as [response|]; [|reflexivity].
  destruct (Z.eqb_spec z 1) as [->|Hz].
  - cbn [view_0_xy00 Z.ltb Z.compare andb].
    destruct (Filter self =? HESSIAN_BRIGHT); [destruct (np_max response)|]; reflexivity.
  - destruct (Filter self =? HESSIAN_BRIGHT); [destruct (np_max response)|]; reflexivity.
Qed.

(** The same for a result buffer of another extent. *)
Lemma execute_prepared_for env self roi result a volume5d x y z x' y' z' :
  five_d_meta (meta (Input self)) = true ->
  value (Input self) = Ok volume5d ->
  shape volume5d = [1; x; y; z; 1] ->
  shape result = [1; x'; y'; z'; 1] ->
  0 < z' ->
  execute env self roi result a =
  match FILTER_NAMES !! Filter self with
  | None => (Raise (KeyError (KInt (Filter self))), a)
  | Some name =>
      let fvol := filter_input (Filter self)
                    (read_view volume5d
                       (mk_view [0; 0; 0; 0; 0] [1; x; y; z; 1] [x; y; z])) in
      let workers := Z.max 1 (num_workers env) in
      let channel := select_channel (Filter self) fvol in
      ((response ← parallel_filter env name fvol (Sigma self) workers channel;
        written ← (if Filter self =? HESSIAN_BRIGHT
                   then (mx ← np_max response;
                         Ok (inplace (fun v => F32.sub mx v) response))
                   else Ok response);
        write_view result
          (if z =? 1
           then mk_view [0; 0; 0; 0; 0] [1; x'; y'; 1; 1] [x'; y']
           else mk_view [0; 0; 0; 0; 0] [1; x'; y'; z'; 1] [x'; y'; z']) written),
       mk_applet (progress a)
         (log a ++ [Call_parallel_filter name fvol (Sigma self) workers channel]))
  end.
Proof.
  intros Hm Hv Hsv Hsr Hz'. unfold five_d_meta in Hm. unfold execute. munfold.
  destruct (axistags (meta (Input self))) as [|a0 [|a1 [|a2 [|a3 [|a4 [|a5 ax]]]]]];
    try discriminate.
  destruct (meta_shape (meta (Input self))) as [|s0 [|s1 [|s2 [|s3 [|s4 sh]]]]];
    try discriminate.
  repeat (apply andb_prop in Hm as [Hm ?]).
  cbn [length]. rewrite (bool_decide_eq_true_2 (5%nat = 5%nat)) by reflexivity.
  unfold key_and_extent_one, getitem. cbn [nth_error py_assert assert_spatial]. munfold.
  repeat (cbn [py_assert getitem nth_error];
          match goal with H : _ = true |- _ => rewrite H end).
  cbn [py_assert getitem nth_error]. rewrite Hv, Hsv, Hsr.
  cbn [view_0_xyz_0 Z.ltb Z.compare andb read_view v_shape shape nth_error].
  destruct (FILTER_NAMES !! Filter self) as [name|]; [|reflexivity].
  set (volume := read_view volume5d _).
  assert (Hfi : filter_input (Filter self) volume
                = (if Filter self =? RAW_INVERTED
                   then inplace F32.neg
                          (if z =? 1 then mk_ndarray (firstn 2 [x; y; z]) (data volume)
                           else volume)
                   else if z =? 1 then mk_ndarray (firstn 2 [x; y; z]) (data volume)
                        else volume)) by reflexivity.
  rewrite <- Hfi. set (fvol := filter_input _ _).
  assert (Hnd : (ndim fvol =? 2) = (z =? 1)).
  { unfold fvol. rewrite Hfi. unfold ndim.
    destruct (Filter self =? RAW_INVERTED), (z =? 1); reflexivity. }
  rewrite Hnd. unfold emit. munfold. cbn [progress log].
  destruct (parallel_filter env name fvol _ _ _) as [response|]; [|reflexivity].
  destruct (z =? 1).
  - cbn [view_0_xy00]. apply Z.ltb_lt in Hz'. rewrite Hz'.
    cbn [Z.ltb Z.compare andb].
    destruct (Filter self =? HESSIAN_BRIGHT); [destruct (np_max response)|]; reflexivity.
  - destruct (Filter self =? HESSIAN_BRIGHT); [destruct (np_max response)|]; reflexivity.
Qed.

(** A source whose first extent is neither the destination's nor one
    cannot be broadcast. *)
Lemma broadcast_first_axis {A} x x' ssh dsh (l : list A) :
  x <> x' -> x <> 1 -> length ssh = length dsh ->
  broadcast_to (x :: ssh) (x' :: dsh) l = None.
Proof.
  intros H1 H2 Hl. apply Z.eqb_neq in H1, H2.
  unfold broadcast_to. cbn [length]. rewrite bool_decide_eq_true_2 by lia.
  replace (S (length dsh) - S (length ssh))%nat with 0%nat by lia.
  cbn [replicate app broadcast_eq].
  destruct (mapM _ _); simpl; [by rewrite H1, H2 | reflexivity].
Qed.

Lemma unknown_kind f : f < 0 \/ 4 < f -> FILTER_NAMES !! f = None.
Proof.
  intros H. unfold FILTER_NAMES. cbn [list_to_map foldr uncurry fst snd].
  rewrite !lookup_insert_ne by lia. apply lookup_empty.
Qed.

Lemma execute_without_name env self roi result a :
  FILTER_NAMES !! Filter self = None ->
  exists e, execute env self roi result a = (Raise e, a).
Proof.
  intros Hn. unfold execute. munfold. rewrite Hn.
  repeat (case_outcome; eauto).
Qed.

(** X4.  [OpFilter.execute] returns only for an input with five axis
    tags, keyed "t" first and "c" last with extent one each, and spatial
    axes between them.  For any other metadata it raises [AssertionError]
    (or [IndexError], when the shape has fewer entries than the tags say)
    before it reads the input or calls the filter: nothing is logged. *)
Theorem filter_asserts_its_input_layout env self roi result a :
  let r := execute env self roi result a in
  (five_d_meta (meta (Input self)) = false ->
   snd r = a /\ (fst r = Raise (AssertionError "") \/ fst r = Raise IndexError))
  /\ (forall out, fst r = Ok out -> five_d_meta (meta (Input self)) = true).
Proof.
  cbv zeta. split.
  - intros H. destruct (execute_asserted env self roi result a H) as [-> | ->]; auto.
  - intros out H. destruct (five_d_meta (meta (Input self))) eqn:E; [reflexivity|].
    destruct (execute_asserted env self roi result a E) as [H' | H'];
      rewrite H' in H; discriminate.
Qed.

Lemma filter_asserts_its_input_layout_witness :
  let self := OpFilter.mk
                (mk_slot (mk_meta (rev Demo.tags) [1; 2; 2; 1; 1])
                   (slot_of_volume
                      (mk_ndarray [1; 2; 2; 1; 1] (Demo.f32s [1; 2; 3; 4]))))
                OpFilter.RAW (F32.of_Z 2) in
  let r := OpFilter.execute (Demo.env 4) self (roiFromShape [1; 2; 2; 1; 1])
             (Demo.zeros_f32 [1; 2; 2; 1; 1]) Demo.applet0 in
  snd r = Demo.applet0 /\
  (fst r = Raise (AssertionError "") \/ fst r = Raise IndexError).
Proof.
  cbv zeta.
  pose proof (filter_asserts_its_input_layout (Demo.env 4)
                (OpFilter.mk
                   (mk_slot (mk_meta (rev Demo.tags) [1; 2; 2; 1; 1])
                      (slot_of_volume
                         (mk_ndarray [1; 2; 2; 1; 1] (Demo.f32s [1; 2; 3; 4]))))
                   OpFilter.RAW (F32.of_Z 2))
                (roiFromShape [1; 2; 2; 1; 1]) (Demo.zeros_f32 [1; 2; 2; 1; 1])
                Demo.applet0) as H.
  cbv zeta in H. destruct H as (H & _). apply H. vm_compute. reflexivity.
Defined.

(** X5.  A value on the [Filter] slot outside 0..4 never yields a result
    and never reaches the filter: the request raises with nothing logged,
    and on a well-tagged, readable volume the exception is the [KeyError]
    of the look-up in [FILTER_NAMES], carrying the unknown value. *)
Theorem unknown_filter_kind_is_a_key_error env self roi result a :
  Filter self < 0 \/ 4 < Filter self ->
  let r := execute env self roi result a in
  (exists e, fst r = Raise e)
  /\ snd r = a
  /\ (forall volume5d x y z,
        five_d_meta (meta (Input self)) = true ->
        value (Input self) = Ok volume5d ->
        shape volume5d = [1; x; y; z; 1] ->
        shape result = [1; x; y; z; 1] ->
        fst r = Raise (KeyError (KInt (Filter self)))).
Proof.
  intros Hf. cbv zeta. pose proof (unknown_kind _ Hf) as Hn.
  destruct (execute_without_name env self roi result a Hn) as [e He].
  split; [rewrite He; eauto|]. split; [by rewrite He|].
  intros volume5d x y z Hm Hv Hsv Hsr.
  rewrite (execute_prepared env self roi result a volume5d x y z Hm Hv Hsv Hsr), Hn.
  reflexivity.
Qed.

Lemma unknown_filter_kind_is_a_key_error_witness :
  OpFilter.execute (Demo.env 4) (Examples.filter_2d 7) (roiFromShape [1; 2; 2; 1; 1])
    (Demo.zeros_f32 [1; 2; 2; 1; 1]) Demo.applet0
  = (Raise (KeyError (KInt 7)), Demo.applet0).
Proof.
  assert (Hf : OpFilter.Filter (Examples.filter_2d 7) < 0 \/
               4 < OpFilter.Filter (Examples.filter_2d 7)) by (right; reflexivity).
  destruct (unknown_filter_kind_is_a_key_error (Demo.env 4) (Examples.filter_2d 7)
              (roiFromShape [1; 2; 2; 1; 1]) (Demo.zeros_f32 [1; 2; 2; 1; 1])
              Demo.applet0 Hf) as (_ & Hs & Hk).
  specialize (Hk (mk_ndarray [1; 2; 2; 1; 1] (Demo.f32s [1; 2; 3; 4])) 2 2 1
                 eq_refl eq_refl eq_refl eq_refl).
  destruct (OpFilter.execute _ _ _ _ _) as [r a']. simpl in Hs, Hk. by subst.
Defined.

(** X6.  When the filter answers a well-tagged volume of shape
    [(1, x, y, z, 1)] with a response of the shape of its input,
    [OpFilter.execute] returns the result with exactly the response's
    elements in it ([max(response) - response] for HESSIAN_BRIGHT), in the
    shape [(1, x, y, z, 1)]: through [result[0, :, :, :, 0][:, :, 0]] when
    [z = 1] and through [result[0, :, :, :, 0]] otherwise. *)
Theorem response_fills_the_result env self roi result a volume5d x y z name response :
  five_d_meta (meta (Input self)) = true ->
  value (Input self) = Ok volume5d ->
  shape volume5d = [1; x; y; z; 1] ->
  1 <= x -> 1 <= y -> 1 <= z ->
  shape result = [1; x; y; z; 1] ->
  wf_ndarray result ->
  FILTER_NAMES !! Filter self = Some name ->
  let fvol := filter_input (Filter self)
                (read_view volume5d
                   (mk_view [0; 0; 0; 0; 0] [1; x; y; z; 1] [x; y; z])) in
  let workers := Z.max 1 (num_workers env) in
  let channel := select_channel (Filter self) fvol in
  parallel_filter env name fvol (Sigma self) workers channel = Ok response ->
  shape response = shape fvol ->
  wf_ndarray response ->
  shape fvol = (if z =? 1 then [x; y] else [x; y; z])
  /\ exists written,
      execute env self roi result a
      = (Ok (mk_ndarray [1; x; y; z; 1] (data written)),
         mk_applet (progress a)
           (log a ++ [Call_parallel_filter name fvol (Sigma self) workers channel]))
      /\ (Filter self = HESSIAN_BRIGHT ->
          exists mx, np_max response = Ok mx /\
                     written = inplace (fun v => F32.sub mx v) response)
      /\ (Filter self <> HESSIAN_BRIGHT -> written = response).
Proof.
  intros Hm Hv Hsv Hx Hy Hz Hsr Hwf Hn. cbv zeta. intros Hpf Hsh [Hrsh Hrl].
  set (fvol := filter_input _ _) in *.
  assert (Hfs : shape fvol = (if z =? 1 then [x; y] else [x; y; z])).
  { unfold fvol, filter_input. cbn [read_view v_shape shape nth_error].
    destruct (Filter self =? RAW_INVERTED), (z =? 1); reflexivity. }
  split; [exact Hfs|].
  assert (Hsize : size_of (shape fvol) = x * y * z).
  { rewrite Hfs. destruct (Z.eqb_spec z 1) as [->|]; simpl; lia. }
  assert (Hne : exists v l, data response = v :: l).
  { destruct (data response) as [|v l]; [|eauto].
    rewrite Hsh, Hsize in Hrl. simpl in Hrl. nia. }
  assert (Hw : forall written,
             shape written = shape response ->
             length (data written) = length (data response) ->
             write_view result
               (mk_view [0; 0; 0; 0; 0] [1; x; y; z; 1]
                  (if z =? 1 then [x; y] else [x; y; z])) written
             = Ok (mk_ndarray [1; x; y; z; 1] (data written))).
  { intros written Hws Hwl. rewrite <- Hsr.
    apply write_view_whole; try assumption; cbn [v_start v_stop v_shape];
      try (by rewrite Hsr).
    - rewrite <- Hfs, <- Hsh, <- Hws. unfold broadcast_to.
      rewrite bool_decide_eq_true_2 by lia. rewrite Nat.sub_diag. cbn [replicate app].
      apply broadcast_eq_id; [by rewrite Hws | by rewrite Hwl, Hws].
    - rewrite Hwl, Hrl, Hsh, Hsize, Hsr. f_equal. simpl. lia. }
  rewrite (execute_prepared env self roi result a volume5d x y z Hm Hv Hsv Hsr), Hn.
  cbv zeta. fold fvol. munfold. rewrite Hpf.
  destruct (Z.eqb_spec (Filter self) HESSIAN_BRIGHT) as [Hb|Hb].
  - destruct Hne as (v & l & Hd).
    assert (Hmx : np_max response = Ok (fold_left F32.maximum l v))
      by (unfold np_max; by rewrite Hd).
    rewrite Hmx. eexists. split; [|split].
    + rewrite Hw; [reflexivity | reflexivity |]. unfold inplace. cbn [data].
      by rewrite length_map.
    + intros _. eauto.
    + intros Hnb. contradiction.
  - exists response. split; [|split].
    + by rewrite Hw.
    + intros Hb'. contradiction.
    + reflexivity.
Qed.

Lemma response_fills_the_result_witness :
  OpFilter.execute (Demo.env 4) (Examples.filter_2d OpFilter.HESSIAN_BRIGHT)
    (roiFromShape [1; 2; 2; 1; 1]) (Demo.zeros_f32 [1; 2; 2; 1; 1]) Demo.applet0
  = (Ok (mk_ndarray [1; 2; 2; 1; 1] (Demo.f32s [3; 2; 1; 0])),
     mk_applet 0
       [Call_parallel_filter "hessianOfGaussianEigenvalues"
          (mk_ndarray [2; 2] (Demo.f32s [1; 2; 3; 4])) (F32.of_Z 2) 4 (Some 1)]).
Proof.
  destruct (response_fills_the_result (Demo.env 4)
              (Examples.filter_2d OpFilter.HESSIAN_BRIGHT)
              (roiFromShape [1; 2; 2; 1; 1]) (Demo.zeros_f32 [1; 2; 2; 1; 1]) Demo.applet0
              (mk_ndarray [1; 2; 2; 1; 1] (Demo.f32s [1; 2; 3; 4])) 2 2 1
              "hessianOfGaussianEigenvalues"
              (mk_ndarray [2; 2] (Demo.f32s [1; 2; 3; 4])))
    as (_ & written & He & Hb & _); [by_computation..|].
  rewrite He. destruct (Hb eq_refl) as (mx & Hmx & ->).
  vm_compute in Hmx. injection Hmx as <-. vm_compute. reflexivity.
Defined.

(** X7.  The one call [OpFilter.execute] makes to [parallel_filter] on a
    well-tagged volume of shape [(1, x, y, z, 1)] passes the volume's
    elements in their order, negated for RAW_INVERTED and for no other
    kind, as a two-dimensional [(x, y)] array when [z = 1] and as
    [(x, y, z)] otherwise; the channel asked for HESSIAN_BRIGHT is then 1
    in two dimensions and 2 in three; the worker count is [max(1, n)]. *)
Theorem filter_sees_the_volume env self roi result a volume5d x y z name :
  five_d_meta (meta (Input self)) = true ->
  value (Input self) = Ok volume5d ->
  shape volume5d = [1; x; y; z; 1] ->
  wf_ndarray volume5d ->
  shape result = [1; x; y; z; 1] ->
  FILTER_NAMES !! Filter self = Some name ->
  log (snd (execute env self roi result a))
  = log a ++
    [Call_parallel_filter name
       (mk_ndarray (if z =? 1 then [x; y] else [x; y; z])
          (if Filter self =? RAW_INVERTED
           then map F32.neg (data volume5d) else data volume5d))
       (Sigma self)
       (Z.max 1 (num_workers env))
       (if Filter self =? HESSIAN_BRIGHT then Some (if z =? 1 then 1 else 2)
        else if Filter self =? HESSIAN_DARK then Some 0
        else None)].
Proof.
  intros Hm Hv Hsv [Hnn Hlen] Hsr Hn.
  rewrite (execute_prepared env self roi result a volume5d x y z Hm Hv Hsv Hsr), Hn.
  cbn [snd log]. do 2 f_equal.
  assert (Hread : read_view volume5d (mk_view [0; 0; 0; 0; 0] [1; x; y; z; 1] [x; y; z])
                  = mk_ndarray [x; y; z] (data volume5d)).
  { unfold read_view. cbn [v_shape v_start v_stop]. f_equal.
    rewrite Hsv in Hnn, Hlen |- *.
    exact (slice_nd_whole [1; x; y; z; 1] (data volume5d) Hnn Hlen). }
  rewrite Hread. unfold filter_input, select_channel, inplace, ndim.
  cbn [shape data nth_error].
  destruct (Filter self =? RAW_INVERTED), (z =? 1),
    (Filter self =? HESSIAN_BRIGHT), (Filter self =? HESSIAN_DARK); reflexivity.
Qed.

Lemma filter_sees_the_volume_witness :
  log (snd (OpFilter.execute (Demo.env 0) (Examples.filter_2d OpFilter.RAW_INVERTED)
              (roiFromShape [1; 2; 2; 1; 1]) (Demo.zeros_f32 [1; 2; 2; 1; 1])
              Demo.applet0))
  = [Call_parallel_filter "gaussianSmoothing"
       (mk_ndarray [2; 2] (map F32.neg (Demo.f32s [1; 2; 3; 4]))) (F32.of_Z 2) 1 None].
Proof.
  rewrite (filter_sees_the_volume (Demo.env 0) (Examples.filter_2d OpFilter.RAW_INVERTED)
             (roiFromShape [1; 2; 2; 1; 1]) (Demo.zeros_f32 [1; 2; 2; 1; 1]) Demo.applet0
             (mk_ndarray [1; 2; 2; 1; 1] (Demo.f32s [1; 2; 3; 4])) 2 2 1
             "gaussianSmoothing");
    try (vm_compute; reflexivity); wf_concrete.
Defined.

(** X8.  [OpFilter.execute] never looks at the requested region: it
    filters the whole input volume whatever is asked for.  When the
    destination has another extent along x than the volume (the volume's
    extent along x not being one, which numpy would broadcast, and the
    destination's extent along z being positive), the whole filter is
    computed first and the request then ends in a [ValueError], raised by
    the write to the result or, for an empty HESSIAN_BRIGHT response, by
    [numpy.max]. *)
Theorem partial_request_is_filtered_then_refused
        env self roi result a volume5d x y z x' y' z' name response :
  five_d_meta (meta (Input self)) = true ->
  value (Input self) = Ok volume5d ->
  shape volume5d = [1; x; y; z; 1] ->
  shape result = [1; x'; y'; z'; 1] ->
  0 < z' ->
  x <> x' -> x <> 1 ->
  FILTER_NAMES !! Filter self = Some name ->
  let fvol := filter_input (Filter self)
                (read_view volume5d
                   (mk_view [0; 0; 0; 0; 0] [1; x; y; z; 1] [x; y; z])) in
  let workers := Z.max 1 (num_workers env) in
  let channel := select_channel (Filter self) fvol in
  parallel_filter env name fvol (Sigma self) workers channel = Ok response ->
  shape response = shape fvol ->
  (exists msg,
      execute env self roi result a
      = (Raise (ValueError msg),
         mk_applet (progress a)
           (log a ++ [Call_parallel_filter name fvol (Sigma self) workers channel])))
  /\ (forall roi', execute env self roi' result a = execute env self roi result a).
Proof.
  intros Hm Hv Hsv Hsr Hz' Hx Hx1 Hn. cbv zeta. intros Hpf Hsh.
  split; [|reflexivity].
  set (fvol := filter_input _ _) in *.
  assert (Hfs : shape fvol = (if z =? 1 then [x; y] else [x; y; z])).
  { unfold fvol, filter_input. cbn [read_view v_shape shape nth_error].
    destruct (Filter self =? RAW_INVERTED), (z =? 1); reflexivity. }
  rewrite (execute_prepared_for env self roi result a volume5d x y z x' y' z'
             Hm Hv Hsv Hsr Hz'), Hn.
  cbv zeta. fold fvol. munfold. rewrite Hpf.
  assert (Hw : forall written,
             shape written = shape response ->
             write_view result
               (if z =? 1
                then mk_view [0; 0; 0; 0; 0] [1; x'; y'; 1; 1] [x'; y']
                else mk_view [0; 0; 0; 0; 0] [1; x'; y'; z'; 1] [x'; y'; z']) written
             = Raise (ValueError "could not broadcast input array")).
  { intros written Hws. unfold write_view. rewrite Hws, Hsh, Hfs.
    destruct (z =? 1); cbn [v_shape]; by rewrite broadcast_first_axis. }
  destruct (Filter self =? HESSIAN_BRIGHT).
  - destruct (np_max response) as [mx|e] eqn:Hmx.
    + rewrite Hw by reflexivity. eauto.
    + unfold np_max in Hmx. destruct (data response); [|discriminate].
      injection Hmx as <-. eauto.
  - rewrite Hw by reflexivity. eauto.
Qed.

Lemma partial_request_is_filtered_then_refused_witness :
  exists msg,
    OpFilter.execute (Demo.env 4) (Examples.filter_2d OpFilter.RAW)
      (mk_roi [0; 0; 0; 0; 0] [1; 1; 2; 1; 1]) (Demo.zeros_f32 [1; 1; 2; 1; 1])
      Demo.applet0
    = (Raise (ValueError msg),
       mk_applet 0
         [Call_parallel_filter "gaussianSmoothing"
            (mk_ndarray [2; 2] (Demo.f32s [1; 2; 3; 4])) (F32.of_Z 2) 4 None]).
Proof.
  destruct (partial_request_is_filtered_then_refused (Demo.env 4)
              (Examples.filter_2d OpFilter.RAW)
              (mk_roi [0; 0; 0; 0; 0] [1; 1; 2; 1; 1]) (Demo.zeros_f32 [1; 1; 2; 1; 1])
              Demo.applet0
              (mk_ndarray [1; 2; 2; 1; 1] (Demo.f32s [1; 2; 3; 4])) 2 2 1 1 2 1
              "gaussianSmoothing" (mk_ndarray [2; 2] (Demo.f32s [1; 2; 3; 4])))
    as [[msg H] _]; [by_computation..|].
  exists msg. rewrite H. vm_compute. reflexivity.
Defined.

(** X9.  What [OpFilter.execute] stores for HESSIAN_BRIGHT,
    [max(response) - response], holds no NaN and no negative number when
    the response is finite: every element is a zero, a positive number or
    plus infinity, and there is a zero where the response has its
    maximum. *)
Theorem bright_inversion_is_nonnegative env self roi result a out a' :
  execute env self roi result a = (Ok out, a') ->
  Filter self = HESSIAN_BRIGHT ->
  exists volume5d vv name response mx rv,
    value (Input self) = Ok volume5d /\
    view_0_xyz_0 (shape volume5d) = Ok vv /\
    (let fvol := filter_input (Filter self) (read_view volume5d vv) in
     parallel_filter env name fvol (Sigma self) (Z.max 1 (num_workers env))
       (select_channel (Filter self) fvol) = Ok response) /\
    np_max response = Ok mx /\
    In mx (data response) /\
    write_view result rv (inplace (fun v => F32.sub mx v) response) = Ok out /\
    (Forall (fun v => F32.is_finite v = true /\ F32.valid v = true) (data response) ->
     Forall (fun v => (exists s, v = S754_zero s) \/ v = F32.pinf \/
                      exists mv ev, v = S754_finite false mv ev)
            (map (fun v => F32.sub mx v) (data response))
     /\ exists s, In (S754_zero s) (map (fun v => F32.sub mx v) (data response))).
Proof.
  intros H Hb.
  destruct (execute_ok _ _ _ _ _ _ _ H)
    as (volume5d & vv & name & response & rv & written
        & Hv & Hvv & _ & _ & Hpf & Hw & Hbright & _).
  destruct (Hbright Hb) as (mx & Hmx & ->).
  pose proof (np_max_in _ _ Hmx) as Imx.
  exists volume5d, vv, name, response, mx, rv.
  split; [exact Hv|]. split; [exact Hvv|]. split; [exact Hpf|].
  split; [exact Hmx|]. split; [exact Imx|]. split; [exact Hw|].
  intros Hfin.
  assert (Hval : forall x, In x (data response) -> fin_valid x).
  { intros x Hx. rewrite Forall_forall in Hfin.
    destruct (Hfin x) as [? ?]; [by apply list_elem_of_In|]. by apply fin_valid_of_bools. }
  pose proof (Hval mx Imx) as Vmx.
  assert (Hup : Forall (fun v => f32_le v mx) (data response)).
  { unfold np_max in Hmx. destruct (data response) as [|x0 l] eqn:E; [discriminate|].
    injection Hmx as <-. apply fold_maximum_upper.
    apply Forall_forall. intros v Hv'.
    apply list_elem_of_In, Hval in Hv'. by destruct v. }
  split.
  - apply Forall_forall. intros v Hv'.
    apply list_elem_of_In, in_map_iff in Hv' as (x & <- & Hx).
    pose proof (Hval x Hx) as Vx.
    rewrite Forall_forall in Hup. specialize (Hup x (proj2 (list_elem_of_In _ _) Hx)).
    unfold F32.sub, F32.prec, F32.emax.
    destruct Hup as [Hlt|Heq].
    + assert (Hl : SFltb x mx = true) by (unfold SFltb; by rewrite Hlt).
      destruct (sub_pos x mx Vx Vmx Hl) as [HN|(mN & eN & HN & _)]; rewrite HN; eauto.
    + destruct (sub_eq_zero mx x Vmx Vx Heq) as [s Hs]. rewrite Hs. eauto.
  - destruct (sub_eq_zero mx mx Vmx Vmx (SFcompare_refl mx Vmx)) as [s Hs].
    exists s. apply in_map_iff. exists mx. split; [exact Hs | exact Imx].
Qed.

Lemma bright_inversion_is_nonnegative_witness :
  exists response mx,
    response = mk_ndarray [2; 2] (Demo.f32s [1; 2; 3; 4]) /\
    mx = F32.of_Z 4 /\
    Forall (fun v => (exists s, v = S754_zero s) \/ v = F32.pinf \/
                     exists mv ev, v = S754_finite false mv ev)
           (map (fun v => F32.sub mx v) (data response)).
Proof.
  set (self := OpFilter.mk (Demo.f32_slot [1; 2; 2; 1; 1] [1; 2; 3; 4])
                 HESSIAN_BRIGHT (F32.of_Z 2)).
  set (r := execute (Demo.env 4) self (roiFromShape [1; 2; 2; 1; 1])
              (Demo.zeros_f32 [1; 2; 2; 1; 1]) Demo.applet0).
  assert (Hr : r = (Ok (mk_ndarray [1; 2; 2; 1; 1] (Demo.f32s [3; 2; 1; 0])), snd r))
    by (vm_compute; reflexivity).
  unfold r in Hr.
  destruct (bright_inversion_is_nonnegative _ _ _ _ _ _ _ Hr eq_refl)
    as (volume5d & vv & name & response & mx & rv & Hv & Hvv & Hpf & Hmx & _ & _ & Hnn).
  vm_compute in Hv. injection Hv as <-.
  vm_compute in Hvv. injection Hvv as <-.
  vm_compute in Hpf. injection Hpf as <-.
  vm_compute in Hmx. injection Hmx as <-.
  eexists _, _. split; [reflexivity|]. split; [vm_compute; reflexivity|].
  apply Hnn. vm_compute. repeat constructor.
Defined.

End FilterRequest.

(* ===================================================================== *)
(** * The normalisation stage: empty regions, NaN, infinities            *)
(* ===================================================================== *)

Section NormalizationEdges.
Import OpNormalize255.

Lemma maximum_nan_r x : F32.maximum x F32.nan = F32.nan.
Proof. by destruct x as [[]|[]| |[]]. Qed.

Lemma minimum_nan_r x : F32.minimum x F32.nan = F32.nan.
Proof. by destruct x as [[]|[]| |[]]. Qed.

Lemma fold_maximum_nan l : fold_left F32.maximum l F32.nan = F32.nan.
Proof. induction l as [|y l IH]; [reflexivity|]. exact IH. Qed.

Lemma fold_minimum_nan l : fold_left F32.minimum l F32.nan = F32.nan.
Proof. induction l as [|y l IH]; [reflexivity|]. exact IH. Qed.

Lemma fold_maximum_poisoned l x :
  In F32.nan (x :: l) -> fold_left F32.maximum l x = F32.nan.
Proof.
  revert x. induction l as [|y l IH]; intros x [Hx|Hin].
  - by subst.
  - destruct Hin.
  - subst. apply fold_maximum_nan.
  - simpl. destruct Hin as [->|Hin].
    + rewrite maximum_nan_r. apply fold_maximum_nan.
    + apply IH. by right.
Qed.

Lemma fold_minimum_poisoned l x :
  In F32.nan (x :: l) -> fold_left F32.minimum l x = F32.nan.
Proof.
  revert x. induction l as [|y l IH]; intros x [Hx|Hin].
  - by subst.
  - destruct Hin.
  - subst. apply fold_minimum_nan.
  - simpl. destruct Hin as [->|Hin].
    + rewrite minimum_nan_r. apply fold_minimum_nan.
    + apply IH. by right.
Qed.

Lemma rescale_nan x : rescale F32.nan F32.nan x = F32.nan.
Proof. by destruct x as [[]|[]| |[]]. Qed.

(** X10.  One NaN in the requested region makes every element of the
    result NaN: [numpy.max] and [numpy.min] both return NaN, and each of
    the three in-place passes propagates it. *)
Theorem one_nan_turns_the_region_to_nan self roi result region :
  get (Input self) roi = Ok region ->
  In F32.nan (data region) ->
  np_max region = Ok F32.nan /\ np_min region = Ok F32.nan /\
  execute self roi result
  = Ok (mk_ndarray (shape region) (replicate (length (data region)) F32.nan)).
Proof.
  intros Hin Hnan.
  assert (Hmax : np_max region = Ok F32.nan).
  { unfold np_max. destruct (data region) as [|x l]; [destruct Hnan|].
    by rewrite fold_maximum_poisoned. }
  assert (Hmin : np_min region = Ok F32.nan).
  { unfold np_min. destruct (data region) as [|x l]; [destruct Hnan|].
    by rewrite fold_minimum_poisoned. }
  split; [exact Hmax|]. split; [exact Hmin|].
  rewrite execute_eq. munfold. rewrite Hin, Hmax, Hmin. do 2 f_equal.
  clear. induction (data region) as [|x l IH]; [reflexivity|].
  simpl. by rewrite rescale_nan, IH.
Qed.

Lemma one_nan_turns_the_region_to_nan_witness :
  let region := mk_ndarray [1; 2; 2; 1; 1]
                  [F32.of_Z 1; F32.nan; F32.of_Z 3; F32.of_Z 4] in
  OpNormalize255.execute (OpNormalize255.mk (Demo.slot_of region))
    (roiFromShape [1; 2; 2; 1; 1]) (Demo.zeros_f32 [1; 2; 2; 1; 1])
  = Ok (mk_ndarray [1; 2; 2; 1; 1] [F32.nan; F32.nan; F32.nan; F32.nan]).
Proof.
  cbv zeta.
  refine (proj2 (proj2 (one_nan_turns_the_region_to_nan _ _ _
            (mk_ndarray [1; 2; 2; 1; 1] [F32.of_Z 1; F32.nan; F32.of_Z 3; F32.of_Z 4])
            _ _))).
  - vm_compute. reflexivity.
  - right. left. reflexivity.
Defined.

(** X11.  [OpNormalize255.execute] raises in two cases only: the upstream
    request raised (its exception is passed on), or the requested region
    has no element ([numpy.max] of an empty array is a [ValueError]).  For
    every region with at least one element it returns an array of the
    region's shape and size, whatever the values are. *)
Theorem normalize_raises_only_without_elements self roi result :
  (forall e, get (Input self) roi = Raise e -> execute self roi result = Raise e)
  /\ (forall region,
        get (Input self) roi = Ok region -> data region = [] ->
        exists msg, execute self roi result = Raise (ValueError msg))
  /\ (forall region,
        get (Input self) roi = Ok region -> data region <> [] ->
        exists out,
          execute self roi result = Ok out /\
          shape out = shape region /\
          length (data out) = length (data region)).
Proof.
  split; [|split].
  - intros e H. rewrite execute_eq. munfold. by rewrite H.
  - intros region H He. rewrite execute_eq. munfold. rewrite H.
    unfold np_max. rewrite He. eauto.
  - intros region H Hne. rewrite execute_eq. munfold. rewrite H.
    unfold np_max, np_min. destruct (data region) as [|x l] eqn:E; [done|].
    eexists. split; [reflexivity|]. split; [reflexivity|].
    cbn [data]. by rewrite length_map.
Qed.

Lemma normalize_raises_only_without_elements_witness :
  let empty := mk_ndarray [1; 0; 2; 1; 1] [] in
  exists msg,
    OpNormalize255.execute (OpNormalize255.mk (Demo.slot_of empty))
      (roiFromShape [1; 0; 2; 1; 1]) (Demo.zeros_f32 [1; 0; 2; 1; 1])
    = Raise (ValueError msg).
Proof.
  cbv zeta.
  destruct (normalize_raises_only_without_elements
              (OpNormalize255.mk (Demo.slot_of (mk_ndarray [1; 0; 2; 1; 1] [])))
              (roiFromShape [1; 0; 2; 1; 1]) (Demo.zeros_f32 [1; 0; 2; 1; 1]))
    as (_ & H & _).
  apply (H (mk_ndarray [1; 0; 2; 1; 1] [])); vm_compute; reflexivity.
Defined.

Lemma maximum_pinf_l y : F32.is_nan y = false -> F32.maximum F32.pinf y = F32.pinf.
Proof. by destruct y as [[]|[]| |[]]. Qed.

Lemma maximum_pinf_r x : F32.is_nan x = false -> F32.maximum x F32.pinf = F32.pinf.
Proof. by destruct x as [[]|[]| |[]]. Qed.

Lemma minimum_ninf_l y :
  F32.is_nan y = false -> F32.minimum (S754_infinity true) y = S754_infinity true.
Proof. by destruct y as [[]|[]| |[]]. Qed.

Lemma minimum_ninf_r x :
  F32.is_nan x = false -> F32.minimum x (S754_infinity true) = S754_infinity true.
Proof. by destruct x as [[]|[]| |[]]. Qed.

Lemma fold_maximum_pinf l x :
  Forall (fun v => F32.is_nan v = false) (x :: l) ->
  In F32.pinf (x :: l) -> fold_left F32.maximum l x = F32.pinf.
Proof.
  revert x. induction l as [|y l IH]; intros x Hn Hin.
  - destruct Hin as [->|[]]. reflexivity.
  - apply Forall_cons in Hn as [Hx Hn]. pose proof Hn as Hn'.
    apply Forall_cons in Hn' as [Hy Hl]. simpl.
    destruct Hin as [->|[->|Hin]].
    + rewrite maximum_pinf_l by exact Hy. apply IH; [by constructor | by left].
    + rewrite maximum_pinf_r by exact Hx. apply IH; [by constructor | by left].
    + apply IH; [|by right]. constructor; [|exact Hl].
      unfold F32.maximum. by destruct (_ || _).
Qed.

Lemma fold_minimum_ninf l x :
  Forall (fun v => F32.is_nan v = false) (x :: l) ->
  In (S754_infinity true) (x :: l) -> fold_left F32.minimum l x = S754_infinity true.
Proof.
  revert x. induction l as [|y l IH]; intros x Hn Hin.
  - destruct Hin as [->|[]]. reflexivity.
  - apply Forall_cons in Hn as [Hx Hn]. pose proof Hn as Hn'.
    apply Forall_cons in Hn' as [Hy Hl]. simpl.
    destruct Hin as [->|[->|Hin]].
    + rewrite minimum_ninf_l by exact Hy. apply IH; [by constructor | by left].
    + rewrite minimum_ninf_r by exact Hx. apply IH; [by constructor | by left].
    + apply IH; [|by right]. constructor; [|exact Hl].
      unfold F32.minimum. by destruct (_ || _).
Qed.

(** A quotient by plus infinity or by NaN is a zero or NaN. *)
Lemma div_by_pinf_or_nan n d :
  d = F32.pinf \/ d = F32.nan ->
  F32.div n d = F32.nan \/ exists s, F32.div n d = S754_zero s.
Proof. intros [-> | ->]; destruct n as [[]|[]| |[]]; simpl; eauto. Qed.

(** X12.  One infinity in a requested region without NaN leaves nothing of
    the image: the denominator [max - min] is plus infinity or NaN, so
    every element of the result is a zero or NaN. *)
Theorem one_infinity_leaves_zeros_and_nans self roi result region :
  get (Input self) roi = Ok region ->
  Forall (fun v => F32.is_nan v = false) (data region) ->
  In F32.pinf (data region) \/ In (S754_infinity true) (data region) ->
  exists out,
    execute self roi result = Ok out /\
    shape out = shape region /\
    length (data out) = length (data region) /\
    Forall (fun v => v = F32.nan \/ exists s, v = S754_zero s) (data out).
Proof.
  intros Hin Hnn Hinf. rewrite execute_eq. munfold. rewrite Hin.
  destruct (np_max region) as [M|] eqn:HM.
  2:{ unfold np_max in HM. destruct (data region); [destruct Hinf as [[]|[]]|discriminate]. }
  destruct (np_min region) as [m|] eqn:Hm.
  2:{ unfold np_min in Hm. destruct (data region); [destruct Hinf as [[]|[]]|discriminate]. }
  eexists. split; [reflexivity|]. split; [reflexivity|]. cbn [data].
  split; [by rewrite length_map|].
  assert (HMn : F32.is_nan M = false).
  { rewrite Forall_forall in Hnn. apply Hnn, list_elem_of_In. by apply np_max_in. }
  assert (Hmn : F32.is_nan m = false).
  { rewrite Forall_forall in Hnn. apply Hnn, list_elem_of_In. by apply np_min_in. }
  assert (HD : F32.sub M m = F32.pinf \/ F32.sub M m = F32.nan).
  { destruct Hinf as [Hp|Hn].
    - assert (M = F32.pinf) as ->.
      { unfold np_max in HM. destruct (data region) as [|x l]; [destruct Hp|].
        injection HM as <-. by apply fold_maximum_pinf. }
      destruct m as [[]|[]| |[]]; try discriminate; simpl; auto.
    - assert (m = S754_infinity true) as ->.
      { unfold np_min in Hm. destruct (data region) as [|x l]; [destruct Hn|].
        injection Hm as <-. by apply fold_minimum_ninf. }
      destruct M as [[]|[]| |[]]; try discriminate; simpl; auto. }
  apply Forall_forall. intros v Hv. apply list_elem_of_In, in_map_iff in Hv as (x & <- & _).
  unfold rescale. by apply div_by_pinf_or_nan.
Qed.

Lemma one_infinity_leaves_zeros_and_nans_witness :
  let region := mk_ndarray [1; 2; 2; 1; 1]
                  [F32.of_Z 0; F32.pinf; F32.of_Z 5; F32.of_Z 2] in
  let r := OpNormalize255.execute (OpNormalize255.mk (Demo.slot_of region))
             (roiFromShape [1; 2; 2; 1; 1]) (Demo.zeros_f32 [1; 2; 2; 1; 1]) in
  r = Ok (mk_ndarray [1; 2; 2; 1; 1] [F32.pzero; F32.nan; F32.pzero; F32.pzero]) /\
  exists out, r = Ok out /\
    Forall (fun v => v = F32.nan \/ exists s, v = S754_zero s) (data out).
Proof.
  cbv zeta. split; [vm_compute; reflexivity|].
  destruct (one_infinity_leaves_zeros_and_nans
              (OpNormalize255.mk (Demo.slot_of (mk_ndarray [1; 2; 2; 1; 1]
                 [F32.of_Z 0; F32.pinf; F32.of_Z 5; F32.of_Z 2])))
              (roiFromShape [1; 2; 2; 1; 1]) (Demo.zeros_f32 [1; 2; 2; 1; 1])
              (mk_ndarray [1; 2; 2; 1; 1] [F32.of_Z 0; F32.pinf; F32.of_Z 5; F32.of_Z 2]))
    as (out & He & _ & _ & Hf).
  - vm_compute. reflexivity.
  - vm_compute. repeat constructor.
  - left. right. left. reflexivity.
  - exists out. auto.
Defined.

(** X13.  For a region of finite float32 values with minimum below
    maximum, as long as [max - min] does not overflow, nothing in the
    result is NaN or negative: every element is a zero, a positive number
    or plus infinity.  When [max - min] overflows to plus infinity -- which
    finite values can make it do -- the element at the maximum comes back as
    NaN. *)
Theorem finite_region_stays_nonnegative self roi result region m M :
  get (Input self) roi = Ok region ->
  Forall (fun x => F32.is_finite x = true /\ F32.valid x = true) (data region) ->
  np_min region = Ok m ->
  np_max region = Ok M ->
  F32.ltb m M = true ->
  (F32.is_finite (F32.sub M m) = true ->
   exists out,
     execute self roi result = Ok out /\
     Forall (fun v => (exists s, v = S754_zero s) \/ v = F32.pinf \/
                      exists mv ev, v = S754_finite false mv ev) (data out))
  /\ (F32.sub M m = F32.pinf -> rescale m M M = F32.nan).
Proof.
  intros Hin Hfin Hmin Hmax Hlt.
  pose proof (np_min_in _ _ Hmin) as Im. pose proof (np_max_in _ _ Hmax) as IM.
  assert (Hval : forall x, In x (data region) -> fin_valid x).
  { intros x Hx. rewrite Forall_forall in Hfin.
    destruct (Hfin x) as [? ?]; [by apply list_elem_of_In|]. by apply fin_valid_of_bools. }
  pose proof (Hval m Im) as Vm. pose proof (Hval M IM) as VM.
  pose proof (sub_pos m M Vm VM Hlt) as HD.
  split.
  - intros HDf. rewrite execute_eq. munfold. rewrite Hin, Hmax, Hmin.
    eexists. split; [reflexivity|]. cbn [data].
    assert (HD' : exists mD eD, F32.sub M m = S754_finite false mD eD).
    { unfold F32.sub, F32.prec, F32.emax in *.
      destruct HD as [HD|(mD & eD & HD & _)]; [rewrite HD in HDf; discriminate|eauto]. }
    destruct HD' as (mD & eD & HDe).
    assert (Hlow : Forall (f32_le m) (data region)).
    { unfold np_min in Hmin. destruct (data region) as [|x0 l] eqn:E; [discriminate|].
      injection Hmin as <-. apply fold_minimum_lower.
      apply Forall_forall. intros v Hv.
      apply list_elem_of_In, Hval in Hv. by destruct v. }
    apply Forall_forall. intros v Hv.
    apply list_elem_of_In, in_map_iff in Hv as (x & <- & Hx).
    pose proof (Hval x Hx) as Vx.
    rewrite Forall_forall in Hlow. specialize (Hlow x (proj2 (list_elem_of_In _ _) Hx)).
    unfold rescale. rewrite HDe. unfold F32.sub, F32.mul, F32.div, F32.prec, F32.emax.
    destruct Hlow as [Hlt'|Heq].
    + assert (Hl : SFltb m x = true) by (unfold SFltb; by rewrite Hlt').
      destruct (sub_pos m x Vm Vx Hl) as [HN|(mN & eN & HN & HeN)]; rewrite HN.
      * right. left. reflexivity.
      * destruct (mul_c255_spec mN eN HeN) as [HP|(mP & eP & HP & _)];
          cbv zeta in HP; rewrite HP.
        -- right. left. reflexivity.
        -- destruct (div_pos_sign mP eP mD eD) as [H|[H|H]]; cbv zeta in H.
           ++ left. eauto.
           ++ right. left. exact H.
           ++ right. right. exact H.
    + destruct (sub_eq_zero x m Vx Vm Heq) as [s Hs]. rewrite Hs.
      left. exists s. by destruct s.
  - intros HDinf. unfold rescale. rewrite HDinf. reflexivity.
Qed.

Lemma finite_region_stays_nonnegative_witness :
  let region := mk_ndarray [1; 3; 1; 1; 1] (Demo.f32s [0; 10; 20]) in
  let wide := mk_ndarray [1; 2; 1; 1; 1]
                [S754_finite true 8388608 104; S754_finite false 8388608 104] in
  (exists out,
      execute (OpNormalize255.mk (Demo.slot_of region)) (roiFromShape [1; 3; 1; 1; 1])
        (Demo.zeros_f32 [1; 3; 1; 1; 1]) = Ok out /\
      Forall (fun v => (exists s, v = S754_zero s) \/ v = F32.pinf \/
                       exists mv ev, v = S754_finite false mv ev) (data out))
  /\ execute (OpNormalize255.mk (Demo.slot_of wide)) (roiFromShape [1; 2; 1; 1; 1])
       (Demo.zeros_f32 [1; 2; 1; 1; 1])
     = Ok (mk_ndarray [1; 2; 1; 1; 1] [F32.pzero; F32.nan])
  /\ rescale (S754_finite true 8388608 104) (S754_finite false 8388608 104)
       (S754_finite false 8388608 104) = F32.nan.
Proof.
  cbv zeta. split; [|split].
  - apply (proj1 (finite_region_stays_nonnegative
                    (OpNormalize255.mk (Demo.slot_of
                       (mk_ndarray [1; 3; 1; 1; 1] (Demo.f32s [0; 10; 20]))))
                    (roiFromShape [1; 3; 1; 1; 1]) (Demo.zeros_f32 [1; 3; 1; 1; 1])
                    (mk_ndarray [1; 3; 1; 1; 1] (Demo.f32s [0; 10; 20]))
                    (F32.of_Z 0) (F32.of_Z 20)
                    ltac:(vm_compute; reflexivity)
                    ltac:(vm_compute; repeat constructor)
                    ltac:(vm_compute; reflexivity)
                    ltac:(vm_compute; reflexivity)
                    ltac:(vm_compute; reflexivity))).
    vm_compute. reflexivity.
  - vm_compute. reflexivity.
  - apply (proj2 (finite_region_stays_nonnegative
                    (OpNormalize255.mk (Demo.slot_of
                       (mk_ndarray [1; 2; 1; 1; 1]
                          [S754_finite true 8388608 104; S754_finite false 8388608 104])))
                    (roiFromShape [1; 2; 1; 1; 1]) (Demo.zeros_f32 [1; 2; 1; 1; 1])
                    (mk_ndarray [1; 2; 1; 1; 1]
                       [S754_finite true 8388608 104; S754_finite false 8388608 104])
                    (S754_finite true 8388608 104) (S754_finite false 8388608 104)
                    ltac:(vm_compute; reflexivity)
                    ltac:(vm_compute; repeat constructor)
                    ltac:(vm_compute; reflexivity)
                    ltac:(vm_compute; reflexivity)
                    ltac:(vm_compute; reflexivity))).
    vm_compute. reflexivity.
Defined.

End NormalizationEdges.

(* ===================================================================== *)
(** * The graph builder: throttled progress, inputs, returned object     *)
(* ===================================================================== *)

Section GraphBuilderRun.
Import OpMstSegmentorProvider.

Lemma last_nonempty (y : Z) sig d1 d2 : List.last (y :: sig) d1 = List.last (y :: sig) d2.
Proof.
  revert y. induction sig as [|z sig IH]; intros y; [reflexivity|].
  change (List.last (z :: sig) d1 = List.last (z :: sig) d2). apply IH.
Qed.

Lemma last_cons_default (x : Z) sig p : List.last (x :: sig) p = List.last sig x.
Proof.
  destruct sig as [|y sig]; [reflexivity|].
  change (List.last (y :: sig) p = List.last (y :: sig) x). apply last_nonempty.
Qed.

Lemma run_callbacks_spec xs a :
  exists sig,
    run_callbacks xs a
    = (Ok tt, mk_applet (List.last sig (progress a)) (log a ++ map ProgressSignal sig))
    /\ sig `sublist_of` xs
    /\ spaced (progress a) sig
    /\ (In 100 xs -> In 100 sig).
Proof.
  revert a. induction xs as [|x xs IH]; intros a.
  - exists []. simpl. rewrite app_nil_r. destruct a. repeat split; [constructor | tauto].
  - cbn [run_callbacks]. unfold updateProgressBar, progressSignal, emit, set_progress.
    munfold. cbn [progress log].
    destruct ((1 <? x - progress a) || (x =? 100)) eqn:E.
    + destruct (IH (mk_applet x (log a ++ [ProgressSignal x])))
        as (sig & Hrun & Hsub & Hsp & H100).
      exists (x :: sig). cbn [progress log] in *. rewrite Hrun.
      split; [|split; [|split]].
      * f_equal. f_equal; [by rewrite last_cons_default | by rewrite <- app_assoc].
      * by constructor.
      * split; [|exact Hsp]. apply orb_true_iff in E as [E|E]; [left|right]; lia.
      * intros [<-|Hin]; [by left | right; auto].
    + destruct (IH a) as (sig & Hrun & Hsub & Hsp & H100).
      exists sig. rewrite Hrun. split; [reflexivity|]. split; [by constructor|].
      split; [exact Hsp|]. intros [->|Hin]; [|auto].
      apply orb_false_iff in E as [_ E]. discriminate.
Qed.

(** X14.  [updateProgressBar] forwards a reported value to
    [progressSignal] exactly when it is more than one above the value
    signalled last or equals 100, and then records it in
    [applet.progress]; otherwise it does nothing.  Over any sequence of
    reports the signals sent are therefore a subsequence of the reports,
    each more than one above the one before it or equal to 100, every
    report of 100 is among them, and [applet.progress] ends as the last
    value signalled. *)
Theorem progress_signals_are_throttled xs a :
  (exists sig,
      run_callbacks xs a
      = (Ok tt, mk_applet (List.last sig (progress a)) (log a ++ map ProgressSignal sig))
      /\ sig `sublist_of` xs
      /\ spaced (progress a) sig
      /\ (In 100 xs -> In 100 sig))
  /\ (forall x, 1 < x - progress a \/ x = 100 ->
        updateProgressBar x a = (Ok tt, mk_applet x (log a ++ [ProgressSignal x])))
  /\ (forall x, x - progress a <= 1 -> x <> 100 ->
        updateProgressBar x a = (Ok tt, a)).
Proof.
  split; [apply run_callbacks_spec|].
  unfold updateProgressBar, progressSignal, emit, set_progress. munfold.
  split; intros x.
  - intros H.
    assert ((1 <? x - progress a) || (x =? 100) = true) as ->; [|reflexivity].
    apply orb_true_iff. destruct H; [left; lia | right; lia].
  - intros H1 H2.
    assert ((1 <? x - progress a) || (x =? 100) = false) as ->; [|reflexivity].
    apply orb_false_iff. split; lia.
Qed.

Lemma progress_signals_are_throttled_witness :
  OpMstSegmentorProvider.updateProgressBar 5 Demo.applet0
  = (Ok tt, mk_applet 5 [ProgressSignal 5]) /\
  OpMstSegmentorProvider.updateProgressBar 1 Demo.applet0 = (Ok tt, Demo.applet0) /\
  OpMstSegmentorProvider.updateProgressBar 100 (mk_applet 99 [])
  = (Ok tt, mk_applet 100 [ProgressSignal 100]).
Proof.
  split; [|split].
  - destruct (progress_signals_are_throttled [] Demo.applet0) as (_ & H & _).
    apply (H 5). left. vm_compute. reflexivity.
  - destruct (progress_signals_are_throttled [] Demo.applet0) as (_ & _ & H).
    apply (H 1); vm_compute; discriminate.
  - destruct (progress_signals_are_throttled [] (mk_applet 99 [])) as (_ & H & _).
    apply (H 100). right. reflexivity.
Defined.

(** X15.  When the feature image or the label image cannot be read, the
    graph constructor is not called: [OpMstSegmentorProvider.execute]
    raises the upstream exception, the only events are [progressSignal(-1)]
    and [progressSignal(100)], and [applet.progress] keeps its value. *)
Theorem unreadable_input_skips_the_constructor env self result a e :
  get (Image self) (roiFromShape (meta_shape (meta (Image self)))) = Raise e \/
  (exists vf,
      get (Image self) (roiFromShape (meta_shape (meta (Image self)))) = Ok vf /\
      get (LabelImage self) (roiFromShape (meta_shape (meta (LabelImage self)))) = Raise e) ->
  execute env self Slot_MST result a
  = (Raise e,
     mk_applet (progress a) (log a ++ [ProgressSignal (-1); ProgressSignal 100])).
Proof.
  intros H. rewrite execute_unfold. cbv zeta. unfold execute_body. munfold.
  destruct H as [H|(vf & H1 & H2)].
  - rewrite H. cbn [progress log]. by rewrite <- app_assoc.
  - rewrite H1, H2. cbn [progress log]. by rewrite <- app_assoc.
Qed.

Lemma unreadable_input_skips_the_constructor_witness :
  OpMstSegmentorProvider.execute (Demo.env 4)
    (OpMstSegmentorProvider.mk (Examples.broken_slot [1; 2; 2; 1; 1])
       (Demo.label_slot [1; 2; 2; 1; 1] [1; 1; 2; 2]))
    OpMstSegmentorProvider.Slot_MST [None] Demo.applet0
  = (Raise (UpstreamError "no data"),
     mk_applet 0 [ProgressSignal (-1); ProgressSignal 100]).
Proof.
  apply (unreadable_input_skips_the_constructor (Demo.env 4)
           (OpMstSegmentorProvider.mk (Examples.broken_slot [1; 2; 2; 1; 1])
              (Demo.label_slot [1; 2; 2; 1; 1] [1; 1; 2; 2]))
           [None] Demo.applet0 (UpstreamError "no data")).
  left. reflexivity.
Defined.

(** X16.  When both images can be read and the constructor returns a
    graph, [OpMstSegmentorProvider.execute] calls the constructor once, on
    [LabelImage[0, ..., 0]] and [Image[0, ..., 0]] of the whole volumes,
    and returns the result buffer with the graph in its first place and
    the graph's [raw] attribute cleared, whatever the constructor had set.
    The events are [progressSignal(-1)], the call, the throttled progress
    signals counted from 0, and [progressSignal(100)]. *)
Theorem built_graph_is_returned_without_raw
        env self result a vf lv v1 v2 reported g x rest :
  get (Image self) (roiFromShape (meta_shape (meta (Image self)))) = Ok vf ->
  get (LabelImage self) (roiFromShape (meta_shape (meta (LabelImage self)))) = Ok lv ->
  view_0_ellipsis_0 (shape lv) = Ok v1 ->
  view_0_ellipsis_0 (shape vf) = Ok v2 ->
  WatershedSegmentor env (read_view lv v1) (read_view vf v2) = (reported, Ok g) ->
  result = x :: rest ->
  exists sig,
    execute env self Slot_MST result a
    = (Ok (Some (mk_segmentor (graph g) None) :: rest),
       mk_applet (List.last sig 0)
         (log a ++ [ProgressSignal (-1);
                    Call_WatershedSegmentor (read_view lv v1) (read_view vf v2)]
                ++ map ProgressSignal sig ++ [ProgressSignal 100]))
    /\ sig `sublist_of` reported
    /\ spaced 0 sig
    /\ (In 100 reported -> In 100 sig).
Proof.
  intros Hvf Hlv Hv1 Hv2 Hw ->. rewrite execute_unfold. cbv zeta.
  unfold execute_body, set_progress, emit. munfold.
  rewrite Hvf, Hlv. cbn [progress log]. rewrite Hv1, Hv2. cbn [progress log]. rewrite Hw.
  match goal with |- context [run_callbacks reported ?s] =>
    destruct (run_callbacks_spec reported s) as (sig & Hrun & Hsub & Hsp & H100)
  end.
  rewrite Hrun. cbn [progress log] in *. exists sig.
  split; [|auto]. unfold setitem. cbn [length].
  rewrite bool_decide_eq_true_2 by lia. cbn [progress log].
  f_equal. f_equal. rewrite <- !app_assoc. reflexivity.
Qed.

Lemma built_graph_is_returned_without_raw_witness :
  exists sig,
    OpMstSegmentorProvider.execute (Demo.env 4) Demo.provider
      OpMstSegmentorProvider.Slot_MST [None] Demo.applet0
    = (Ok [Some (mk_segmentor 7 None)],
       mk_applet (List.last sig 0)
         ([ProgressSignal (-1);
           Call_WatershedSegmentor (mk_ndarray [2; 2; 1] [1; 1; 2; 2])
             (mk_ndarray [2; 2; 1] (Demo.f32s [0; 85; 170; 255]))]
          ++ map ProgressSignal sig ++ [ProgressSignal 100]))
    /\ sig `sublist_of` [0; 1; 5; 50; 100]
    /\ In 100 sig.
Proof.
  destruct (built_graph_is_returned_without_raw (Demo.env 4) Demo.provider [None]
              Demo.applet0
              (mk_ndarray [1; 2; 2; 1; 1] (Demo.f32s [0; 85; 170; 255]))
              (mk_ndarray [1; 2; 2; 1; 1] [1; 1; 2; 2])
              (mk_view [0; 0; 0; 0; 0] [1; 2; 2; 1; 1] [2; 2; 1])
              (mk_view [0; 0; 0; 0; 0] [1; 2; 2; 1; 1] [2; 2; 1])
              [0; 1; 5; 50; 100]
              (mk_segmentor 7 (Some (mk_ndarray [2; 2; 1] (Demo.f32s [0; 85; 170; 255]))))
              None [])
    as (sig & He & Hsub & _ & H100); [by_computation..|].
  exists sig. split; [exact He|]. split; [exact Hsub|]. apply H100. simpl. auto 10.
Defined.

End GraphBuilderRun.

(* ===================================================================== *)
(** * The orchestrator: rebuilds, notifications, aliasing, invariants    *)
(* ===================================================================== *)

Section OrchestratorLifecycle.
Import OpPreprocessing.

(** The four ways a request can end. *)
Lemma execute_cases env w result :
  let r := execute env Slot_PreprocessedData result w in
  snd r = w
  \/ (exists e a1,
        OpMstSegmentorProvider.MST_value env (_opMstProvider (self w))
          (requested (applet w)) = (Raise e, a1) /\
        r = (Raise e, mk_world (self w) (heap w) a1))
  \/ (exists g a1 x rest,
        may_use_cache w = (Ok false, w) /\
        OpMstSegmentorProvider.MST_value env (_opMstProvider (self w))
          (requested (applet w)) = (Ok (Some g), a1) /\
        heap w !! result = Some (x :: rest) /\
        r = (Ok result,
             mk_world (rebuilt (self w) result) (<[result := Some g :: rest]> (heap w))
               (mk_applet (progress a1) (log a1 ++ [SetDirty_PreprocessedData]))))
  \/ (exists mst a1,
        OpMstSegmentorProvider.MST_value env (_opMstProvider (self w))
          (requested (applet w)) = (Ok mst, a1) /\
        (heap w !! result = None \/ heap w !! result = Some []) /\
        r = (Raise IndexError, mk_world (rebuilt (self w) result) (heap w) a1)).
Proof.
  cbv zeta. destruct (may_use_cache_cases w) as [Hm|[Hm|[e Hm]]].
  - apply may_use_cache_true in Hm as (Hd & mst & rest & Hc).
    rewrite (execute_cached env w result mst rest Hd Hc). by left.
  - rewrite (execute_recompute env w result Hm).
    destruct (OpMstSegmentorProvider.MST_value _ _ _) as [[mst|e] a1] eqn:E.
    + destruct (MST_value_is_object _ _ _ _ _ E) as [g ->].
      destruct (heap w !! result) as [[|x rest]|] eqn:Hr.
      * right. right. right. exists (Some g), a1. auto.
      * right. right. left. exists g, a1, x, rest. auto.
      * right. right. right. exists (Some g), a1. auto.
    + right. left. eauto.
  - rewrite (execute_fails_early env w result e Hm). by left.
Qed.

Lemma execute_keeps_coherent env w result :
  coherent w -> coherent (snd (execute env Slot_PreprocessedData result w)).
Proof.
  intros Hc.
  destruct (execute_cases env w result)
    as [H|[(e & a1 & _ & H)|[(g & a1 & x & rest & _ & _ & Hr & H)|(mst & a1 & _ & Hr & H)]]];
    cbv zeta in H; rewrite H; clear H.
  - exact Hc.
  - exact Hc.
  - intros _. simpl. repeat split.
  - intros (_ & m & rest & Hh). simpl in Hh. destruct Hr as [Hr|Hr]; congruence.
Qed.

Lemma propagateDirty_dirty slot w : _dirty (self (snd (propagateDirty slot w))) = true.
Proof.
  unfold propagateDirty, on_self, alloc_none. munfold.
  by destruct (bool_decide (slot = Slot_InputData)).
Qed.

Lemma propagateDirty_keeps_coherent slot w : coherent (snd (propagateDirty slot w)).
Proof. intros [Hd _]. rewrite propagateDirty_dirty in Hd. discriminate. Qed.

Lemma init_coherent sigma filter doAgglo sizeRegularizer reduceTo prov :
  coherent (init sigma filter doAgglo sizeRegularizer reduceTo prov).
Proof.
  intros (_ & mst & rest & H). unfold init in H. cbn [heap self cachedResult] in H.
  rewrite lookup_singleton_eq in H. discriminate.
Qed.

(** X17.  Over any sequence of requests and change notifications, from a
    new operator or from any state with the property: whenever the
    operator is in the state in which it answers from the cache (clean,
    with a cached graph), its five cached parameters are the values on
    the parameter slots and [hasUnsavedData] is set. *)
Theorem cache_answers_match_current_parameters env ops :
  (forall w, coherent w -> coherent (run_ops env ops w))
  /\ (forall sigma filter doAgglo sizeRegularizer reduceTo prov,
        let w := run_ops env ops
                   (init sigma filter doAgglo sizeRegularizer reduceTo prov) in
        cache_ready w ->
        snapshot_is_current (self w) /\ hasUnsavedData (self w) = true).
Proof.
  assert (H : forall w, coherent w -> coherent (run_ops env ops w)).
  { induction ops as [|[result|slot] ops IH]; intros w Hc; simpl.
    - exact Hc.
    - apply IH. by apply execute_keeps_coherent.
    - apply IH. apply propagateDirty_keeps_coherent. }
  split; [exact H|]. intros sigma filter doAgglo sizeRegularizer reduceTo prov.
  cbv zeta. apply H, init_coherent.
Qed.

Lemma cache_answers_match_current_parameters_witness :
  let w := run_ops (Demo.env 4)
             [Request 5%positive; Notify OpPreprocessing.Slot_Sigma; Request 6%positive]
             Demo.world0 in
  cache_ready w /\
  snapshot_is_current (OpPreprocessing.self w) /\
  OpPreprocessing.hasUnsavedData (OpPreprocessing.self w) = true.
Proof.
  cbv zeta.
  assert (Hr : cache_ready
                 (run_ops (Demo.env 4)
                    [Request 5%positive; Notify OpPreprocessing.Slot_Sigma;
                     Request 6%positive] Demo.world0)).
  { split; [vm_compute; reflexivity|]. eexists _, _. vm_compute. reflexivity. }
  split; [exact Hr|].
  destruct (cache_answers_match_current_parameters (Demo.env 4)
              [Request 5%positive; Notify OpPreprocessing.Slot_Sigma;
               Request 6%positive]) as (H & _).
  apply (H Demo.world0); [|exact Hr].
  intros (_ & mst & rest & Hh). vm_compute in Hh. discriminate.
Defined.

Lemma same_settings_refl s : same_settings s s.
Proof. repeat split; auto. Qed.

Lemma same_settings_trans s1 s2 s3 :
  same_settings s1 s2 -> same_settings s2 s3 -> same_settings s1 s3.
Proof.
  intros (A1 & A2 & A3 & A4 & A5 & A6 & A7 & A8) (B1 & B2 & B3 & B4 & B5 & B6 & B7 & B8).
  repeat split; try congruence. auto.
Qed.

Lemma same_settings_rebuilt s result : same_settings s (rebuilt s result).
Proof. repeat split. Qed.

Lemma execute_same_settings env w result :
  same_settings (self w) (self (snd (execute env Slot_PreprocessedData result w))) /\
  (forall l, is_Some (heap w !! l) ->
             is_Some (heap (snd (execute env Slot_PreprocessedData result w)) !! l)) /\
  exists evs, log (applet (snd (execute env Slot_PreprocessedData result w)))
              = log (applet w) ++ evs.
Proof.
  destruct (execute_cases env w result)
    as [H|[(e & a1 & E & H)|[(g & a1 & x & rest & _ & E & Hr & H)|(mst & a1 & E & Hr & H)]]];
    cbv zeta in H; rewrite H; clear H; cbn [snd self heap applet log].
  - split; [apply same_settings_refl|]. split; [auto|]. exists []. by rewrite app_nil_r.
  - split; [apply same_settings_refl|]. split; [auto|].
    destruct (appends_MST_value _ _ _ _ _ E) as (evs & Hl & _). simpl in Hl.
    rewrite Hl, <- app_assoc. eauto.
  - split; [apply same_settings_rebuilt|]. split.
    + intros l Hl. destruct (decide (l = result)) as [->|Hne].
      * rewrite lookup_insert_eq. by eexists.
      * by rewrite lookup_insert_ne.
    + destruct (appends_MST_value _ _ _ _ _ E) as (evs & Hl & _). simpl in Hl.
      rewrite Hl, <- !app_assoc. eauto.
  - split; [apply same_settings_rebuilt|]. split; [auto|].
    destruct (appends_MST_value _ _ _ _ _ E) as (evs & Hl & _). simpl in Hl.
    rewrite Hl, <- app_assoc. eauto.
Qed.

Lemma propagateDirty_same_settings slot w :
  same_settings (self w) (self (snd (propagateDirty slot w))) /\
  (forall l, is_Some (heap w !! l) -> is_Some (heap (snd (propagateDirty slot w)) !! l)) /\
  applet (snd (propagateDirty slot w)) = applet w.
Proof.
  unfold propagateDirty, on_self, alloc_none. munfold.
  destruct (bool_decide (slot = Slot_InputData)); simpl.
  - split; [repeat split; auto|]. split; [|reflexivity].
    intros l Hl. destruct (decide (l = fresh (dom (heap w)))) as [->|Hne].
    + rewrite lookup_insert_eq. by eexists.
    + by rewrite lookup_insert_ne.
  - split; [repeat split; auto|]. auto.
Qed.

(** X18.  No sequence of requests and change notifications changes
    [deserialized], the values on the five parameter slots or the inner
    graph-building operator, resets [hasUnsavedData] once it is set,
    drops a list object, or removes an event from the log. *)
Theorem settings_outlive_requests_and_notifications env ops w :
  let w' := run_ops env ops w in
  same_settings (self w) (self w')
  /\ (forall l, is_Some (heap w !! l) -> is_Some (heap w' !! l))
  /\ (exists evs, log (applet w') = log (applet w) ++ evs).
Proof.
  cbv zeta. revert w. induction ops as [|[result|slot] ops IH]; intros w; simpl.
  - split; [apply same_settings_refl|]. split; [auto|]. exists []. by rewrite app_nil_r.
  - destruct (execute_same_settings env w result) as (S1 & H1 & evs1 & L1).
    destruct (IH (snd (execute env Slot_PreprocessedData result w))) as (S2 & H2 & evs2 & L2).
    split; [by eapply same_settings_trans|]. split; [auto|].
    exists (evs1 ++ evs2). by rewrite L2, L1, app_assoc.
  - destruct (propagateDirty_same_settings slot w) as (S1 & H1 & L1).
    destruct (IH (snd (propagateDirty slot w))) as (S2 & H2 & evs2 & L2).
    split; [by eapply same_settings_trans|]. split; [auto|].
    exists evs2. by rewrite L2, L1.
Qed.

Lemma settings_outlive_requests_and_notifications_witness :
  let w := run_ops Demo.env_failing
             [Notify OpPreprocessing.Slot_InputData; Request 6%positive]
             Demo.world_clean in
  OpPreprocessing.hasUnsavedData (OpPreprocessing.self w) = true /\
  OpPreprocessing.Sigma (OpPreprocessing.self w) = F32.of_Z 2 /\
  is_Some (OpPreprocessing.heap w !! 5%positive).
Proof.
  cbv zeta.
  pose proof (settings_outlive_requests_and_notifications Demo.env_failing
                [Notify OpPreprocessing.Slot_InputData; Request 6%positive]
                Demo.world_clean) as H.
  cbv zeta in H. destruct H as ((_ & Hs & _ & _ & _ & _ & _ & Hu) & Hh & _).
  split; [apply Hu; vm_compute; reflexivity|].
  split; [rewrite Hs; vm_compute; reflexivity|].
  apply Hh. eexists. vm_compute. reflexivity.
Defined.

Lemma MST_value_without_raw env prov a v a' :
  OpMstSegmentorProvider.MST_value env prov a = (Ok v, a') ->
  exists g, v = Some g /\ raw g = None.
Proof.
  unfold OpMstSegmentorProvider.MST_value. munfold. rewrite execute_unfold. simpl.
  destruct (OpMstSegmentorProvider.execute_body env prov [None] _) as [[r|e] a2] eqn:E;
    [|congruence].
  destruct (execute_body_value _ _ _ _ _ _ E) as (g & rest & -> & Hraw).
  simpl. intros [= <- <-]. eauto.
Qed.

(** X19.  A request that needs a rebuild and whose rebuild succeeds
    returns the caller's buffer with the new graph in its first place,
    makes that buffer the cached result, records the values on the five
    parameter slots as the cached parameters, sets [hasUnsavedData],
    clears the dirty flag, and -- after the graph was built, as the last
    event -- marks [PreprocessedData] dirty once. *)
Theorem rebuild_stores_graph_and_snapshot env w result mst a1 x rest :
  (_dirty (self w) = true \/
   exists rest0, heap w !! cachedResult (self w) = Some (None :: rest0)) ->
  OpMstSegmentorProvider.MST_value env (_opMstProvider (self w))
    (requested (applet w)) = (Ok mst, a1) ->
  heap w !! result = Some (x :: rest) ->
  let r := execute env Slot_PreprocessedData result w in
  let s' := self (snd r) in
  fst r = Ok result
  /\ (exists g, mst = Some g /\ raw g = None)
  /\ cachedResult s' = result
  /\ heap (snd r) = <[result := mst :: rest]> (heap w)
  /\ (_dirty s', hasUnsavedData s') = (false, true)
  /\ (cachedSigma s', cachedFilter s', cachedDoAgglo s',
      cachedSizeRegularizer s', cachedReduceTo s')
     = (Some (Sigma (self w)), Some (Filter (self w)), Some (DoAgglo (self w)),
        Some (SizeRegularizer (self w)), Some (ReduceTo (self w)))
  /\ (exists evs,
        log (applet (snd r))
        = log (applet w) ++ [MST_requested] ++ evs ++ [SetDirty_PreprocessedData] /\
        Forall provider_event evs).
Proof.
  intros Hn Hv Hr. cbv zeta.
  rewrite (execute_recompute env w result (needs_rebuild w Hn)), Hv, Hr.
  cbn [fst snd self heap applet log rebuilt cachedResult _dirty hasUnsavedData
       cachedSigma cachedFilter cachedDoAgglo cachedSizeRegularizer cachedReduceTo].
  destruct (appends_MST_value _ _ _ _ _ Hv) as (evs & Hl & F). simpl in Hl.
  repeat split.
  - exact (MST_value_without_raw _ _ _ _ _ Hv).
  - exists evs. split; [|exact F]. rewrite Hl, <- !app_assoc. reflexivity.
Qed.

Lemma rebuild_stores_graph_and_snapshot_witness :
  let r := OpPreprocessing.execute (Demo.env 4) OpPreprocessing.Slot_PreprocessedData
             5%positive Demo.world0 in
  fst r = Ok 5%positive /\
  OpPreprocessing.heap (snd r) !! 5%positive = Some [Some (mk_segmentor 7 None)] /\
  OpPreprocessing.cachedSigma (OpPreprocessing.self (snd r)) = Some (F32.of_Z 2) /\
  OpPreprocessing.hasUnsavedData (OpPreprocessing.self (snd r)) = true.
Proof.
  cbv zeta.
  destruct (rebuild_stores_graph_and_snapshot (Demo.env 4) Demo.world0 5%positive
              (Some (mk_segmentor 7 None))
              (snd (OpMstSegmentorProvider.MST_value (Demo.env 4)
                      (OpPreprocessing._opMstProvider (OpPreprocessing.self Demo.world0))
                      (OpPreprocessing.requested (OpPreprocessing.applet Demo.world0))))
              None [])
    as (H1 & _ & _ & H4 & H5 & H6 & _).
  - right. exists []. vm_compute. reflexivity.
  - vm_compute. reflexivity.
  - vm_compute. reflexivity.
  - split; [exact H1|]. split; [rewrite H4; apply lookup_insert_eq|].
    clear H5 H6. split; vm_compute; reflexivity.
Defined.

(** X20.  After a change notification on any slot, the next request
    starts the chain exactly once, whatever its outcome; if it returns,
    it hands back the buffer of that request, not the object cached
    before, and no list object other than that buffer is written to.  The
    first request to a new operator starts the chain as well. *)
Theorem notification_forces_a_rebuild env slot w result :
  let w1 := snd (propagateDirty slot w) in
  let r := execute env Slot_PreprocessedData result w1 in
  chain_runs (applet (snd r)) = S (chain_runs (applet w))
  /\ (forall l, fst r = Ok l ->
        l = result /\ cachedResult (self (snd r)) = result /\
        exists g rest, heap (snd r) !! result = Some (Some g :: rest))
  /\ (forall l v, l <> result -> heap w !! l = Some v -> heap (snd r) !! l = Some v)
  /\ (forall sigma filter doAgglo sizeRegularizer reduceTo prov,
        chain_runs (applet (snd (execute env Slot_PreprocessedData result
                                   (init sigma filter doAgglo sizeRegularizer
                                      reduceTo prov))))
        = 1%nat).
Proof.
  cbv zeta.
  pose proof (propagateDirty_dirty slot w) as Hd.
  assert (Hm : may_use_cache (snd (propagateDirty slot w))
               = (Ok false, snd (propagateDirty slot w)))
    by (apply needs_rebuild; by left).
  assert (Hheap : forall l v, heap w !! l = Some v ->
                              heap (snd (propagateDirty slot w)) !! l = Some v).
  { intros l v Hl. unfold propagateDirty, on_self, alloc_none. munfold.
    destruct (bool_decide (slot = Slot_InputData)); simpl; [|exact Hl].
    rewrite lookup_insert_ne; [exact Hl|].
    intros <-. pose proof (is_fresh (dom (heap w))) as Hf.
    apply Hf. apply elem_of_dom. by eexists. }
  assert (Happ : applet (snd (propagateDirty slot w)) = applet w)
    by apply propagateDirty_same_settings.
  split; [|split; [|split]].
  - rewrite rebuild_starts_chain_once by exact Hm. by rewrite Happ.
  - intros l Hl.
    destruct (execute env Slot_PreprocessedData result (snd (propagateDirty slot w)))
      as [r w2] eqn:E. simpl in Hl. subst r.
    destruct (execute_returns_clean _ _ _ _ _ E) as (Hc & _ & Hh & _).
    rewrite (execute_recompute _ _ _ Hm) in E.
    destruct (OpMstSegmentorProvider.MST_value _ _ _) as [[mst|e] a1]; [|discriminate].
    destruct (heap _ !! result) as [[|x rest]|]; try discriminate.
    injection E as -> <-. auto.
  - intros l v Hne Hl. apply Hheap in Hl.
    rewrite (execute_recompute _ _ _ Hm).
    destruct (OpMstSegmentorProvider.MST_value _ _ _) as [[mst|e] a1]; [|exact Hl].
    destruct (heap _ !! result) as [[|x rest]|]; cbn [snd heap]; try exact Hl.
    by rewrite lookup_insert_ne.
  - intros sigma filter doAgglo sizeRegularizer reduceTo prov.
    rewrite rebuild_starts_chain_once; [reflexivity|].
    apply needs_rebuild. right. exists []. unfold init. cbn [heap self cachedResult].
    apply lookup_singleton_eq.
Qed.

Lemma notification_forces_a_rebuild_witness :
  let w1 := snd (OpPreprocessing.propagateDirty OpPreprocessing.Slot_Filter
                   Demo.world_clean) in
  let r := OpPreprocessing.execute (Demo.env 4) OpPreprocessing.Slot_PreprocessedData
             6%positive w1 in
  OpPreprocessing.chain_runs (OpPreprocessing.applet (snd r)) = 2%nat /\
  OpPreprocessing.cachedResult (OpPreprocessing.self (snd r)) = 6%positive /\
  is_Some (OpPreprocessing.heap (snd r) !! 5%positive).
Proof.
  cbv zeta.
  pose proof (notification_forces_a_rebuild (Demo.env 4) OpPreprocessing.Slot_Filter
                Demo.world_clean 6%positive) as H.
  cbv zeta in H. destruct H as (Hn & Hok & Hk & _).
  split; [rewrite Hn; vm_compute; reflexivity|].
  split; [apply (Hok 6%positive); vm_compute; reflexivity|].
  eexists. apply Hk; [discriminate | vm_compute; reflexivity].
Defined.

(** X21.  The cache holds the caller's buffer, not a copy.  After a
    request has returned an object, a write to the first place of that
    object is what later requests see: they return the same object with
    the written graph in it without starting the chain, and when the place
    was cleared the next request starts the chain again although no slot
    was notified. *)
Theorem cache_is_the_callers_buffer env w result l w1 x w2 result2 :
  execute env Slot_PreprocessedData result w = (Ok l, w1) ->
  heap_set0 l x w1 = (Ok tt, w2) ->
  (forall g, x = Some g ->
     execute env Slot_PreprocessedData result2 w2 = (Ok l, w2) /\
     heap_get0 l w2 = (Ok (Some g), w2))
  /\ (x = None ->
      chain_runs (applet (snd (execute env Slot_PreprocessedData result2 w2)))
      = S (chain_runs (applet w2))).
Proof.
  intros He Hs.
  destruct (execute_returns_clean _ _ _ _ _ He) as (Hl & Hd & (mst & rest & Hh) & _).
  revert Hs. unfold heap_set0, setitem. munfold. rewrite Hh. cbn [length].
  rewrite bool_decide_eq_true_2 by lia. cbn [insert list_insert]. intros [= <-].
  split.
  - intros g ->. split.
    + pose proof (execute_cached env
                    (mk_world (self w1) (<[l := Some g :: rest]> (heap w1)) (applet w1))
                    result2 g rest Hd) as H.
      cbn [heap self] in H. rewrite <- Hl in H. apply H, lookup_insert_eq.
    + unfold heap_get0. munfold. cbn [heap]. rewrite lookup_insert_eq. reflexivity.
  - intros ->. apply rebuild_starts_chain_once. apply needs_rebuild. right.
    exists rest. cbn [heap self]. rewrite <- Hl. apply lookup_insert_eq.
Qed.

Lemma cache_is_the_callers_buffer_witness :
  let w2 := snd (OpPreprocessing.heap_set0 5%positive None Demo.world_clean) in
  OpPreprocessing.chain_runs (OpPreprocessing.applet w2) = 1%nat /\
  OpPreprocessing.chain_runs
    (OpPreprocessing.applet
       (snd (OpPreprocessing.execute (Demo.env 4) OpPreprocessing.Slot_PreprocessedData
               6%positive w2))) = 2%nat.
Proof.
  cbv zeta.
  assert (H1 : OpPreprocessing.chain_runs (OpPreprocessing.applet
                 (snd (OpPreprocessing.heap_set0 5%positive None Demo.world_clean)))
               = 1%nat) by (vm_compute; reflexivity).
  split; [exact H1|].
  rewrite (proj2 (cache_is_the_callers_buffer (Demo.env 4) Demo.world0 5%positive
                    5%positive Demo.world_clean None
                    (snd (OpPreprocessing.heap_set0 5%positive None Demo.world_clean))
                    6%positive
                    ltac:(vm_compute; reflexivity) ltac:(vm_compute; reflexivity))
                 eq_refl).
  by rewrite H1.
Defined.

End OrchestratorLifecycle.

(* ===================================================================== *)
(** * The dataset constraints                                            *)
(* ===================================================================== *)

Section DatasetConstraints.
Import Constraints.

Variable eq_shapes : list (string * Z) -> list (string * Z) -> bool.

Lemma checkConstraints_returns self :
  _checkConstraints eq_shapes self = Returns tt <->
  ready (InputData self) = false \/
  (admissible_input (slot_meta_of (InputData self)) /\
   (ready (OverlayData self) = true ->
    eq_shapes (getTaggedShape (slot_meta_of (OverlayData self)))
              (getTaggedShape (slot_meta_of (InputData self))) = true)).
Proof.
  unfold _checkConstraints, admissible_input, py, py_assert.
  unfold mbind, result_bind.
  destruct (ready (InputData self)); cbn [negb]; [|split; auto].
  split.
  - destruct (getTaggedShape_at _ "c") as [c|]; [|discriminate].
    destruct (Z.eqb_spec c 1) as [->|]; [|discriminate]. cbn [negb].
    destruct (getTaggedShape_at _ "t") as [t|]; [|discriminate].
    destruct (Z.eqb_spec t 1) as [->|]; [|discriminate]. cbn [negb].
    destruct (bool_decide _) eqn:E5; [|discriminate].
    apply bool_decide_eq_true in E5.
    destruct (all_spatial _ _) as [[]|]; try discriminate.
    destruct (ready (OverlayData self)); cbn [andb].
    + destruct (eq_shapes _ _); [|discriminate]. intros _. right. auto 10.
    + intros _. right. split; [auto 10|discriminate].
  - intros [H|((Hc & Ht & H5 & Hs) & Ho)]; [discriminate|].
    rewrite Hc, Ht. cbn [Z.eqb Pos.eqb negb].
    rewrite bool_decide_eq_true_2 by exact H5. rewrite Hs.
    destruct (ready (OverlayData self)); cbn [andb]; [|reflexivity].
    by rewrite Ho.
Qed.

(** X22.  [_checkConstraints] returns without raising in exactly two
    cases: [InputData] is not ready -- then nothing is checked -- or the
    input has one channel and one time point, a five-entry shape and
    spatial second to fourth axes, and the overlay, if ready, has the same
    tagged shape according to [eq_shapes]. *)
Theorem constraints_accept_exactly self :
  (ready (InputData self) = false -> _checkConstraints eq_shapes self = Returns tt)
  /\ (_checkConstraints eq_shapes self = Returns tt <->
      ready (InputData self) = false \/
      (admissible_input (slot_meta_of (InputData self)) /\
       (ready (OverlayData self) = true ->
        eq_shapes (getTaggedShape (slot_meta_of (OverlayData self)))
                  (getTaggedShape (slot_meta_of (InputData self))) = true))).
Proof.
  split; [|apply checkConstraints_returns].
  intros H. apply checkConstraints_returns. by left.
Qed.

Lemma tagged_missing m k :
  ~ In k (getAxisKeys m) -> getTaggedShape_at m k = Raise (KeyError (KStr k)).
Proof.
  intros Hk. unfold getTaggedShape_at.
  destruct (list_find _ _) as [[i [k' d]]|] eqn:E; [|reflexivity].
  apply list_find_Some in E as (Hi & Hf & _). simpl in Hf. subst k'.
  exfalso. apply Hk. apply list_elem_of_In.
  apply list_elem_of_lookup_2 in Hi.
  apply list_elem_of_In in Hi. apply in_combine_l in Hi. by apply list_elem_of_In.
Qed.

(** X23.  The errors of [_checkConstraints] on a ready input, in the order
    they are checked: a missing channel axis is a [KeyError]; a channel
    count other than one is a [DatasetConstraintError] for "Carving" that
    names the count, whatever else is wrong; then the same for the time
    points; then the two assertions on the shape's length and the spatial
    axes; and last the overlay's shape, with both shapes in the message. *)
Theorem constraint_errors_in_order self :
  ready (InputData self) = true ->
  let m := slot_meta_of (InputData self) in
  let r := _checkConstraints eq_shapes self in
  (~ In "c"%string (getAxisKeys m) -> r = Raises (PythonError (KeyError (KStr "c"))))
  /\ (forall c, getTaggedShape_at m "c" = Ok c -> c <> 1 ->
        r = Raises (DatasetConstraintError "Carving"
              ("Input image must have exactly one channel. You attempted to add a dataset with "
               ++ py_str c ++ " channels")))
  /\ (forall t, getTaggedShape_at m "c" = Ok 1 ->
        getTaggedShape_at m "t" = Ok t -> t <> 1 ->
        r = Raises (DatasetConstraintError "Carving"
              ("Input image must not have more than one time point. You attempted to add a dataset with "
               ++ py_str t ++ " time points")))
  /\ (getTaggedShape_at m "c" = Ok 1 -> getTaggedShape_at m "t" = Ok 1 ->
      length (meta_shape m) <> 5%nat ->
      r = Raises (PythonError (AssertionError
            ("was expecting a 5D dataset, got shape=" ++ py_str_tuple (meta_shape m)))))
  /\ (getTaggedShape_at m "c" = Ok 1 -> getTaggedShape_at m "t" = Ok 1 ->
      length (meta_shape m) = 5%nat ->
      all_spatial (axistags m) [1; 2; 3]%nat = Ok false ->
      r = Raises (PythonError (AssertionError "2nd to 4th axes must be spatial")))
  /\ (admissible_input m -> ready (OverlayData self) = true ->
      eq_shapes (getTaggedShape (slot_meta_of (OverlayData self))) (getTaggedShape m) = false ->
      r = Raises (DatasetConstraintError "Carving"
            ("Overlay image must have the same shape as raw data (different channels are ok). Your raw data has shape="
             ++ py_str_tuple (meta_shape m) ++ " but your overlay has shape "
             ++ py_str_tuple (meta_shape (slot_meta_of (OverlayData self)))))).
Proof.
  intros Hr. cbv zeta. unfold _checkConstraints, py, py_assert.
  unfold mbind, result_bind. rewrite Hr. cbn [negb].
  split; [|split; [|split; [|split; [|split]]]].
  - intros Hc. by rewrite (tagged_missing _ _ Hc).
  - intros c Hc Hne. rewrite Hc. apply Z.eqb_neq in Hne. rewrite Hne. reflexivity.
  - intros t Hc Ht Hne. rewrite Hc, Ht. apply Z.eqb_neq in Hne. rewrite Hne. reflexivity.
  - intros Hc Ht H5. rewrite Hc, Ht. cbn [Z.eqb Pos.eqb negb].
    by rewrite bool_decide_eq_false_2 by exact H5.
  - intros Hc Ht H5 Hs. rewrite Hc, Ht. cbn [Z.eqb Pos.eqb negb].
    rewrite bool_decide_eq_true_2 by exact H5. by rewrite Hs.
  - intros (Hc & Ht & H5 & Hs) Ho He. rewrite Hc, Ht. cbn [Z.eqb Pos.eqb negb].
    rewrite bool_decide_eq_true_2 by exact H5. rewrite Hs, Ho, He. reflexivity.
Qed.

(** X24.  An input that [_checkConstraints] accepts and whose axes are
    [t, x, y, z, c] satisfies every assertion of [OpFilter.execute]: for
    the filter operator connected to that input, a readable volume of
    shape [(1, x, y, z, 1)] and a known filter kind, the request gets as
    far as calling the filter. *)
Theorem accepted_input_reaches_the_filter
        self env fself roi result a volume5d x y z name :
  ready (InputData self) = true ->
  _checkConstraints eq_shapes self = Returns tt ->
  getAxisKeys (slot_meta_of (InputData self)) = OpSimpleBlockwiseWatershed.txyzc ->
  meta (OpFilter.Input fself) = slot_meta_of (InputData self) ->
  value (OpFilter.Input fself) = Ok volume5d ->
  shape volume5d = [1; x; y; z; 1] ->
  shape result = [1; x; y; z; 1] ->
  OpFilter.FILTER_NAMES !! OpFilter.Filter fself = Some name ->
  five_d_meta (meta (OpFilter.Input fself)) = true
  /\ exists fvol channel,
      log (snd (OpFilter.execute env fself roi result a))
      = log a ++ [Call_parallel_filter name fvol (OpFilter.Sigma fself)
                    (Z.max 1 (num_workers env)) channel].
Proof.
  intros Hr Hacc Hk Hmeta Hv Hsv Hsr Hn.
  apply checkConstraints_returns in Hacc as [Hacc|[(Hc & Ht & H5 & Hs) _]];
    [congruence|].
  assert (Hm : five_d_meta (meta (OpFilter.Input fself)) = true).
  { rewrite Hmeta. unfold five_d_meta.
    unfold getTaggedShape_at in Hc, Ht. rewrite Hk in Hc, Ht.
    unfold getAxisKeys in Hk.
    destruct (slot_meta_of (InputData self)) as [ax sh]. cbn [axistags meta_shape] in *.
    destruct ax as [|a0 [|a1 [|a2 [|a3 [|a4 [|a5 ax]]]]]]; try discriminate.
    destruct sh as [|s0 [|s1 [|s2 [|s3 [|s4 [|s5 sh]]]]]]; try discriminate.
    injection Hk as K0 _ _ _ K4.
    vm_compute in Hc. vm_compute in Ht. injection Hc as ->. injection Ht as ->.
    unfold all_spatial, getitem in Hs. cbn [nth_error] in Hs.
    unfold mbind, outcome_bind, obind in Hs.
    destruct (isSpatial a1); [|discriminate].
    destruct (isSpatial a2); [|discriminate].
    destruct (isSpatial a3); [|discriminate].
    rewrite !bool_decide_eq_true_2 by assumption. reflexivity. }
  split; [exact Hm|].
  rewrite (execute_prepared env fself roi result a volume5d x y z Hm Hv Hsv Hsr), Hn.
  cbn [snd log]. eauto.
Qed.

End DatasetConstraints.

Lemma constraints_accept_exactly_witness :
  Constraints._checkConstraints Examples.same_tagged_shape Examples.grey_image
  = Constraints.Returns tt /\
  Constraints._checkConstraints Examples.same_tagged_shape
    (Constraints.mk (Constraints.mk_cslot false (mk_meta [] []))
                    (Constraints.mk_cslot false (mk_meta [] [])))
  = Constraints.Returns tt.
Proof.
  split.
  - destruct (constraints_accept_exactly Examples.same_tagged_shape
                Examples.grey_image) as (_ & H).
    apply H. right. split; [repeat split; vm_compute; reflexivity|].
    intros Hr. vm_compute in Hr. discriminate.
  - destruct (constraints_accept_exactly Examples.same_tagged_shape
                (Constraints.mk (Constraints.mk_cslot false (mk_meta [] []))
                                (Constraints.mk_cslot false (mk_meta [] []))))
      as (H & _).
    apply H. reflexivity.
Defined.

Lemma constraint_errors_in_order_witness :
  Constraints._checkConstraints Examples.same_tagged_shape Examples.rgb_image
  = Constraints.Raises
      (Constraints.DatasetConstraintError "Carving"
         "Input image must have exactly one channel. You attempted to add a dataset with 3 channels").
Proof.
  destruct (constraint_errors_in_order Examples.same_tagged_shape Examples.rgb_image
              eq_refl) as (_ & Hc & _).
  rewrite (Hc 3); [vm_compute; reflexivity | vm_compute; reflexivity | discriminate].
Defined.

Lemma accepted_input_reaches_the_filter_witness :
  Constraints._checkConstraints Examples.same_tagged_shape Examples.grey_image
  = Constraints.Returns tt /\
  exists fvol channel,
    log (snd (OpFilter.execute (Demo.env 4) (Examples.filter_2d OpFilter.RAW)
                (roiFromShape [1; 2; 2; 1; 1]) (Demo.zeros_f32 [1; 2; 2; 1; 1])
                Demo.applet0))
    = [Call_parallel_filter "gaussianSmoothing" fvol (F32.of_Z 2) 4 channel].
Proof.
  split; [vm_compute; reflexivity|].
  destruct (accepted_input_reaches_the_filter Examples.same_tagged_shape
              Examples.grey_image (Demo.env 4) (Examples.filter_2d OpFilter.RAW)
              (roiFromShape [1; 2; 2; 1; 1]) (Demo.zeros_f32 [1; 2; 2; 1; 1])
              Demo.applet0
              (mk_ndarray [1; 2; 2; 1; 1] (Demo.f32s [1; 2; 3; 4])) 2 2 1
              "gaussianSmoothing")
    as (_ & fvol & channel & Hlog); [by_computation..|].
  exists fvol, channel. exact Hlog.
Defined.
